(** * osmosis-ai: interception and dual-sink logging core

    A shallow embedding of [src/osmosis-cloud.ts] (the transport sink) and of
    [src/index.ts] (request logging, the per-family wrappers and [configure]),
    followed by the properties of the specification that were checked against
    it.

    Conventions of the embedding.
    - JavaScript values that the code only inspects dynamically (request
      bodies, responses, queries) are terms of [JsVal]; objects keep their
      entries in insertion order.
    - A computation that prints, posts or throws is a term of [M A]: the trace
      of its effects, in causal order, and its completion.  An [async]
      function completes with [Normal v] when its promise is fulfilled with
      [v] and with [Throw e] when it is rejected with [e].
    - The callbacks attached to the promise of [fetch] run after
      [sendToOsmosis] has returned; their effects are recorded right after the
      [FetchCall] that causes them.
    - Built-ins of the platform ([Date], [Math.random], [JSON.stringify],
      [fetch], the hashers) are the fields of a [Platform] record. *)

From Stdlib Require Import ZArith String Ascii List Bool Lia.
From stdpp Require Import gmap strings list pretty.

Set Warnings "-register-all".
#[local] Open Scope Z_scope.

(* ===================================================================== *)
(** * JavaScript values *)
(* ===================================================================== *)

Inductive JsVal :=
| JUndefined
| JNull
| JBool (b : bool)
| JNum (n : Z)          (* an integer; both zeros are [JNum 0] *)
| JReal (text : string) (* any other number, by what [String] prints for
                           it: "0.7", "1e-7", "NaN", "Infinity" *)
| JStr (s : string)
| JArr (xs : list JsVal)
| JObj (fields : list (string * JsVal)).

(** A JavaScript object as its own entries, in insertion order. *)
Abbreviation Obj := (list (string * JsVal)).

(** ToBoolean. *)
Definition truthy (v : JsVal) : bool :=
  match v with
  | JUndefined | JNull => false
  | JBool b => b
  | JNum n => negb (n =? 0)
  | JReal text => negb (String.eqb text "NaN")
  | JStr s => negb (String.eqb s "")
  | JArr _ | JObj _ => true
  end.

(** [a || b] *)
Definition js_or (a b : JsVal) : JsVal := if truthy a then a else b.

(** [o.k] on an object: the first entry for [k], [undefined] when absent. *)
Fixpoint obj_get (o : Obj) (k : string) : JsVal :=
  match o with
  | [] => JUndefined
  | (k', v) :: r => if String.eqb k' k then v else obj_get r k
  end.

(** [o.k = v]: overwrite in place, or append a new entry. *)
Fixpoint obj_set (o : Obj) (k : string) (v : JsVal) : Obj :=
  match o with
  | [] => [(k, v)]
  | (k', v') :: r =>
      if String.eqb k' k then (k', v) :: r else (k', v') :: obj_set r k v
  end.

(** [{...a, ...b}] *)
Definition obj_spread (a b : Obj) : Obj :=
  fold_left (fun acc kv => obj_set acc (fst kv) (snd kv)) b a.

(** The entries copied by [...v]: those of an object; nothing for
    [undefined], [null], numbers and booleans.  (Arrays and strings, whose
    indices would be copied, are never spread by the code.) *)
Definition own_entries (v : JsVal) : Obj :=
  match v with
  | JObj fs => fs
  | _ => []
  end.

(** [v.k] on a value that is not [undefined] or [null]. *)
Definition prop (v : JsVal) (k : string) : JsVal := obj_get (own_entries v) k.

(** [String(n)] of an integer.  Below 1e21 in magnitude the digits of [n];
    from there on the exponent form, [d.ddde+x], with the digits of [n]
    less its trailing zeros.  (From 1e21 on the digits JavaScript prints
    are the shortest that identify the number, which are those of [n] when
    [n] has fifteen significant digits at most; a number with more is a
    [JReal].) *)
Fixpoint drop_zeros (s : string) : string :=
  match s with
  | String c r => if Ascii.eqb c "0"%char then drop_zeros r else s
  | EmptyString => EmptyString
  end.

Definition exponent_form (digits : string) : string :=
  match String.rev (drop_zeros (String.rev digits)) with
  | String d EmptyString =>
      String d ("e+" +:+ pretty (String.length digits - 1)%nat)
  | String d rest =>
      String d ("." +:+ rest +:+ "e+"
                  +:+ pretty (String.length digits - 1)%nat)
  | EmptyString => digits
  end.

Definition number_text (n : Z) : string :=
  if Z.abs n <? 10 ^ 21 then pretty n
  else if n <? 0 then "-" +:+ exponent_form (pretty (Z.abs n))
  else exponent_form (pretty n).

(** ToString, as applied by template literals and by [String(v)]. *)
Fixpoint js_String (v : JsVal) : string :=
  match v with
  | JUndefined => "undefined"
  | JNull => "null"
  | JBool true => "true"
  | JBool false => "false"
  | JNum n => number_text n
  | JReal text => text
  | JStr s => s
  | JArr xs =>
      (fix join (l : list JsVal) : string :=
         match l with
         | [] => ""
         | x :: r =>
             let e := match x with
                      | JUndefined | JNull => ""
                      | _ => js_String x
                      end in
             match r with
             | [] => e
             | _ => e +:+ "," +:+ join r
             end
         end) xs
  | JObj _ => "[object Object]"
  end.

(** [s.length]: the UTF-16 code units of the text that the bytes of [s]
    encode in UTF-8.  A byte that continues a sequence counts for nothing,
    a byte that opens a sequence of four for two (a surrogate pair), every
    other byte for one. *)
Fixpoint utf16_length (s : string) : nat :=
  match s with
  | EmptyString => 0%nat
  | String c r =>
      let b := nat_of_ascii c in
      ((if (b <? 128) || (192 <=? b) then 1 else 0)
       + (if 240 <=? b then 1 else 0)
       + utf16_length r)%nat
  end.

(** [Object.keys(v).length] *)
Definition object_keys_length (v : JsVal) : nat :=
  match v with
  | JObj fs => length fs
  | JArr xs => length xs
  | JStr s => utf16_length s
  | _ => 0%nat
  end.

(** What a [throw] carries: an [Error] instance or any other value. *)
Inductive Thrown :=
| ErrorObj (name message : string)
| NonError (v : JsVal).

Definition TypeError (msg : string) : Thrown := ErrorObj "TypeError" msg.

(** [error instanceof Error ? error.message : String(error)] *)
Definition error_message (e : Thrown) : string :=
  match e with
  | ErrorObj _ m => m
  | NonError v => js_String v
  end.

(** [`${error}`]: [Error.prototype.toString] for an instance. *)
Definition thrown_to_string (e : Thrown) : string :=
  match e with
  | ErrorObj n m =>
      if String.eqb n "" then m
      else if String.eqb m "" then n
      else n +:+ ": " +:+ m
  | NonError v => js_String v
  end.

(* ===================================================================== *)
(** * Effects *)
(* ===================================================================== *)

Inductive Completion (A : Type) :=
| Normal (a : A)
| Throw (e : Thrown).
Arguments Normal {A} a.
Arguments Throw {A} e.

(** [`${err.message}`] in a [.catch((err) => ...)] handler.  Reading
    [message] off [null] or [undefined] throws a [TypeError] (the text is
    that of V8); off any other value that has no such property it gives
    [undefined]. *)
Definition message_text (e : Thrown) : Completion string :=
  match e with
  | ErrorObj _ m => Normal m
  | NonError JNull =>
      Throw (TypeError "Cannot read properties of null (reading 'message')")
  | NonError JUndefined =>
      Throw (TypeError
               "Cannot read properties of undefined (reading 'message')")
  | NonError (JObj fs) => Normal (js_String (obj_get fs "message"))
  | NonError _ => Normal "undefined"
  end.

Inductive Event :=
| ConsoleLog (args : list JsVal)
| ConsoleWarn (args : list JsVal)
| ConsoleError (args : list JsVal)
  (** [fetch(url, {method: "POST", headers, body})]; [data] is the envelope
      object that [body] serialises. *)
| FetchCall (url : string) (headers : list (string * string))
            (body : string) (data : JsVal).

Definition M (A : Type) : Type := list Event * Completion A.

Definition ret {A} (a : A) : M A := ([], Normal a).
Definition throw {A} (e : Thrown) : M A := ([], Throw e).
Definition emit (ev : Event) : M unit := ([ev], Normal tt).

Definition bind {A B} (m : M A) (k : A -> M B) : M B :=
  match m with
  | (evs, Normal a) => let '(evs', r) := k a in (evs ++ evs', r)
  | (evs, Throw e) => (evs, Throw e)
  end.

(** [try { m } catch (e) { h e }] *)
Definition try_catch {A} (m : M A) (h : Thrown -> M A) : M A :=
  match m with
  | (evs, Normal a) => (evs, Normal a)
  | (evs, Throw e) => let '(evs', r) := h e in (evs ++ evs', r)
  end.

(** A promise chain nobody awaits: its effects happen, its completion is
    dropped. *)
Definition detached {A} (m : M A) : M unit := (fst m, Normal tt).

Definition lift {A} (c : Completion A) : M A := ([], c).

Declare Scope eff_scope.
Delimit Scope eff_scope with eff.
Notation "x <- m ;; k" := (bind m (fun x => k))
  (at level 100, m at next level, right associativity) : eff_scope.
Notation "m ;;; k" := (bind m (fun _ => k))
  (at level 100, right associativity) : eff_scope.
#[local] Open Scope eff_scope.

Definition console_log (s : string) : M unit := emit (ConsoleLog [JStr s]).
Definition console_warn (s : string) : M unit := emit (ConsoleWarn [JStr s]).

Definition when (b : bool) (m : M unit) : M unit := if b then m else ret tt.

(* ===================================================================== *)
(** * The platform *)
(* ===================================================================== *)

Inductive FetchResult :=
| FetchThrows (e : Thrown)      (* the call itself throws *)
| FetchRejects (e : Thrown)     (* the returned promise rejects *)
| FetchResolves (status : Z).   (* it resolves; [result.status] *)

Record Platform := {
  (** [Date.now()]; the index tells apart the reads of one function body,
      in the order of the source *)
  Date_now : nat -> Z;
  (** [new Date().toISOString()], indexed alike *)
  Date_toISOString : nat -> string;
  (** [Math.random().toString(36)] *)
  Math_random_36 : string;
  (** [createHash("sha256").update(k).digest("hex")] *)
  sha256_hex : string -> string;
  (** [xxhashInstance.h32ToString(k)] *)
  h32ToString : string -> string;
  (** [JSON.stringify(v)] *)
  JSON_stringify : JsVal -> Completion string;
  (** [JSON.stringify(v, null, 2)] *)
  JSON_stringify_2 : JsVal -> Completion string;
  (** the behaviour of [fetch] on a POST with the given url and body *)
  fetch : string -> string -> FetchResult;
}.

(** [s.substring(from, to)] for [from <= to]. *)
Definition js_substring (from to : nat) (s : string) : string :=
  String.substring from (to - from) s.

Definition newline : string := String "010"%char EmptyString.

(** [s.replace(/\n/g, "")] *)
Fixpoint strip_newlines (s : string) : string :=
  match s with
  | EmptyString => EmptyString
  | String c r =>
      if Ascii.eqb c "010"%char then strip_newlines r
      else String c (strip_newlines r)
  end.

(* ===================================================================== *)
(** * src/consts.ts *)
(* ===================================================================== *)

Definition OSMOSIS_API_URL : string :=
  "https://ftgrv77m9f.execute-api.us-west-2.amazonaws.com/prod".

(* ===================================================================== *)
(** * src/osmosis-cloud.ts *)
(* ===================================================================== *)

Module OsmosisCloud.

(** The module-level variables. *)
Record State := {
  enabled : bool;
  osmosisApiKey : option string;     (* [None] is [null] *)
  initialized : bool;
  xxhashInstance : bool;             (* [true] once the hasher is loaded *)
}.

(** The module as loaded, and after [__testing__.resetState()]. *)
Definition fresh : State :=
  {| enabled := true; osmosisApiKey := None;
     initialized := false; xxhashInstance := false |}.

(** Truthiness of [osmosisApiKey]. *)
Definition key_configured (st : State) : bool :=
  match osmosisApiKey st with
  | Some k => negb (String.eqb k "")
  | None => false
  end.

(** [init(apiKey)] up to its [await]: the key is stored; with an empty key
    the function warns and returns, otherwise ([true]) it suspends on
    [xxhash()]. *)
Definition init_begin (apiKey : string) (st : State)
  : State * list Event * bool :=
  let st1 := {| enabled := enabled st; osmosisApiKey := Some apiKey;
                initialized := initialized st;
                xxhashInstance := xxhashInstance st |} in
  if String.eqb apiKey "" then
    (st1,
     [ConsoleWarn [JStr "[OSMOSIS-AI] No API key provided. Cloud logging disabled."]],
     false)
  else (st1, [], true).

(** [init] after [await xxhash()] has produced the hasher. *)
Definition init_resume (st : State) : State * list Event :=
  ({| enabled := enabled st; osmosisApiKey := osmosisApiKey st;
      initialized := true; xxhashInstance := true |},
   [ConsoleLog [JStr "[OSMOSIS-AI] Cloud logging initialized"]]).

(** [await init(apiKey)] with nothing else running in between. *)
Definition init (apiKey : string) (st : State) : State * list Event :=
  match init_begin apiKey st with
  | (st1, evs, false) => (st1, evs)
  | (st1, evs, true) => let '(st2, evs') := init_resume st1 in (st2, evs ++ evs')
  end.

Definition disableOsmosis (st : State) : State :=
  {| enabled := false; osmosisApiKey := osmosisApiKey st;
     initialized := initialized st; xxhashInstance := xxhashInstance st |}.

Definition enableOsmosis (st : State) : State :=
  {| enabled := true; osmosisApiKey := osmosisApiKey st;
     initialized := initialized st; xxhashInstance := xxhashInstance st |}.

Definition getOwnerHash (P : Platform) (st : State) (apiKey : string) : string :=
  if negb (xxhashInstance st) then js_substring 0 8 (sha256_hex P apiKey)
  else h32ToString P apiKey.

(** [`req_${Date.now()}_${Math.random().toString(36).substring(2, 7)}`] *)
Definition generated_request_id (P : Platform) : string :=
  "req_" +:+ pretty (Date_now P 0) +:+ "_"
         +:+ js_substring 2 7 (Math_random_36 P).

(** [query.requestId || `req_...`] *)
Definition request_id (P : Platform) (query : Obj) : JsVal :=
  js_or (obj_get query "requestId") (JStr (generated_request_id P)).

(** The [data] payload built inside the [try]. *)
Definition envelope (P : Platform) (st : State) (apiKey : string)
    (query : Obj) (requestId : JsVal) (response : JsVal) (status : Z) : JsVal :=
  JObj [ ("owner", JStr (getOwnerHash P st apiKey));
         ("date", JNum (Date_now P 1 / 1000));
         ("query", JObj (obj_set query "requestId" requestId));
         ("response", response);
         ("status", JNum status) ].

(** The [fetch(...)] expression with its [.then] and [.catch]. *)
Definition post (P : Platform) (apiKey : string) (data : JsVal) (json : string)
  : M unit :=
  let url := OSMOSIS_API_URL +:+ "/ingest" in
  let headers := [("Content-Type", "application/json"); ("x-api-key", apiKey)] in
  let body := strip_newlines json +:+ newline in
  emit (FetchCall url headers body data) ;;;
  match fetch P url body with
  | FetchThrows e => throw e
  | FetchRejects e =>
      console_warn ("[OSMOSIS-AI] Failed to send data to Osmosis API: "
                      +:+ thrown_to_string e)
  | FetchResolves code =>
      when (negb (code =? 200))
        (console_warn ("[OSMOSIS-AI] API returned status " +:+ pretty code
                         +:+ " for data"))
  end.

Definition sendToOsmosis (P : Platform) (st : State)
    (query : Obj) (response : JsVal) (status : Z) : M JsVal :=
  if negb (enabled st) || negb (key_configured st) then ret (JStr "")
  else if negb (initialized st) then
    console_warn "[OSMOSIS-AI] Cloud logging not initialized. Call init(apiKey) first." ;;;
    ret (JStr "")
  else
    let apiKey := default "" (osmosisApiKey st) in
    let requestId := request_id P query in
    try_catch
      (let data := envelope P st apiKey query requestId response status in
       json <- lift (JSON_stringify P data) ;;
       post P apiKey data json)
      (fun error =>
         console_warn ("[OSMOSIS-AI] Failed to prepare data for Osmosis API: "
                         +:+ thrown_to_string error)) ;;;
    ret requestId.

Definition isCloudLoggingEnabled (st : State) : bool :=
  initialized st && enabled st.

(** The gate of [sendToOsmosis] is open. *)
Definition ready (st : State) : bool :=
  enabled st && key_configured st && initialized st.

End OsmosisCloud.

(* ===================================================================== *)
(** * src/index.ts: configuration *)
(* ===================================================================== *)

Module Index.

Inductive LogDestination := console | cloud | both.

Definition LogDestination_eqb (a b : LogDestination) : bool :=
  match a, b with
  | console, console | cloud, cloud | both, both => true
  | _, _ => false
  end.

Definition LogDestination_text (d : LogDestination) : string :=
  match d with
  | console => "console"
  | cloud => "cloud"
  | both => "both"
  end.

(** A property of an options object: not there, there with the value
    [undefined], or there with a value of its declared type. *)
Inductive Field (A : Type) :=
| Absent
| Undefined
| Value (a : A).
Arguments Absent {A}.
Arguments Undefined {A}.
Arguments Value {A} a.

(** Reading the property. *)
Definition read {A} (f : Field A) : option A :=
  match f with
  | Value a => Some a
  | _ => None
  end.

(** The per-library flags [{openai?: boolean, ...}]: a key is absent, or
    bound to [undefined] ([None]) or to a boolean. *)
Abbreviation Flags := (gmap string (option bool)).

Record OsmosisAIOptions := {
  enabled : Field bool;
  logDestination : Field LogDestination;
  logFilePath : Field string;
  cloudApiKey : Field string;
  enabledAPIs : Field Flags;
}.

(** [defaultConfig] of src/consts.ts *)
Definition defaultConfig : OsmosisAIOptions :=
  {| enabled := Value true;
     logDestination := Value cloud;
     logFilePath := Absent;
     cloudApiKey := Absent;
     enabledAPIs :=
       Value {[ "openai" := Some true; "anthropic" := Some true;
                "langchainOpenai" := Some true;
                "langchainAnthropic" := Some true ]} |}.

(** The module-level state of index.ts that logging depends on, with the
    state of the imported cloud module.  [pendingInits] counts the calls of
    [OsmosisCloud.init] that are suspended on their [await]: [configure] and
    [initCloud] start [init] without awaiting it. *)
Record Global := {
  osmosisConfig : OsmosisAIOptions;
  cloudState : OsmosisCloud.State;
  pendingInits : nat;
}.

Definition initial : Global :=
  {| osmosisConfig := defaultConfig;
     cloudState := OsmosisCloud.fresh;
     pendingInits := 0 |}.

(** One key of [{...a, ...b}]. *)
Definition overwrite {A} (a b : Field A) : Field A :=
  match b with
  | Absent => a
  | _ => b
  end.

(** [{ ...a, ...b }] on options objects. *)
Definition spread_options (a b : OsmosisAIOptions) : OsmosisAIOptions :=
  {| enabled := overwrite (enabled a) (enabled b);
     logDestination := overwrite (logDestination a) (logDestination b);
     logFilePath := overwrite (logFilePath a) (logFilePath b);
     cloudApiKey := overwrite (cloudApiKey a) (cloudApiKey b);
     enabledAPIs := overwrite (enabledAPIs a) (enabledAPIs b) |}.

(** [{ ...a, ...b }] on flag objects; spreading [undefined] copies nothing. *)
Definition spread_flags (a b : Field Flags) : Flags :=
  default ∅ (read b) ∪ default ∅ (read a).

Definition set_enabledAPIs (c : OsmosisAIOptions) (f : Field Flags)
  : OsmosisAIOptions :=
  {| enabled := enabled c; logDestination := logDestination c;
     logFilePath := logFilePath c; cloudApiKey := cloudApiKey c;
     enabledAPIs := f |}.

Definition set_logDestination (c : OsmosisAIOptions) (f : Field LogDestination)
  : OsmosisAIOptions :=
  {| enabled := enabled c; logDestination := f;
     logFilePath := logFilePath c; cloudApiKey := cloudApiKey c;
     enabledAPIs := enabledAPIs c |}.

(** The first two statements of [configure]: the merged configuration. *)
Definition merge_config (previous options : OsmosisAIOptions)
  : OsmosisAIOptions :=
  let merged := spread_options previous options in
  match enabledAPIs options with
  | Value _ =>
      set_enabledAPIs merged
        (Value (spread_flags (enabledAPIs previous) (enabledAPIs options)))
  | _ => merged
  end.

(** [OsmosisCloud.init(key)] started and not awaited. *)
Definition start_cloud_init (key : string) (g : Global) : Global * list Event :=
  match OsmosisCloud.init_begin key (cloudState g) with
  | (st, evs, suspended) =>
      ({| osmosisConfig := osmosisConfig g; cloudState := st;
          pendingInits := if suspended then S (pendingInits g)
                          else pendingInits g |}, evs)
  end.

(** A suspended [OsmosisCloud.init] gets its hasher and finishes. *)
Definition settle_cloud_init (g : Global) : Global * list Event :=
  match pendingInits g with
  | O => (g, [])
  | S n =>
      let '(st, evs) := OsmosisCloud.init_resume (cloudState g) in
      ({| osmosisConfig := osmosisConfig g; cloudState := st;
          pendingInits := n |}, evs)
  end.

Definition with_cloud (g : Global) (st : OsmosisCloud.State) : Global :=
  {| osmosisConfig := osmosisConfig g; cloudState := st;
     pendingInits := pendingInits g |}.

Definition js_field {A} (k : string) (f : Field A) (inj : A -> JsVal) : Obj :=
  match f with
  | Absent => []
  | Undefined => [(k, JUndefined)]
  | Value a => [(k, inj a)]
  end.

(** The object of the flags.  (A map of flags does not keep the order in
    which its keys were inserted; they come in the order of the map.) *)
Definition js_flags (m : Flags) : JsVal :=
  JObj (map (fun kv => (fst kv, from_option JBool JUndefined (snd kv)))
            (map_to_list m)).

(** The object printed by [configure], with the key masked.  Its keys come
    in the order of their insertion: those of [defaultConfig] ([enabled],
    [logDestination], [enabledAPIs]), then the keys that a [configure] has
    added.  The record does not keep which of [logFilePath] and
    [cloudApiKey] was added first; they are listed in the order of the
    interface. *)
Definition printed_config (c : OsmosisAIOptions) : JsVal :=
  JObj (obj_set
          (js_field "enabled" (enabled c) JBool
           ++ js_field "logDestination" (logDestination c)
                (fun d => JStr (LogDestination_text d))
           ++ js_field "enabledAPIs" (enabledAPIs c) js_flags
           ++ js_field "logFilePath" (logFilePath c) JStr
           ++ js_field "cloudApiKey" (cloudApiKey c) JStr)
          "cloudApiKey"
          (match read (cloudApiKey c) with
           | Some k => if String.eqb k "" then JUndefined else JStr "********"
           | None => JUndefined
           end)).

(** [configure(options)].  Its last statement, [loadLibraries()], only starts
    the asynchronous import and patching of the client libraries; it reads
    the configuration and writes neither it nor the cloud module. *)
Definition configure (P : Platform) (options : OsmosisAIOptions) (g : Global)
  : Global * M unit :=
  let previousConfig := osmosisConfig g in
  let g1 := {| osmosisConfig := merge_config previousConfig options;
               cloudState := cloudState g;
               pendingInits := pendingInits g |} in
  let '(g2, evs_init) :=
    match read (cloudApiKey options) with
    | Some key => if String.eqb key "" then (g1, [])
                  else start_cloud_init key g1
    | None => (g1, [])
    end in
  let g3 :=
    match read (logDestination options) with
    | Some cloud | Some both =>
        with_cloud g2 (OsmosisCloud.enableOsmosis (cloudState g2))
    | Some console =>
        with_cloud g2 (OsmosisCloud.disableOsmosis (cloudState g2))
    | None => g2
    end in
  (g3,
   (evs_init, Normal tt) ;;;
   json <- lift (JSON_stringify P (printed_config (osmosisConfig g3))) ;;
   console_log ("[OSMOSIS-AI] Configuration updated: " +:+ json)).

(** [initCloud(apiKey)] *)
Definition initCloud (apiKey : string) (g : Global) : Global * list Event :=
  let '(g1, evs) := start_cloud_init apiKey g in
  let g2 := with_cloud g1 (OsmosisCloud.enableOsmosis (cloudState g1)) in
  (match read (logDestination (osmosisConfig g2)) with
   | Some console =>
       {| osmosisConfig := set_logDestination (osmosisConfig g2) (Value both);
          cloudState := cloudState g2; pendingInits := pendingInits g2 |}
   | _ => g2
   end, evs).

(** [osmosisConfig.enabledAPIs?.name], as a condition. *)
Definition api_enabled (c : OsmosisAIOptions) (name : string) : bool :=
  match read (enabledAPIs c) with
  | Some m => match m !! name with
              | Some (Some b) => b
              | _ => false
              end
  | None => false
  end.

Definition destination_is (g : Global) (d : LogDestination) : bool :=
  match read (logDestination (osmosisConfig g)) with
  | Some d' => LogDestination_eqb d' d
  | None => false
  end.

(** [logDestination === "console" || logDestination === "both"] *)
Definition console_active (g : Global) : bool :=
  destination_is g console || destination_is g both.

(** [logDestination === "cloud" || logDestination === "both"] *)
Definition cloud_active (g : Global) : bool :=
  destination_is g cloud || destination_is g both.

(** Truthiness of [osmosisConfig.enabled]. *)
Definition config_enabled (g : Global) : bool :=
  default false (read (enabled (osmosisConfig g))).

(* ===================================================================== *)
(** * src/index.ts: request logging *)
(* ===================================================================== *)

(** The [Body:] line of [logRequest]. *)
Definition log_body (P : Platform) (body : JsVal) : M unit :=
  when (truthy body)
    (try_catch
       (bodyStr <- match body with
                   | JStr s => ret s
                   | _ => lift (JSON_stringify_2 P body)
                   end ;;
        console_log ("  Body: " +:+ bodyStr))
       (fun _ => console_log "  Body: [Unable to stringify body]")).

(** The [Query:] line of [logRequest]. *)
Definition log_query (P : Platform) (query : JsVal) : M unit :=
  when (truthy query && (0 <? object_keys_length query)%nat)
    (try_catch
       (queryStr <- lift (JSON_stringify_2 P query) ;;
        console_log ("  Query: " +:+ queryStr))
       (fun _ => console_log "  Query: [Unable to stringify query]")).

Definition logRequest (P : Platform) (g : Global)
    (apiName timestamp : string) (path method body query : JsVal) : M unit :=
  if negb (config_enabled g) then ret tt
  else
    when (console_active g)
      (console_log ("[OSMOSIS-AI][" +:+ timestamp +:+ "] " +:+ apiName
                      +:+ " Request:") ;;;
       console_log ("  Path: " +:+ js_String path) ;;;
       console_log ("  Method: " +:+ js_String method) ;;;
       log_body P body ;;;
       log_query P query) ;;;
    when (cloud_active g && OsmosisCloud.isCloudLoggingEnabled (cloudState g))
      (let queryData :=
         [ ("api", JStr apiName); ("path", path); ("method", method);
           ("body", body); ("query", query); ("timestamp", JStr timestamp) ] in
       OsmosisCloud.sendToOsmosis P (cloudState g) queryData (JObj []) 200 ;;;
       ret tt).

(** [OsmosisCloud.sendToOsmosis(query, response)] as a statement. *)
Definition send (P : Platform) (g : Global) (query : Obj) (response : JsVal)
    (status : Z) : M unit :=
  OsmosisCloud.sendToOsmosis P (cloudState g) query response status ;;; ret tt.

(* ===================================================================== *)
(** * src/index.ts: the wrappers of the low-level [request] methods *)
(* ===================================================================== *)

(** A call of a wrapper runs in two synchronous blocks at least: the one
    entered by the caller ([P_req]: the platform as read then) and the one
    that runs when the original method has settled ([P_resp]).  The
    configuration and the cloud module are those of [g] throughout. *)

(** The first [.then(...).catch(...)] chain of a [request] wrapper;
    [options] is what [Promise.resolve(options)] settles to and [guard] the
    test on [logDestination] made by the callback. *)
Definition request_phase (P : Platform) (g : Global) (apiName : string)
    (guard : bool) (options : Completion Obj) : M unit :=
  detached
    (try_catch
       (resolvedOptions <- lift options ;;
        when guard
          (logRequest P g apiName (Date_toISOString P 0)
             (obj_get resolvedOptions "path")
             (obj_get resolvedOptions "method")
             (obj_get resolvedOptions "body")
             (obj_get resolvedOptions "query")))
       (fun err =>
          text <- lift (message_text err) ;;
          console_log ("  [Error processing " +:+ apiName
                         +:+ " request options]: " +:+ text))).

(** The [Promise.all([...]).then(...).catch(() => {})] chain. *)
Definition response_phase (P : Platform) (g : Global) (head : Obj)
    (options : Completion Obj) (outcome : Completion JsVal) : M unit :=
  detached
    (try_catch
       (resolvedOptions <- lift options ;;
        response <- lift outcome ;;
        send P g
          (head ++
           [ ("path", obj_get resolvedOptions "path");
             ("method", obj_get resolvedOptions "method");
             ("body", obj_get resolvedOptions "body");
             ("query", obj_get resolvedOptions "query");
             ("timestamp", JStr (Date_toISOString P 0)) ])
          (JObj [ ("data", response);
                  ("timestamp", JStr (Date_toISOString P 1)) ])
          200)
       (fun _ => ret tt)).

(** The replacement of [OpenAI.prototype.request].  [original] is what the
    saved method does on these arguments: it throws, or it returns a promise
    that settles to the inner completion. *)
Definition openai_request (P_req P_resp : Platform) (g : Global)
    (options : Completion Obj) (original : Completion (Completion JsVal))
  : M JsVal :=
  request_phase P_req g "OpenAI" (console_active g) options ;;;
  responsePromise <- lift original ;;
  when (cloud_active g)
    (response_phase P_resp g [("api", JStr "OpenAI"); ("version", JStr "v1")]
       options responsePromise) ;;;
  lift responsePromise.

(** The replacement of [Anthropic.prototype.request]. *)
Definition anthropic_request (P_req P_resp : Platform) (g : Global)
    (options : Completion Obj) (original : Completion (Completion JsVal))
  : M JsVal :=
  request_phase P_req g "Anthropic" (destination_is g console) options ;;;
  responsePromise <- lift original ;;
  when (cloud_active g)
    (response_phase P_resp g [("api", JStr "Anthropic")]
       options responsePromise) ;;;
  lift responsePromise.

(* ===================================================================== *)
(** * src/index.ts: [chat.completions.create] of a constructed client *)
(* ===================================================================== *)

Definition v2_query (P : Platform) (body : JsVal) : Obj :=
  [ ("api", JStr "OpenAI"); ("version", JStr "v2");
    ("path", JStr "/v1/chat/completions"); ("method", JStr "POST");
    ("body", body); ("timestamp", JStr (Date_toISOString P 0)) ].

Definition openai_create (P_req P_resp : Platform) (g : Global)
    (createArgs : list JsVal) (original : Completion JsVal) : M JsVal :=
  let params := js_or (nth 0 createArgs JUndefined) (JObj []) in
  when (console_active g)
    (logRequest P_req g "OpenAI v2" (Date_toISOString P_req 0)
       (JStr "/v1/chat/completions") (JStr "POST") params JNull) ;;;
  try_catch
    (response <- lift original ;;
     when (negb (truthy (prop params "stream")) && cloud_active g)
       (send P_resp g (v2_query P_resp params)
          (JObj [ ("data", response);
                  ("timestamp", JStr (Date_toISOString P_resp 1)) ])
          200) ;;;
     ret response)
    (fun error =>
       when (cloud_active g)
         (send P_resp g (v2_query P_resp params)
            (JObj [ ("error", JStr (error_message error));
                    ("timestamp", JStr (Date_toISOString P_resp 1)) ])
            500) ;;;
       throw error).

(* ===================================================================== *)
(** * src/index.ts: [chat.completions.create.stream] *)
(* ===================================================================== *)

(** A chunk of a chat-completion stream, as far as the wrapper reads it:
    [chunk.choices[0]?.delta?.content]. *)
Record Delta := { content : option string }.
Record Choice := { delta : option Delta }.
Record Chunk := { chunk_id : string; choices : list Choice }.

(** [chunk.choices[0]?.delta?.content || ""] *)
Definition chunk_content (c : Chunk) : string :=
  match choices c with
  | [] => ""
  | ch :: _ =>
      match delta ch with
      | None => ""
      | Some d => default "" (content d)
      end
  end.

(** The stream returned by the original method: the chunks it yields, and
    the error it then throws, if any. *)
Record Stream := { items : list Chunk; failure : option Thrown }.

(** The variables captured by the generator of the wrapper. *)
Record Wrapping := {
  originalStream : Stream;
  params : JsVal;
  streamStartTime : string;
  initialLogId : JsVal;
}.

(** What [create.stream] resolves to. *)
Inductive Iterable :=
| Original (s : Stream)
| Wrapped (w : Wrapping).

Definition stream_body (params : JsVal) : JsVal :=
  JObj (obj_set (own_entries params) "stream" (JBool true)).

Definition openai_create_stream (P : Platform) (g : Global)
    (streamArgs : list JsVal) (original : Completion Stream) : M Iterable :=
  let params := js_or (nth 0 streamArgs JUndefined) (JObj []) in
  when (console_active g)
    (logRequest P g "OpenAI v2 Stream" (Date_toISOString P 0)
       (JStr "/v1/chat/completions") (JStr "POST") (stream_body params)
       JNull) ;;;
  let streamStartTime := Date_toISOString P 1 in
  initialLogId <-
    (if cloud_active g then
       id <- OsmosisCloud.sendToOsmosis P (cloudState g)
               [ ("api", JStr "OpenAI"); ("version", JStr "v2");
                 ("path", JStr "/v1/chat/completions"); ("method", JStr "POST");
                 ("body", stream_body params);
                 ("timestamp", JStr streamStartTime) ]
               (JObj [ ("data",
                        JObj [ ("streaming", JBool true);
                               ("status", JStr "started");
                               ("message",
                                JStr "OpenAI streaming request started") ]);
                       ("timestamp", JStr streamStartTime) ])
               200 ;;
       emit (ConsoleLog
               [JStr "[OSMOSIS-AI] Streaming request initiated with ID:"; id]) ;;;
       ret id
     else ret (JStr "")) ;;
  originalStream <- lift original ;;
  if negb (cloud_active g) then ret (Original originalStream)
  else ret (Wrapped {| originalStream := originalStream; params := params;
                       streamStartTime := streamStartTime;
                       initialLogId := initialLogId |}).

(** [streamContent] after the loop has processed [cs]. *)
Definition accumulated (cs : list Chunk) : string :=
  fold_left (fun streamContent c =>
               let content := chunk_content c in
               if negb (String.eqb content "") then streamContent +:+ content
               else streamContent)
            cs "".

(** The [finally] block of the generator.  The test [streamContent.length
    > 0] asks whether the text is empty; the length that is printed and
    posted is [utf16_length]. *)
Definition stream_finally (P : Platform) (g : Global) (w : Wrapping)
    (streamContent : string) : M unit :=
  when (0 <? String.length streamContent)%nat
    (let streamEndTime := Date_toISOString P 0 in
     console_log ("[OSMOSIS-AI] Streaming completed, logging content ("
                    +:+ pretty (utf16_length streamContent)
                    +:+ " chars) with ID: " +:+ js_String (initialLogId w)) ;;;
     send P g
       [ ("api", JStr "OpenAI"); ("version", JStr "v2");
         ("path", JStr "/v1/chat/completions"); ("method", JStr "POST");
         ("body", stream_body (params w));
         ("timestamp", JStr streamEndTime);
         ("requestId", initialLogId w) ]
       (JObj [ ("data",
                JObj [ ("streaming", JBool true);
                       ("status", JStr "completed");
                       ("content", JStr streamContent);
                       ("contentLength",
                        JNum (Z.of_nat (utf16_length streamContent)));
                       ("completedAt", JStr streamEndTime);
                       ("startedAt", JStr (streamStartTime w));
                       ("message",
                        JStr "OpenAI streaming request completed") ]);
               ("timestamp", JStr streamEndTime) ])
       200).

(** [for await (const chunk of it) { ... }] by the caller.  With
    [limit = Some n] the caller leaves the loop once it holds [n] chunks
    ([n = 0]: it never asks for one, and the generator never starts).  The
    result is the list of chunks the caller received; it is thrown at when
    the stream fails before the caller has left. *)
Definition consume (P : Platform) (g : Global) (it : Iterable)
    (limit : option nat) : M (list Chunk) :=
  let run (s : Stream) (after : list Chunk -> M unit) : M (list Chunk) :=
    match limit with
    | Some O => ret []
    | Some n =>
        if (n <=? length (items s))%nat then
          after (take n (items s)) ;;; ret (take n (items s))
        else
          after (items s) ;;;
          match failure s with
          | Some e => throw e
          | None => ret (items s)
          end
    | None =>
        after (items s) ;;;
        match failure s with
        | Some e => throw e
        | None => ret (items s)
        end
    end in
  match it with
  | Original s => run s (fun _ => ret tt)
  | Wrapped w =>
      run (originalStream w)
          (fun seen => stream_finally P g w (accumulated seen))
  end.

(* ===================================================================== *)
(** * src/index.ts: the LangChain wrappers of [_generate] *)
(* ===================================================================== *)

(** [{ role: m.name || m.role || "user", content: m.content }] *)
Definition message_entry (m : Obj) : JsVal :=
  JObj [ ("role", js_or (obj_get m "name")
                        (js_or (obj_get m "role") (JStr "user")));
         ("content", obj_get m "content") ].

(** [requestData]; [kwargs] names the property of [this] that is spread
    last. *)
Definition requestData (this : Obj) (kwargs : string) (messages : list Obj)
  : JsVal :=
  JObj (obj_spread
          [ ("model", obj_get this "modelName");
            ("messages", JArr (map message_entry messages));
            ("temperature", obj_get this "temperature");
            ("max_tokens", obj_get this "maxTokens") ]
          (own_entries (obj_get this kwargs))).

Definition langchain_query (P : Platform) (apiName path : string)
    (body : JsVal) : Obj :=
  [ ("api", JStr apiName); ("path", JStr path); ("method", JStr "POST");
    ("body", body); ("timestamp", JStr (Date_toISOString P 0)) ].

(** The body shared by the two replacements of [_generate]. *)
Definition langchain_generate (apiName path kwargs : string)
    (P_req P_resp : Platform) (g : Global)
    (this : Obj) (messages : list Obj) (original : Completion JsVal)
  : M JsVal :=
  let body := requestData this kwargs messages in
  when (console_active g)
    (try_catch
       (logRequest P_req g apiName (Date_toISOString P_req 0)
          (JStr path) (JStr "POST") body JNull)
       (fun err =>
          text <- lift (message_text err) ;;
          console_log ("  [Error processing " +:+ apiName +:+ " request]: "
                         +:+ text))) ;;;
  if cloud_active g then
    try_catch
      (response <- lift original ;;
       send P_resp g (langchain_query P_resp apiName path body)
         (JObj [ ("data", response);
                 ("timestamp", JStr (Date_toISOString P_resp 1)) ])
         200 ;;;
       ret response)
      (fun error =>
         send P_resp g (langchain_query P_resp apiName path body)
           (JObj [ ("error", JStr (error_message error));
                   ("timestamp", JStr (Date_toISOString P_resp 1)) ])
           500 ;;;
         throw error)
  else lift original.

Definition langchain_openai_generate :=
  langchain_generate "LangChain OpenAI" "/v1/chat/completions" "modelKwargs".

Definition langchain_anthropic_generate :=
  langchain_generate "LangChain Anthropic" "/v1/messages" "invocationKwargs".

(* ===================================================================== *)
(** * Intercepted calls, family by family *)
(* ===================================================================== *)

Inductive Call :=
| OpenAIRequest (options : Completion Obj)
                (original : Completion (Completion JsVal))
| AnthropicRequest (options : Completion Obj)
                   (original : Completion (Completion JsVal))
| OpenAICreate (createArgs : list JsVal) (original : Completion JsVal)
| OpenAICreateStream (streamArgs : list JsVal) (original : Completion Stream)
                     (limit : option nat)
| LangchainOpenAIGenerate (this : Obj) (messages : list Obj)
                          (original : Completion JsVal)
| LangchainAnthropicGenerate (this : Obj) (messages : list Obj)
                             (original : Completion JsVal).

(** What the caller of a wrapper gets back. *)
Inductive Answer :=
| Response (v : JsVal)
| Chunks (cs : list Chunk).

Definition answer {A} (f : A -> Answer) (m : M A) : M Answer :=
  x <- m ;; ret (f x).

(** The call, and for a stream its consumption by the caller. *)
Definition intercepted (P_req P_resp : Platform) (g : Global) (c : Call)
  : M Answer :=
  match c with
  | OpenAIRequest options original =>
      answer Response (openai_request P_req P_resp g options original)
  | AnthropicRequest options original =>
      answer Response (anthropic_request P_req P_resp g options original)
  | OpenAICreate createArgs original =>
      answer Response (openai_create P_req P_resp g createArgs original)
  | OpenAICreateStream streamArgs original limit =>
      it <- openai_create_stream P_req g streamArgs original ;;
      answer Chunks (consume P_resp g it limit)
  | LangchainOpenAIGenerate this messages original =>
      answer Response
        (langchain_openai_generate P_req P_resp g this messages original)
  | LangchainAnthropicGenerate this messages original =>
      answer Response
        (langchain_anthropic_generate P_req P_resp g this messages original)
  end.

(** The error the original method fails with, when it does. *)
Definition original_failure (c : Call) : option Thrown :=
  match c with
  | OpenAIRequest _ (Throw e) | OpenAIRequest _ (Normal (Throw e))
  | AnthropicRequest _ (Throw e) | AnthropicRequest _ (Normal (Throw e))
  | OpenAICreate _ (Throw e)
  | OpenAICreateStream _ (Throw e) _
  | LangchainOpenAIGenerate _ _ (Throw e)
  | LangchainAnthropicGenerate _ _ (Throw e) => Some e
  | _ => None
  end.

End Index.

(* ===================================================================== *)
(** * Observations on traces *)
(* ===================================================================== *)

(** The envelopes handed to [fetch], in order. *)
Definition envelopes (evs : list Event) : list JsVal :=
  omap (fun ev => match ev with
                  | FetchCall _ _ _ data => Some data
                  | _ => None
                  end) evs.

(** The argument lists of [console.log], in order. *)
Definition console_lines (evs : list Event) : list (list JsVal) :=
  omap (fun ev => match ev with
                  | ConsoleLog args => Some args
                  | _ => None
                  end) evs.

(** The warnings, in order. *)
Definition warnings (evs : list Event) : list (list JsVal) :=
  omap (fun ev => match ev with
                  | ConsoleWarn args => Some args
                  | _ => None
                  end) evs.

Definition envelope_request_id (data : JsVal) : JsVal :=
  prop (prop data "query") "requestId".

Definition envelope_status (data : JsVal) : JsVal := prop data "status".

(** The envelopes sent with status 500. *)
Definition error_envelopes (evs : list Event) : list JsVal :=
  List.filter (fun d => match envelope_status d with
                        | JNum n => n =? 500
                        | _ => false
                        end) (envelopes evs).

(** [JSON.stringify] never throws on this platform. *)
Definition serialises (P : Platform) : Prop :=
  forall v, exists json, JSON_stringify P v = Normal json.

(** A character of [0-9a-z]. *)
Definition base36_digit (c : ascii) : bool :=
  let n := nat_of_ascii c in
  ((48 <=? n) && (n <=? 57) || (97 <=? n) && (n <=? 122))%nat.

Fixpoint all_chars (p : ascii -> bool) (s : string) : bool :=
  match s with
  | EmptyString => true
  | String c r => p c && all_chars p r
  end.

(** The base-36 text of a number of [0, 1): [0], or [0.] and at least one
    digit. *)
Definition unit_interval_text (s : string) : bool :=
  match s with
  | String "0" EmptyString => true
  | String "0" (String "." ds) =>
      negb (String.eqb ds "") && all_chars base36_digit ds
  | _ => false
  end.

(** [id] reads [req_<ms>_<suffix>], the suffix being made of characters of
    [0-9a-z] and of a length accepted by [len]. *)
Definition generated_form (len : nat -> Prop) (ms : Z) (id : JsVal) : Prop :=
  exists suffix,
    id = JStr ("req_" +:+ pretty ms +:+ "_" +:+ suffix)
    /\ len (String.length suffix)
    /\ all_chars base36_digit suffix = true.

(** The public operations of the cloud module, as a caller can sequence
    them.  [OpInit] is [init] up to its [await] and [OpInitResume] the rest
    of a suspended [init].  (The setters of [__testing__], which overwrite
    the module variables directly, are not among them.) *)
Inductive Op :=
| OpInit (apiKey : string)
| OpInitResume
| OpEnable
| OpDisable
| OpSend (P : Platform) (query : Obj) (response : JsVal) (status : Z).

(** One operation: the new state, its effects, and what a send returned. *)
Definition step (op : Op) (st : OsmosisCloud.State)
  : OsmosisCloud.State * list Event * list (Completion JsVal) :=
  match op with
  | OpInit apiKey =>
      let '(st', evs, _) := OsmosisCloud.init_begin apiKey st in (st', evs, [])
  | OpInitResume =>
      let '(st', evs) := OsmosisCloud.init_resume st in (st', evs, [])
  | OpEnable => (OsmosisCloud.enableOsmosis st, [], [])
  | OpDisable => (OsmosisCloud.disableOsmosis st, [], [])
  | OpSend P query response status =>
      let '(evs, r) := OsmosisCloud.sendToOsmosis P st query response status in
      (st, evs, [r])
  end.

Fixpoint run_ops (ops : list Op) (st : OsmosisCloud.State)
  : OsmosisCloud.State * list Event * list (Completion JsVal) :=
  match ops with
  | [] => (st, [], [])
  | op :: rest =>
      let '(st1, evs1, rs1) := step op st in
      let '(st2, evs2, rs2) := run_ops rest st1 in
      (st2, evs1 ++ evs2, rs1 ++ rs2)
  end.

(** The operation is not an [init] with a non-empty key. *)
Definition leaves_key_empty (op : Op) : bool :=
  match op with
  | OpInit apiKey => String.eqb apiKey ""
  | _ => true
  end.

(** [osmosisConfig.enabledAPIs?.[name]]; [None] is [undefined]. *)
Definition flag_value (c : Index.OsmosisAIOptions) (name : string)
  : option bool :=
  match Index.read (Index.enabledAPIs c) with
  | Some m => default None (m !! name)
  | None => None
  end.

(** The partial gives a value to the flag [name]. *)
Definition mentions (options : Index.OsmosisAIOptions) (name : string) : bool :=
  match Index.read (Index.enabledAPIs options) with
  | Some m => bool_decide (is_Some (m !! name))
  | None => false
  end.

(** The families whose wrapper has a [catch] that reports a failure of the
    original method. *)
Definition reports_failures (c : Index.Call) : bool :=
  match c with
  | Index.OpenAICreate _ _
  | Index.LangchainOpenAIGenerate _ _ _
  | Index.LangchainAnthropicGenerate _ _ _ => true
  | _ => false
  end.

(** The request body a wrapper logs. *)
Definition logged_body (c : Index.Call) : JsVal :=
  match c with
  | Index.OpenAICreate createArgs _ =>
      js_or (nth 0 createArgs JUndefined) (JObj [])
  | Index.OpenAICreateStream streamArgs _ _ =>
      Index.stream_body (js_or (nth 0 streamArgs JUndefined) (JObj []))
  | Index.LangchainOpenAIGenerate this messages _ =>
      Index.requestData this "modelKwargs" messages
  | Index.LangchainAnthropicGenerate this messages _ =>
      Index.requestData this "invocationKwargs" messages
  | Index.OpenAIRequest (Normal o) _ | Index.AnthropicRequest (Normal o) _ =>
      obj_get o "body"
  | _ => JUndefined
  end.

(** The chunks a caller holds when it leaves its loop. *)
Definition received (limit : option nat) (s : Index.Stream) : list Index.Chunk :=
  match limit with
  | Some n => take n (Index.items s)
  | None => Index.items s
  end.

(** The events that follow the call of [fetch]. *)
Definition after_fetch (r : FetchResult) : list Event :=
  match r with
  | FetchThrows e =>
      [ConsoleWarn [JStr ("[OSMOSIS-AI] Failed to prepare data for Osmosis API: "
                            +:+ thrown_to_string e)]]
  | FetchRejects e =>
      [ConsoleWarn [JStr ("[OSMOSIS-AI] Failed to send data to Osmosis API: "
                            +:+ thrown_to_string e)]]
  | FetchResolves code =>
      if code =? 200 then []
      else [ConsoleWarn [JStr ("[OSMOSIS-AI] API returned status "
                                 +:+ pretty code +:+ " for data")]]
  end.

(** The name a wrapper gives to [logRequest]. *)
Definition api_label (c : Index.Call) : string :=
  match c with
  | Index.OpenAIRequest _ _ => "OpenAI"
  | Index.AnthropicRequest _ _ => "Anthropic"
  | Index.OpenAICreate _ _ => "OpenAI v2"
  | Index.OpenAICreateStream _ _ _ => "OpenAI v2 Stream"
  | Index.LangchainOpenAIGenerate _ _ _ => "LangChain OpenAI"
  | Index.LangchainAnthropicGenerate _ _ _ => "LangChain Anthropic"
  end.

(** The arguments of the call resolve: the options promise of a [request]
    is fulfilled. *)
Definition arguments_resolve (c : Index.Call) : bool :=
  match c with
  | Index.OpenAIRequest (Throw _) _ | Index.AnthropicRequest (Throw _) _ =>
      false
  | _ => true
  end.

(** The test on [logDestination] that guards the request-phase record. *)
Definition request_guard (g : Index.Global) (c : Index.Call) : bool :=
  match c with
  | Index.AnthropicRequest _ _ => Index.destination_is g Index.console
  | _ => Index.console_active g
  end.

(* ===================================================================== *)
(** * Sample inputs *)
(* ===================================================================== *)

Module Sample.

(** A platform whose network accepts everything; [Math.random()] is
    [0.5], whose base-36 text is [0.i] (18/36). *)
Definition platform : Platform :=
  {| Date_now := fun _ => 1700000000000;
     Date_toISOString := fun _ => "2023-11-14T22:13:20.000Z";
     Math_random_36 := "0.i";
     sha256_hex := fun _ => "9f86d081884c7d659a2feaa0c55ad015";
     h32ToString := fun _ => "0a1b2c3d";
     JSON_stringify := fun _ => Normal "{}";
     JSON_stringify_2 := fun _ => Normal "{}";
     fetch := fun _ _ => FetchResolves 200 |}.

(** The same with a longer random text. *)
Definition platform_long : Platform :=
  {| Date_now := fun _ => 1700000000000;
     Date_toISOString := fun _ => "2023-11-14T22:13:20.000Z";
     Math_random_36 := "0.4fzyo82mvyr";
     sha256_hex := fun _ => "9f86d081884c7d659a2feaa0c55ad015";
     h32ToString := fun _ => "0a1b2c3d";
     JSON_stringify := fun _ => Normal "{}";
     JSON_stringify_2 := fun _ => Normal "{}";
     fetch := fun _ _ => FetchResolves 200 |}.

(** The remote endpoint answers 400. *)
Definition platform_400 : Platform :=
  {| Date_now := fun _ => 1700000000000;
     Date_toISOString := fun _ => "2023-11-14T22:13:20.000Z";
     Math_random_36 := "0.4fzyo82mvyr";
     sha256_hex := fun _ => "9f86d081884c7d659a2feaa0c55ad015";
     h32ToString := fun _ => "0a1b2c3d";
     JSON_stringify := fun _ => Normal "{}";
     JSON_stringify_2 := fun _ => Normal "{}";
     fetch := fun _ _ => FetchResolves 400 |}.

(** The cloud module after [await init("test-api-key")]. *)
Definition cloud_ready : OsmosisCloud.State :=
  fst (OsmosisCloud.init "test-api-key" OsmosisCloud.fresh).

(** ... and after [disableOsmosis()]. *)
Definition cloud_disabled : OsmosisCloud.State :=
  OsmosisCloud.disableOsmosis cloud_ready.

(** The key is stored, [init] is still suspended. *)
Definition cloud_suspended : OsmosisCloud.State :=
  fst (fst (OsmosisCloud.init_begin "test-api-key" OsmosisCloud.fresh)).

Definition query : Obj :=
  [ ("api", JStr "test"); ("path", JStr "/test"); ("method", JStr "post") ].

Definition query_with_id : Obj :=
  query ++ [ ("requestId", JStr "custom-id-123") ].

(** The completion query of a stream whose start envelope was not sent:
    [requestId: initialLogId] with [initialLogId] still [""]. *)
Definition query_with_empty_id : Obj :=
  query ++ [ ("requestId", JStr "") ].

Definition response : JsVal := JObj [ ("data", JStr "test response") ].

Definition config (e : bool) (d : Index.LogDestination)
  : Index.OsmosisAIOptions :=
  Index.set_logDestination
    {| Index.enabled := Index.Value e;
       Index.logDestination := Index.Absent;
       Index.logFilePath := Index.Absent;
       Index.cloudApiKey := Index.Value "test-api-key";
       Index.enabledAPIs := Index.enabledAPIs Index.defaultConfig |}
    (Index.Value d).

(** Configured with [enabled: e] and [logDestination: d], cloud module
    initialised. *)
Definition global (e : bool) (d : Index.LogDestination) : Index.Global :=
  {| Index.osmosisConfig := config e d;
     Index.cloudState := cloud_ready;
     Index.pendingInits := 0 |}.

(** [configure] has just started [OsmosisCloud.init]: the key is stored,
    the hasher is not there yet. *)
Definition global_suspended (d : Index.LogDestination) : Index.Global :=
  {| Index.osmosisConfig := config true d;
     Index.cloudState := cloud_suspended;
     Index.pendingInits := 1 |}.

(** The same before any key was given to the cloud module. *)
Definition global_without_key (d : Index.LogDestination) : Index.Global :=
  {| Index.osmosisConfig := config true d;
     Index.cloudState := OsmosisCloud.fresh;
     Index.pendingInits := 0 |}.

Definition options : Obj :=
  [ ("path", JStr "/chat/completions"); ("method", JStr "post");
    ("body", JObj [ ("model", JStr "gpt-4") ]) ].

Definition api_error : Thrown := ErrorObj "Error" "API error".

Definition chunk (text : string) : Index.Chunk :=
  {| Index.chunk_id := "chatcmpl-1";
     Index.choices :=
       [ {| Index.delta := Some {| Index.content := Some text |} |} ] |}.

Definition hello_world : Index.Stream :=
  {| Index.items := [ chunk "Hello"; chunk " world" ];
     Index.failure := None |}.

Definition model : Obj :=
  [ ("modelName", JStr "gpt-4"); ("temperature", JNum 0) ].

Definition messages : list Obj :=
  [ [ ("content", JStr "Hello, how are you?"); ("role", JStr "user") ] ].

Definition create_args : list JsVal :=
  [ JObj [ ("model", JStr "gpt-4") ] ].

(** A [request] that succeeds. *)
Definition successful_request : Index.Call :=
  Index.OpenAIRequest (Normal options) (Normal (Normal response)).

(** The same through the Anthropic client. *)
Definition anthropic_request : Index.Call :=
  Index.AnthropicRequest (Normal options) (Normal (Normal response)).

(** A [request] whose promise rejects. *)
Definition failing_request : Index.Call :=
  Index.OpenAIRequest (Normal options) (Normal (Throw api_error)).

(** A [_generate] that rejects. *)
Definition failing_generate : Index.Call :=
  Index.LangchainOpenAIGenerate model messages (Throw api_error).

(** A [chat.completions.create] that rejects. *)
Definition failing_create : Index.Call :=
  Index.OpenAICreate create_args (Throw api_error).

(** A stream of the chunks "Hello" and " world", read to its end. *)
Definition hello_world_stream : Index.Call :=
  Index.OpenAICreateStream create_args (Normal hello_world) None.

(** A partial that only carries per-library flags. *)
Definition flags_only (m : Index.Flags) : Index.OsmosisAIOptions :=
  {| Index.enabled := Index.Absent;
     Index.logDestination := Index.Absent;
     Index.logFilePath := Index.Absent;
     Index.cloudApiKey := Index.Absent;
     Index.enabledAPIs := Index.Value m |}.

(** [{enabledAPIs: {openai: true, anthropic: true}}] *)
Definition enable_two : Index.OsmosisAIOptions :=
  flags_only {[ "openai" := Some true; "anthropic" := Some true ]}.

(** [{enabledAPIs: {anthropic: false}}] *)
Definition disable_anthropic : Index.OsmosisAIOptions :=
  flags_only {[ "anthropic" := Some false ]}.

(** [{enabled: undefined, logDestination: undefined, enabledAPIs: undefined}],
    the partial of the test "should use reasonable defaults". *)
Definition all_undefined : Index.OsmosisAIOptions :=
  {| Index.enabled := Index.Undefined;
     Index.logDestination := Index.Undefined;
     Index.logFilePath := Index.Absent;
     Index.cloudApiKey := Index.Absent;
     Index.enabledAPIs := Index.Undefined |}.

End Sample.

(* ===================================================================== *)
(** * src/index.ts: loading and patching the client libraries *)
(* ===================================================================== *)

Module Loader.

(** The four client libraries, under the keys of [availableLibraries] and
    of [enabledAPIs]. *)
Inductive Library := openai | anthropic | langchainOpenai | langchainAnthropic.

Definition Library_eqb (a b : Library) : bool :=
  match a, b with
  | openai, openai | anthropic, anthropic
  | langchainOpenai, langchainOpenai
  | langchainAnthropic, langchainAnthropic => true
  | _, _ => false
  end.

Definition key (l : Library) : string :=
  match l with
  | openai => "openai"
  | anthropic => "anthropic"
  | langchainOpenai => "langchainOpenai"
  | langchainAnthropic => "langchainAnthropic"
  end.

(** The name of the library in the messages of [loadLibraries]. *)
Definition title (l : Library) : string :=
  match l with
  | openai => "OpenAI"
  | anthropic => "Anthropic"
  | langchainOpenai => "LangChain OpenAI"
  | langchainAnthropic => "LangChain Anthropic"
  end.

(** The function held by [<Class>.prototype.request] (or [._generate]):
    the one the library ships (the libraries have this method, so that the
    slot never holds [undefined]), or a replacement installed by a
    [patch...] function.  Every replacement calls the module variable
    [original...], whatever that holds when the call is made. *)
Inductive Method := LibraryMethod | Wrapper.

(** The value of the module variable [OpenAI] (and alike): the class the
    library exports, or the constructor function built around
    [originalConstructor] by [patchOpenAI]. *)
Inductive Class :=
| LibraryClass
| WrappingConstructor (originalConstructor : Class).

(** What index.ts holds about one library; [method] is the slot on the
    prototype of the library's class, shared by the wrapping constructors
    ([OpenAI.prototype = originalConstructor.prototype]). *)
Record Binding := {
  class : option Class;        (* [None]: the variable is still undefined *)
  original : option Method;    (* [originalOpenAIRequest], ... *)
  available : bool;            (* [availableLibraries.<key>] *)
  method : Method;
}.

Record State := {
  bindings : Library -> Binding;
  isOpenAIV2Patched : bool;
}.

(** The module before its first [loadLibraries]. *)
Definition initial : State :=
  {| bindings := fun _ => {| class := None; original := None;
                             available := false; method := LibraryMethod |};
     isOpenAIV2Patched := false |}.

Definition update (l : Library) (b : Binding) (f : Library -> Binding)
  : Library -> Binding :=
  fun l' => if Library_eqb l' l then b else f l'.

(** What the loader meets outside of index.ts.  Of the [try] block of
    [patchOpenAI] only the construction of the dummy client is taken to
    be able to throw. *)
Record World := {
  (** the message of the error of [await import(...)]; [None]: it succeeds *)
  import_error : Library -> option string;
  (** [OpenAI.prototype.chat && OpenAI.prototype.chat.completions] *)
  prototype_has_chat_completions : bool;
  (** what [new OpenAI({ apiKey: "dummy" })] throws; [None]: nothing *)
  dummy_client_error : option JsVal;
}.

(** The part the four [patch...] functions share: the guard, the original
    saved once, the replacement installed. *)
Definition patch_method (cfg : Index.OsmosisAIOptions) (l : Library)
    (st : State) : State :=
  let b := bindings st l in
  if negb (Index.api_enabled cfg (key l)) || negb (available b) then st
  else
    {| bindings :=
         update l
           {| class := class b;
              original := match original b with
                          | None => Some (method b)
                          | Some saved => Some saved
                          end;
              available := available b;
              method := Wrapper |}
           (bindings st);
       isOpenAIV2Patched := isOpenAIV2Patched st |}.

Definition patchAnthropic (cfg : Index.OsmosisAIOptions) := patch_method cfg anthropic.
Definition patchLangchainOpenAI (cfg : Index.OsmosisAIOptions) :=
  patch_method cfg langchainOpenai.
Definition patchLangchainAnthropic (cfg : Index.OsmosisAIOptions) :=
  patch_method cfg langchainAnthropic.

(** [patchOpenAI]: the shared part, then the constructor, once. *)
Definition patchOpenAI (cfg : Index.OsmosisAIOptions) (w : World) (st : State)
  : State * list Event :=
  let b := bindings st openai in
  if negb (Index.api_enabled cfg (key openai)) || negb (available b)
  then (st, [])
  else
    let st1 := patch_method cfg openai st in
    if negb (isOpenAIV2Patched st1) && prototype_has_chat_completions w then
      match dummy_client_error w with
      | Some error =>
          (st1, [ConsoleError [JStr "Error patching OpenAI v2 API:"; error]])
      | None =>
          let b1 := bindings st1 openai in
          ({| bindings :=
                update openai
                  {| class := option_map WrappingConstructor (class b1);
                     original := original b1;
                     available := available b1;
                     method := method b1 |}
                  (bindings st1);
              isOpenAIV2Patched := true |}, [])
      end
    else (st1, []).

(** The patch function of a library, with the effects it has. *)
Definition patch (cfg : Index.OsmosisAIOptions) (w : World) (l : Library)
    (st : State) : State * list Event :=
  match l with
  | openai => patchOpenAI cfg w st
  | anthropic => (patchAnthropic cfg st, [])
  | langchainOpenai => (patchLangchainOpenAI cfg st, [])
  | langchainAnthropic => (patchLangchainAnthropic cfg st, [])
  end.

(** One of the four blocks of [loadLibraries], from the point where its
    [await import(...)] settles to the next [await]: nothing else runs in
    between.  [cfg] is [osmosisConfig] at that point, which the [patch...]
    function reads. *)
Definition settle (cfg : Index.OsmosisAIOptions) (w : World) (l : Library)
    (st : State) : State * list Event :=
  match import_error w l with
  | None =>
      let b := bindings st l in
      let st1 :=
        {| bindings :=
             update l {| class := Some LibraryClass;
                         original := original b;
                         available := true;
                         method := method b |} (bindings st);
           isOpenAIV2Patched := isOpenAIV2Patched st |} in
      let '(st2, evs) := patch cfg w l st1 in
      (st2,
       ConsoleLog [JStr ("[OSMOSIS-AI] Successfully loaded " +:+ title l
                           +:+ " library")] :: evs)
  | Some message =>
      (st,
       [ConsoleWarn [JStr ("[OSMOSIS-AI] " +:+ title l
                             +:+ " library not available:");
                     JStr message]])
  end.

(** The whole block in the case that [osmosisConfig] is the same before
    and after the [await]: the test on [enabledAPIs], then [settle].  (When
    a [configure] comes in between, the block is a [settle] under the new
    configuration; [settles] covers that.) *)
Definition load_one (cfg : Index.OsmosisAIOptions) (w : World) (l : Library)
    (st : State) : State * list Event :=
  if Index.api_enabled cfg (key l) then settle cfg w l st else (st, []).

(** [await loadLibraries()] in the case that nothing else runs while its
    imports are awaited: no [configure], and no block of another run. *)
Definition loadLibraries (cfg : Index.OsmosisAIOptions) (w : World)
    (st : State) : State * list Event :=
  fold_left
    (fun acc l => let '(st1, evs1) := load_one cfg w l (fst acc) in
                  (st1, snd acc ++ evs1))
    [openai; anthropic; langchainOpenai; langchainAnthropic]
    (st, []).

(** The object [init()] resolves to: the classes of the libraries that are
    available, under [OpenAI], [Anthropic], [ChatOpenAI], [ChatAnthropic]. *)
Definition exported (st : State) (l : Library) : option Class :=
  if available (bindings st l) then class (bindings st l) else None.

(** Runs of [loadLibraries] that do not overlap, each under the
    configuration and the world of its time.  The runs the module starts
    at import and in [configure] are not awaited and do overlap: what
    holds of every execution is stated over [settles], below. *)
Fixpoint runs (rs : list (Index.OsmosisAIOptions * World)) (st : State)
  : State :=
  match rs with
  | [] => st
  | (cfg, w) :: rest => runs rest (fst (loadLibraries cfg w st))
  end.

(** Imports that settle one after the other, in any order and of any runs
    of [loadLibraries]: [configure] does not await the run it starts, so
    that the blocks of several runs interleave.  Each entry is a block
    whose test on [enabledAPIs] has passed, with [osmosisConfig] and the
    world as they are when its import settles. *)
Fixpoint settles (bs : list (Index.OsmosisAIOptions * World * Library))
    (st : State) : State :=
  match bs with
  | [] => st
  | (cfg, w, l) :: rest => settles rest (fst (settle cfg w l st))
  end.

(** What these blocks print. *)
Fixpoint settles_log (bs : list (Index.OsmosisAIOptions * World * Library))
    (st : State) : list Event :=
  match bs with
  | [] => []
  | (cfg, w, l) :: rest =>
      snd (settle cfg w l st) ++ settles_log rest (fst (settle cfg w l st))
  end.

(** [await init()] of index.ts: it prints its line and starts a run of
    [loadLibraries]; [during] are the imports that settle until it goes on
    (those of its own run, and those of the runs in flight beside it);
    then it builds the object from [availableLibraries] as they are. *)
Definition init (during : list (Index.OsmosisAIOptions * World * Library))
    (st : State) : State * list Event * (Library -> option Class) :=
  let st1 := settles during st in
  (st1,
   ConsoleLog [JStr "[OSMOSIS-AI] Initializing with dynamic imports"]
     :: settles_log during st,
   exported st1).

(** A call of the method in the slot of [l]. *)
Inductive Dispatch (O : Type) :=
| Runs (o : O)
| NoOriginal        (* the replacement finds [original...] null *)
| Unbounded.        (* the replacement finds itself there, without end *)
Arguments Runs {O} o.
Arguments NoOriginal {O}.
Arguments Unbounded {O}.

(** [library] is what the method of the library does on an input, and
    [wrapper] what the replacement does given what its original does. *)
Definition dispatch {I O} (st : State) (l : Library)
    (library : I -> O) (wrapper : I -> O) (input : I) : Dispatch O :=
  match method (bindings st l) with
  | LibraryMethod => Runs (library input)
  | Wrapper =>
      match original (bindings st l) with
      | Some LibraryMethod => Runs (wrapper input)
      | Some Wrapper => Unbounded
      | None => NoOriginal
      end
  end.

(** How many constructor functions of [patchOpenAI] a [new] goes through,
    each of which replaces [chat.completions.create] on the instance. *)
Fixpoint wrappings (c : Class) : nat :=
  match c with
  | LibraryClass => 0
  | WrappingConstructor inner => S (wrappings inner)
  end.

End Loader.

(* ===================================================================== *)
(** * Further observations *)
(* ===================================================================== *)

(** What reading a stream gives by itself: the chunks, or its failure. *)
Definition delivered (limit : option nat) (s : Index.Stream)
  : Completion (list Index.Chunk) :=
  match limit with
  | Some O => Normal []
  | Some n =>
      if (n <=? length (Index.items s))%nat then Normal (take n (Index.items s))
      else match Index.failure s with
           | Some e => Throw e
           | None => Normal (Index.items s)
           end
  | None =>
      match Index.failure s with
      | Some e => Throw e
      | None => Normal (Index.items s)
      end
  end.

Definition map_completion {A B} (f : A -> B) (c : Completion A)
  : Completion B :=
  match c with
  | Normal a => Normal (f a)
  | Throw e => Throw e
  end.

(** What the caller would get from the original method, called directly. *)
Definition unwrapped (c : Index.Call) : Completion Index.Answer :=
  match c with
  | Index.OpenAIRequest _ original | Index.AnthropicRequest _ original =>
      match original with
      | Normal settled => map_completion Index.Response settled
      | Throw e => Throw e
      end
  | Index.OpenAICreate _ original
  | Index.LangchainOpenAIGenerate _ _ original
  | Index.LangchainAnthropicGenerate _ _ original =>
      map_completion Index.Response original
  | Index.OpenAICreateStream _ original limit =>
      match original with
      | Normal s => map_completion Index.Chunks (delivered limit s)
      | Throw e => Throw e
      end
  end.

(** The response of a call that is not a stream and whose original method
    succeeds; for a [request], the options have resolved as well. *)
Definition fulfilled_with (c : Index.Call) : option JsVal :=
  match c with
  | Index.OpenAIRequest (Normal _) (Normal (Normal v))
  | Index.AnthropicRequest (Normal _) (Normal (Normal v))
  | Index.OpenAICreate _ (Normal v)
  | Index.LangchainOpenAIGenerate _ _ (Normal v)
  | Index.LangchainAnthropicGenerate _ _ (Normal v) => Some v
  | _ => None
  end.

(** [params.stream] of a [chat.completions.create] call is truthy. *)
Definition asks_for_stream (c : Index.Call) : bool :=
  match c with
  | Index.OpenAICreate createArgs _ =>
      truthy (prop (js_or (nth 0 createArgs JUndefined) (JObj [])) "stream")
  | _ => false
  end.

(** The same state with another [enabledAPIs]. *)
Definition with_enabledAPIs (g : Index.Global) (f : Index.Field Index.Flags)
  : Index.Global :=
  {| Index.osmosisConfig := Index.set_enabledAPIs (Index.osmosisConfig g) f;
     Index.cloudState := Index.cloudState g;
     Index.pendingInits := Index.pendingInits g |}.

(** The calls of [fetch]: url, headers, body. *)
Definition fetch_calls (evs : list Event)
  : list (string * list (string * string) * string) :=
  omap (fun ev => match ev with
                  | FetchCall url headers body _ => Some (url, headers, body)
                  | _ => None
                  end) evs.

Definition is_newline (c : ascii) : bool := Ascii.eqb c "010"%char.

(** The operation is not [enableOsmosis]. *)
Definition leaves_disabled (op : Op) : bool :=
  match op with
  | OpEnable => false
  | _ => true
  end.

(** The keys of an object. *)
Definition keys (o : Obj) : list string := map fst o.

(** The partial [{}]. *)
Definition no_options : Index.OsmosisAIOptions :=
  {| Index.enabled := Index.Absent;
     Index.logDestination := Index.Absent;
     Index.logFilePath := Index.Absent;
     Index.cloudApiKey := Index.Absent;
     Index.enabledAPIs := Index.Absent |}.

(** The console lines of [logRequest] that follow the header, [Path:] and
    [Method:]. *)
Definition body_line (P : Platform) (body : JsVal) : list (list JsVal) :=
  if truthy body then
    match body with
    | JStr s => [[JStr ("  Body: " +:+ s)]]
    | _ => match JSON_stringify_2 P body with
           | Normal text => [[JStr ("  Body: " +:+ text)]]
           | Throw _ => [[JStr "  Body: [Unable to stringify body]"]]
           end
    end
  else [].

Definition query_line (P : Platform) (query : JsVal) : list (list JsVal) :=
  if truthy query && (0 <? object_keys_length query)%nat then
    match JSON_stringify_2 P query with
    | Normal text => [[JStr ("  Query: " +:+ text)]]
    | Throw _ => [[JStr "  Query: [Unable to stringify query]"]]
    end
  else [].

(** The block imports [l]: it is the block of [l], and its import
    succeeds. *)
Definition imports (l : Loader.Library)
    (b : Index.OsmosisAIOptions * Loader.World * Loader.Library) : bool :=
  Loader.Library_eqb (snd b) l
  && match Loader.import_error (snd (fst b)) l with
     | None => true
     | Some _ => false
     end.

(** The block patches [l]: it imports [l], and the API of [l] is enabled
    in [osmosisConfig] when the import settles. *)
Definition patches (l : Loader.Library)
    (b : Index.OsmosisAIOptions * Loader.World * Loader.Library) : bool :=
  imports l b && Index.api_enabled (fst (fst b)) (Loader.key l).

(** The saved originals are methods of the libraries, a replacement in a
    slot has its original, and a class is wrapped in at most one
    constructor. *)
Definition well_patched (st : Loader.State) : Prop :=
  forall l,
    Loader.original (Loader.bindings st l) <> Some Loader.Wrapper
    /\ (Loader.method (Loader.bindings st l) = Loader.Wrapper ->
        Loader.original (Loader.bindings st l) = Some Loader.LibraryMethod)
    /\ (forall c, Loader.class (Loader.bindings st l) = Some c ->
        (Loader.wrappings c <= 1)%nat).

Module Worlds.

(** [osmosisConfig] after [configure({enabledAPIs: {openai: false,
    anthropic: false}})] on the default configuration. *)
Definition langchain_only : Index.OsmosisAIOptions :=
  Index.merge_config Index.defaultConfig
    (Sample.flags_only {[ "openai" := Some false;
                          "anthropic" := Some false ]}).

(** Every library is installed, [chat.completions] is on the prototype of
    the OpenAI class and a dummy client can be built. *)
Definition complete : Loader.World :=
  {| Loader.import_error := fun _ => None;
     Loader.prototype_has_chat_completions := true;
     Loader.dummy_client_error := None |}.

(** The Anthropic SDK is not installed. *)
Definition without_anthropic : Loader.World :=
  {| Loader.import_error :=
       fun l => match l with
                | Loader.anthropic =>
                    Some "Cannot find module '@anthropic-ai/sdk'"
                | _ => None
                end;
     Loader.prototype_has_chat_completions := false;
     Loader.dummy_client_error := None |}.

End Worlds.

(* ===================================================================== *)
(** * Helper lemmas *)
(* ===================================================================== *)

Lemma obj_get_set (o : Obj) (k : string) (v : JsVal) :
  obj_get (obj_set o k v) k = v.
Proof.
  induction o as [|[k' v'] r IH]; simpl.
  - by rewrite String.eqb_refl.
  - destruct (String.eqb k' k) eqn:E; simpl; rewrite E; [done | exact IH].
Qed.

Lemma string_app_nil_r (s : string) : s +:+ "" = s.
Proof.
  induction s as [|c r IH]; [reflexivity |].
  change (String c (r +:+ "") = String c r). by f_equal.
Qed.

Lemma string_app_assoc (a b c : string) : (a +:+ b) +:+ c = a +:+ (b +:+ c).
Proof.
  induction a as [|x r IH]; [reflexivity |].
  change (String x ((r +:+ b) +:+ c) = String x (r +:+ (b +:+ c))).
  by f_equal.
Qed.

Lemma envelopes_app (a b : list Event) :
  envelopes (a ++ b) = envelopes a ++ envelopes b.
Proof. apply omap_app. Qed.

(** The three components of the gate. *)
Lemma ready_true (st : OsmosisCloud.State) :
  OsmosisCloud.ready st = true ->
  OsmosisCloud.enabled st = true
  /\ OsmosisCloud.key_configured st = true
  /\ OsmosisCloud.initialized st = true.
Proof.
  unfold OsmosisCloud.ready.
  destruct (OsmosisCloud.enabled st), (OsmosisCloud.key_configured st),
    (OsmosisCloud.initialized st); simpl; intros H; try discriminate; auto.
Qed.

(** With the gate open: the trace of [sendToOsmosis], case by case, and its
    result. *)
Lemma sendToOsmosis_ready P st query response status :
  OsmosisCloud.ready st = true ->
  let apiKey := default "" (OsmosisCloud.osmosisApiKey st) in
  let requestId := OsmosisCloud.request_id P query in
  let data := OsmosisCloud.envelope P st apiKey query requestId
                response status in
  let url := OSMOSIS_API_URL +:+ "/ingest" in
  OsmosisCloud.sendToOsmosis P st query response status =
    (match JSON_stringify P data with
     | Throw e =>
         [ConsoleWarn
            [JStr ("[OSMOSIS-AI] Failed to prepare data for Osmosis API: "
                     +:+ thrown_to_string e)]]
     | Normal json =>
         let body := strip_newlines json +:+ newline in
         FetchCall url
           [("Content-Type", "application/json"); ("x-api-key", apiKey)]
           body data
         :: after_fetch (fetch P url body)
     end, Normal requestId).
Proof.
  intros H. apply ready_true in H as (He & Hk & Hi). intros.
  unfold OsmosisCloud.sendToOsmosis. rewrite He, Hk, Hi. simpl.
  fold apiKey requestId data.
  destruct (JSON_stringify P data) as [json|e]; [|reflexivity].
  unfold OsmosisCloud.post. fold url.
  destruct (fetch P url (strip_newlines json +:+ newline)) as [e|e|code];
    try reflexivity.
  simpl. destruct (code =? 200); reflexivity.
Qed.

Lemma envelope_request_id_envelope P st apiKey query requestId response status :
  envelope_request_id
    (OsmosisCloud.envelope P st apiKey query requestId response status)
  = requestId.
Proof. unfold envelope_request_id, OsmosisCloud.envelope. simpl. apply obj_get_set. Qed.

Lemma envelopes_after_fetch r : envelopes (after_fetch r) = [].
Proof. destruct r as [e|e|code]; simpl; try done. by destruct (code =? 200). Qed.

Lemma substring_0_length n s :
  String.length (substring 0 n s) = Nat.min n (String.length s).
Proof.
  revert s; induction n as [|n IH]; intros [|c r]; simpl; try done.
  by rewrite IH.
Qed.

Lemma substring_0_all_chars p n s :
  all_chars p s = true -> all_chars p (substring 0 n s) = true.
Proof.
  revert s; induction n as [|n IH]; intros [|c r]; simpl; try done.
  intros [Hc Hr]%andb_true_iff. rewrite Hc. simpl. by apply IH.
Qed.

(** The suffix cut out of the text of a number of [0, 1). *)
Lemma suffix_of_unit_interval_text s :
  unit_interval_text s = true ->
  String.length (js_substring 2 7 s) = Nat.min 5 (String.length s - 2)
  /\ all_chars base36_digit (js_substring 2 7 s) = true.
Proof.
  unfold js_substring. change (7 - 2)%nat with 5%nat.
  destruct s as [|a [|b ds]]; try discriminate.
  - intros _. by split.
  - intros H. unfold unit_interval_text in H.
    assert (a = "0"%char /\ b = "."%char
            /\ all_chars base36_digit ds = true) as (-> & -> & Hds).
    { destruct (Ascii.eqb_spec a "0"%char) as [->|Ha];
        [|by destruct a as [[] [] [] [] [] [] [] []]].
      destruct (Ascii.eqb_spec b "."%char) as [->|Hb];
        [|by destruct b as [[] [] [] [] [] [] [] []]].
      apply andb_true_iff in H as [_ H]. done. }
    change (substring 2 5 (String "0" (String "." ds))) with (substring 0 5 ds).
    split.
    + rewrite substring_0_length. simpl String.length. f_equal. lia.
    + by apply substring_0_all_chars.
Qed.

(** With the gate closed: the trace of [sendToOsmosis] and its result. *)
Lemma sendToOsmosis_closed P st query response status :
  OsmosisCloud.ready st = false ->
  OsmosisCloud.sendToOsmosis P st query response status
  = (if OsmosisCloud.enabled st && OsmosisCloud.key_configured st
     then [ConsoleWarn
             [JStr "[OSMOSIS-AI] Cloud logging not initialized. Call init(apiKey) first."]]
     else [],
     Normal (JStr "")).
Proof.
  unfold OsmosisCloud.ready, OsmosisCloud.sendToOsmosis.
  destruct (OsmosisCloud.enabled st), (OsmosisCloud.key_configured st),
    (OsmosisCloud.initialized st); simpl; intros H; try discriminate; done.
Qed.

(* ===================================================================== *)
(** * The transport sink *)
(* ===================================================================== *)

(** C5.  Whenever the gate of [sendToOsmosis] is closed (the module flag is
    off, or no key is configured, or initialisation has not completed) the
    function returns the empty string and calls [fetch] not at all; it is
    silent when the flag is off or the key is missing, and it prints the
    single warning "Cloud logging not initialized" when the flag is on and a
    key is configured. *)
Theorem sendToOsmosis_gate_closed P st query response status :
  OsmosisCloud.ready st = false ->
  snd (OsmosisCloud.sendToOsmosis P st query response status)
    = Normal (JStr "")
  /\ envelopes (fst (OsmosisCloud.sendToOsmosis P st query response status))
     = []
  /\ fst (OsmosisCloud.sendToOsmosis P st query response status)
     = if OsmosisCloud.enabled st && OsmosisCloud.key_configured st
       then [ConsoleWarn
               [JStr "[OSMOSIS-AI] Cloud logging not initialized. Call init(apiKey) first."]]
       else [].
Proof.
  intros H. rewrite (sendToOsmosis_closed _ _ _ _ _ H). simpl.
  repeat split. by destruct (_ && _).
Qed.

Lemma sendToOsmosis_gate_closed_witness :
  OsmosisCloud.ready Sample.cloud_suspended = false
  /\ OsmosisCloud.sendToOsmosis Sample.platform Sample.cloud_suspended
       Sample.query Sample.response 200
     = ([ConsoleWarn
           [JStr "[OSMOSIS-AI] Cloud logging not initialized. Call init(apiKey) first."]],
        Normal (JStr "")).
Proof.
  split; [reflexivity |].
  destruct (sendToOsmosis_gate_closed Sample.platform Sample.cloud_suspended
              Sample.query Sample.response 200 eq_refl) as (Hr & _ & He).
  rewrite (surjective_pairing (OsmosisCloud.sendToOsmosis _ _ _ _ _)).
  rewrite Hr, He. reflexivity.
Defined.

(** C6, as the code has it.  With the gate open and no (truthy) [requestId]
    in the query, the id returned and placed in every envelope posted reads
    [req_<Date.now()>_<suffix>]; the suffix is what [substring(2, 7)] cuts
    out of the base-36 text of [Math.random()]: its first five fraction
    digits, or all of them when there are fewer.  The id starts with
    [req_]. *)
Theorem generated_request_id_form P st query response status :
  OsmosisCloud.ready st = true ->
  truthy (obj_get query "requestId") = false ->
  unit_interval_text (Math_random_36 P) = true ->
  exists id,
    snd (OsmosisCloud.sendToOsmosis P st query response status)
      = Normal (JStr id)
    /\ generated_form
         (fun n => n = Nat.min 5 (String.length (Math_random_36 P) - 2))
         (Date_now P 0) (JStr id)
    /\ String.prefix "req_" id = true
    /\ Forall (fun d => envelope_request_id d = JStr id)
         (envelopes
            (fst (OsmosisCloud.sendToOsmosis P st query response status))).
Proof.
  intros Hr Hq Ht.
  pose proof (sendToOsmosis_ready P st query response status Hr) as E.
  cbv zeta in E. rewrite E. clear E.
  assert (OsmosisCloud.request_id P query
          = JStr (OsmosisCloud.generated_request_id P)) as ->.
  { unfold OsmosisCloud.request_id, js_or. by rewrite Hq. }
  exists (OsmosisCloud.generated_request_id P).
  destruct (suffix_of_unit_interval_text _ Ht) as [Hlen Hall].
  split; [reflexivity |]. split; [|split].
  - exists (js_substring 2 7 (Math_random_36 P)). by repeat split.
  - unfold OsmosisCloud.generated_request_id.
    change ("req_" +:+ ?x) with (String "r" (String "e" (String "q" (String "_" x)))).
    simpl. by destruct (pretty _ +:+ _).
  - simpl fst. destruct (JSON_stringify P _) as [json|e]; simpl; [|constructor].
    rewrite envelopes_after_fetch. constructor; [|constructor].
    apply envelope_request_id_envelope.
Qed.

Lemma generated_request_id_form_witness :
  OsmosisCloud.ready Sample.cloud_ready = true
  /\ truthy (obj_get Sample.query "requestId") = false
  /\ unit_interval_text (Math_random_36 Sample.platform_long) = true
  /\ exists id,
       snd (OsmosisCloud.sendToOsmosis Sample.platform_long Sample.cloud_ready
              Sample.query Sample.response 200) = Normal (JStr id)
       /\ String.prefix "req_" id = true.
Proof.
  repeat (split; [reflexivity |]).
  destruct (generated_request_id_form Sample.platform_long Sample.cloud_ready
              Sample.query Sample.response 200 eq_refl eq_refl eq_refl)
    as (id & H1 & _ & H3 & _).
  exists id. split; assumption.
Defined.

(** C6, as stated, fails: when [Math.random()] returns 0.5, whose base-36
    text is [0.i], the id is [req_1700000000000_i]; its suffix has one
    character, not five. *)
Lemma generated_suffix_shorter_than_five :
  OsmosisCloud.ready Sample.cloud_ready = true
  /\ obj_get Sample.query "requestId" = JUndefined
  /\ snd (OsmosisCloud.sendToOsmosis Sample.platform Sample.cloud_ready
            Sample.query Sample.response 200)
     = Normal (JStr "req_1700000000000_i")
  /\ ~ generated_form (fun n => n = 5%nat) (Date_now Sample.platform 0)
         (JStr "req_1700000000000_i").
Proof.
  repeat (split; [reflexivity |]).
  intros (suffix & Hid & Hlen & _).
  vm_compute in Hid. injection Hid as <-. discriminate Hlen.
Qed.

(** C7, as the code has it.  With the gate open, a truthy [requestId] of the
    query (a non-empty string, for instance) is the value returned and the
    [query.requestId] of every envelope posted; when the envelope
    serialises, exactly that one envelope is posted. *)
Theorem supplied_request_id_passes_through P st query response status id :
  OsmosisCloud.ready st = true ->
  obj_get query "requestId" = id ->
  truthy id = true ->
  snd (OsmosisCloud.sendToOsmosis P st query response status) = Normal id
  /\ Forall (fun d => envelope_request_id d = id)
       (envelopes (fst (OsmosisCloud.sendToOsmosis P st query response status)))
  /\ (forall json,
        JSON_stringify P
          (OsmosisCloud.envelope P st
             (default "" (OsmosisCloud.osmosisApiKey st))
             query id response status) = Normal json ->
        envelopes (fst (OsmosisCloud.sendToOsmosis P st query response status))
        = [OsmosisCloud.envelope P st
             (default "" (OsmosisCloud.osmosisApiKey st))
             query id response status]).
Proof.
  intros Hr Hq Ht.
  pose proof (sendToOsmosis_ready P st query response status Hr) as E.
  cbv zeta in E. rewrite E. clear E.
  assert (OsmosisCloud.request_id P query = id) as ->.
  { unfold OsmosisCloud.request_id, js_or. by rewrite Hq, Ht. }
  simpl fst; simpl snd. split; [reflexivity |]. split.
  - destruct (JSON_stringify P _) as [json|e]; simpl; [|constructor].
    rewrite envelopes_after_fetch. constructor; [|constructor].
    apply envelope_request_id_envelope.
  - intros json ->. simpl. by rewrite envelopes_after_fetch.
Qed.

Lemma supplied_request_id_passes_through_witness :
  OsmosisCloud.ready Sample.cloud_ready = true
  /\ obj_get Sample.query_with_id "requestId" = JStr "custom-id-123"
  /\ truthy (JStr "custom-id-123") = true
  /\ snd (OsmosisCloud.sendToOsmosis Sample.platform Sample.cloud_ready
            Sample.query_with_id Sample.response 200)
     = Normal (JStr "custom-id-123").
Proof.
  repeat (split; [reflexivity |]).
  exact (proj1 (supplied_request_id_passes_through Sample.platform
                  Sample.cloud_ready Sample.query_with_id Sample.response 200
                  (JStr "custom-id-123") eq_refl eq_refl eq_refl)).
Defined.

(** C7, as stated, fails twice.  The module has been disabled and the
    query carries the id [custom-id-123]: nothing is posted and the empty
    string is returned.  The gate is open and the query carries the empty
    string as its id (what the stream wrapper supplies when its start
    envelope was not sent): the id is generated anew, returned and posted. *)
Lemma supplied_request_id_not_passed_through :
  (obj_get Sample.query_with_id "requestId" = JStr "custom-id-123"
   /\ OsmosisCloud.sendToOsmosis Sample.platform Sample.cloud_disabled
        Sample.query_with_id Sample.response 200
      = ([], Normal (JStr "")))
  /\ (obj_get Sample.query_with_empty_id "requestId" = JStr ""
      /\ OsmosisCloud.ready Sample.cloud_ready = true
      /\ snd (OsmosisCloud.sendToOsmosis Sample.platform Sample.cloud_ready
                Sample.query_with_empty_id Sample.response 200)
         = Normal (JStr "req_1700000000000_i")
      /\ map envelope_request_id
           (envelopes
              (fst (OsmosisCloud.sendToOsmosis Sample.platform
                      Sample.cloud_ready Sample.query_with_empty_id
                      Sample.response 200)))
         = [JStr "req_1700000000000_i"]).
Proof. repeat split; reflexivity. Qed.

(** C9.  [sendToOsmosis] always returns a value, it never throws.  It calls
    [fetch] once at most.  With the gate open the value returned is the
    correlation id, also when the envelope does not serialise (one warning
    "Failed to prepare data", nothing posted), when [fetch] throws (the same
    warning), when its promise rejects (one warning "Failed to send data")
    and when the endpoint answers with a status other than 200 (one warning
    "API returned status <code> for data"); in each of these cases that
    warning is the only effect besides the call of [fetch]. *)
Theorem sendToOsmosis_never_throws P st query response status :
  (exists v,
     snd (OsmosisCloud.sendToOsmosis P st query response status) = Normal v)
  /\ (length (envelopes
                (fst (OsmosisCloud.sendToOsmosis P st query response status)))
      <= 1)%nat
  /\ (OsmosisCloud.ready st = true ->
      let evs := fst (OsmosisCloud.sendToOsmosis P st query response status) in
      let apiKey := default "" (OsmosisCloud.osmosisApiKey st) in
      let data := OsmosisCloud.envelope P st apiKey query
                    (OsmosisCloud.request_id P query) response status in
      let url := OSMOSIS_API_URL +:+ "/ingest" in
      let call json :=
        FetchCall url
          [("Content-Type", "application/json"); ("x-api-key", apiKey)]
          (strip_newlines json +:+ newline) data in
      snd (OsmosisCloud.sendToOsmosis P st query response status)
        = Normal (OsmosisCloud.request_id P query)
      /\ (forall e,
            JSON_stringify P data = Throw e ->
            evs = [ConsoleWarn
                     [JStr ("[OSMOSIS-AI] Failed to prepare data for Osmosis API: "
                              +:+ thrown_to_string e)]])
      /\ (forall json e,
            JSON_stringify P data = Normal json ->
            fetch P url (strip_newlines json +:+ newline) = FetchThrows e ->
            evs = [call json;
                   ConsoleWarn
                     [JStr ("[OSMOSIS-AI] Failed to prepare data for Osmosis API: "
                              +:+ thrown_to_string e)]])
      /\ (forall json e,
            JSON_stringify P data = Normal json ->
            fetch P url (strip_newlines json +:+ newline) = FetchRejects e ->
            evs = [call json;
                   ConsoleWarn
                     [JStr ("[OSMOSIS-AI] Failed to send data to Osmosis API: "
                              +:+ thrown_to_string e)]])
      /\ (forall json code,
            JSON_stringify P data = Normal json ->
            fetch P url (strip_newlines json +:+ newline) = FetchResolves code ->
            code <> 200 ->
            evs = [call json;
                   ConsoleWarn
                     [JStr ("[OSMOSIS-AI] API returned status "
                              +:+ pretty code +:+ " for data")]])).
Proof.
  destruct (OsmosisCloud.ready st) eqn:Hr.
  - pose proof (sendToOsmosis_ready P st query response status Hr) as E.
    cbv zeta in E. rewrite E. clear E. simpl fst; simpl snd.
    split; [by eexists |]. split.
    + destruct (JSON_stringify P _); simpl; [|lia].
      rewrite envelopes_after_fetch. simpl. lia.
    + intros _. cbv zeta. split; [reflexivity |].
      repeat split.
      * by intros e ->.
      * by intros json e -> ->.
      * by intros json e -> ->.
      * intros json code -> -> Hc. simpl.
        by destruct (Z.eqb_spec code 200).
  - rewrite (sendToOsmosis_closed _ _ _ _ _ Hr). simpl.
    split; [by eexists |]. split; [|discriminate].
    destruct (_ && _); simpl; lia.
Qed.

Lemma sendToOsmosis_never_throws_witness :
  OsmosisCloud.ready Sample.cloud_ready = true
  /\ warnings
       (fst (OsmosisCloud.sendToOsmosis Sample.platform_400 Sample.cloud_ready
               Sample.query Sample.response 200))
     = [[JStr "[OSMOSIS-AI] API returned status 400 for data"]]
  /\ snd (OsmosisCloud.sendToOsmosis Sample.platform_400 Sample.cloud_ready
            Sample.query Sample.response 200)
     = Normal (JStr "req_1700000000000_4fzyo").
Proof.
  split; [reflexivity |].
  destruct (sendToOsmosis_never_throws Sample.platform_400 Sample.cloud_ready
              Sample.query Sample.response 200) as (_ & _ & H).
  destruct (H eq_refl) as (Hs & _ & _ & _ & H400).
  split.
  - rewrite (H400 "{}" 400 eq_refl eq_refl ltac:(discriminate)). reflexivity.
  - rewrite Hs. reflexivity.
Defined.

(** A module without a usable key neither posts nor returns an id. *)
Lemma step_without_key op st :
  OsmosisCloud.key_configured st = false ->
  leaves_key_empty op = true ->
  let '(st', evs, rs) := step op st in
  OsmosisCloud.key_configured st' = false
  /\ envelopes evs = []
  /\ Forall (fun r => r = Normal (JStr "")) rs.
Proof.
  intros Hk Hop. destruct op as [apiKey| | | |P query response status]; simpl.
  - simpl in Hop. apply String.eqb_eq in Hop as ->. simpl. by repeat split.
  - by repeat split.
  - by repeat split.
  - by repeat split.
  - assert (OsmosisCloud.ready st = false) as Hr.
    { unfold OsmosisCloud.ready. rewrite Hk. by destruct (OsmosisCloud.enabled st). }
    rewrite (sendToOsmosis_closed _ _ _ _ _ Hr), Hk, andb_false_r.
    repeat split; try done. by constructor.
Qed.

Lemma run_ops_without_key ops : forall st,
  OsmosisCloud.key_configured st = false ->
  forallb leaves_key_empty ops = true ->
  let '(st', evs, rs) := run_ops ops st in
  OsmosisCloud.key_configured st' = false
  /\ envelopes evs = []
  /\ Forall (fun r => r = Normal (JStr "")) rs.
Proof.
  induction ops as [|op rest IH]; intros st Hk Hops; simpl.
  - by repeat split.
  - simpl in Hops. apply andb_true_iff in Hops as [Hop Hrest].
    pose proof (step_without_key op st Hk Hop) as Hs.
    destruct (step op st) as [[st1 evs1] rs1].
    destruct Hs as (Hk1 & He1 & Hr1).
    specialize (IH st1 Hk1 Hrest).
    destruct (run_ops rest st1) as [[st2 evs2] rs2].
    destruct IH as (Hk2 & He2 & Hr2).
    repeat split; try done.
    + by rewrite envelopes_app, He1, He2.
    + by apply Forall_app.
Qed.

(** C10.  [init("")] prints one warning, stores the empty key and leaves
    [initialized] as it was ([false] on a fresh module).  From then on, for
    every sequence of operations of the module that contains no [init] with
    a non-empty key (the continuation of an earlier, suspended [init] may
    well run in between), every [sendToOsmosis] returns the empty string and
    [fetch] is never called. *)
Theorem init_with_empty_key_never_sends st ops :
  forallb leaves_key_empty ops = true ->
  let '(st1, evs1, suspended) := OsmosisCloud.init_begin "" st in
  evs1 = [ConsoleWarn
            [JStr "[OSMOSIS-AI] No API key provided. Cloud logging disabled."]]
  /\ suspended = false
  /\ OsmosisCloud.init "" st = (st1, evs1)
  /\ OsmosisCloud.osmosisApiKey st1 = Some ""
  /\ OsmosisCloud.initialized st1 = OsmosisCloud.initialized st
  /\ OsmosisCloud.initialized (fst (OsmosisCloud.init "" OsmosisCloud.fresh))
     = false
  /\ let '(st2, evs, results) := run_ops ops st1 in
     envelopes evs = []
     /\ Forall (fun r => r = Normal (JStr "")) results.
Proof.
  intros Hops. simpl. repeat split.
  pose proof (run_ops_without_key ops
                {| OsmosisCloud.enabled := OsmosisCloud.enabled st;
                   OsmosisCloud.osmosisApiKey := Some "";
                   OsmosisCloud.initialized := OsmosisCloud.initialized st;
                   OsmosisCloud.xxhashInstance := OsmosisCloud.xxhashInstance st |}
                eq_refl Hops) as H.
  destruct (run_ops ops _) as [[st2 evs] results].
  by destruct H as (_ & ? & ?).
Qed.

Lemma init_with_empty_key_never_sends_witness :
  forallb leaves_key_empty
    [OpInitResume; OpEnable;
     OpSend Sample.platform Sample.query Sample.response 200;
     OpInit ""; OpDisable;
     OpSend Sample.platform Sample.query_with_id Sample.response 500] = true
  /\ Forall (fun r => r = Normal (JStr ""))
       (snd (run_ops
               [OpInitResume; OpEnable;
                OpSend Sample.platform Sample.query Sample.response 200;
                OpInit ""; OpDisable;
                OpSend Sample.platform Sample.query_with_id Sample.response 500]
               (fst (OsmosisCloud.init "" Sample.cloud_suspended)))).
Proof.
  split; [reflexivity |].
  pose proof (init_with_empty_key_never_sends Sample.cloud_suspended
                [OpInitResume; OpEnable;
                 OpSend Sample.platform Sample.query Sample.response 200;
                 OpInit ""; OpDisable;
                 OpSend Sample.platform Sample.query_with_id Sample.response 500]
                eq_refl) as H.
  vm_compute in H |- *. exact (proj2 (proj2 (proj2 (proj2 (proj2 (proj2 (proj2 H))))))).
Defined.

(* ===================================================================== *)
(** * The configuration layer *)
(* ===================================================================== *)

Lemma configure_osmosisConfig P options g :
  Index.osmosisConfig (fst (Index.configure P options g))
  = Index.merge_config (Index.osmosisConfig g) options.
Proof.
  unfold Index.configure, Index.start_cloud_init, Index.with_cloud.
  destruct (Index.read (Index.cloudApiKey options)) as [key|];
    [destruct (String.eqb key "");
     [|destruct (OsmosisCloud.init_begin key _) as [[st evs] suspended]] |];
    simpl; destruct (Index.read (Index.logDestination options)) as [[]|];
    reflexivity.
Qed.

(** A flag after the merge: the value of the partial when the partial gives
    one, the previous value otherwise. *)
Lemma merge_config_flag previous options name :
  Index.enabledAPIs options <> Index.Undefined ->
  flag_value (Index.merge_config previous options) name
  = if mentions options name then flag_value options name
    else flag_value previous name.
Proof.
  intros Hu. unfold Index.merge_config, flag_value, mentions.
  destruct (Index.enabledAPIs options) as [| |m] eqn:E; [|done|]; simpl.
  - by rewrite E.
  - unfold Index.spread_flags. simpl. rewrite lookup_union.
    destruct (m !! name) as [v|] eqn:Em; simpl.
    + by destruct (default ∅ (Index.read (Index.enabledAPIs previous)) !! name).
    + destruct (Index.read (Index.enabledAPIs previous)) as [m'|]; simpl.
      * by destruct (m' !! name).
      * by rewrite lookup_empty.
Qed.

Lemma merge_config_top_level previous options :
  Index.enabled (Index.merge_config previous options)
    = Index.overwrite (Index.enabled previous) (Index.enabled options)
  /\ Index.logDestination (Index.merge_config previous options)
     = Index.overwrite (Index.logDestination previous)
         (Index.logDestination options)
  /\ Index.logFilePath (Index.merge_config previous options)
     = Index.overwrite (Index.logFilePath previous) (Index.logFilePath options)
  /\ Index.cloudApiKey (Index.merge_config previous options)
     = Index.overwrite (Index.cloudApiKey previous) (Index.cloudApiKey options).
Proof.
  unfold Index.merge_config. by destruct (Index.enabledAPIs options).
Qed.

(** X24.  For a partial whose [enabledAPIs] is absent or an object,
    [configure] leaves in the configuration, for every library name, the
    flag of the partial when the partial gives one and the previous flag
    otherwise; the other top-level keys of the partial overwrite the
    previous ones, and the keys it lacks are kept. *)
Theorem configure_merges_enabledAPIs P options g name :
  Index.enabledAPIs options <> Index.Undefined ->
  let previous := Index.osmosisConfig g in
  let current := Index.osmosisConfig (fst (Index.configure P options g)) in
  flag_value current name
    = (if mentions options name then flag_value options name
       else flag_value previous name)
  /\ Index.enabled current
     = Index.overwrite (Index.enabled previous) (Index.enabled options)
  /\ Index.logDestination current
     = Index.overwrite (Index.logDestination previous)
         (Index.logDestination options)
  /\ Index.logFilePath current
     = Index.overwrite (Index.logFilePath previous) (Index.logFilePath options)
  /\ Index.cloudApiKey current
     = Index.overwrite (Index.cloudApiKey previous) (Index.cloudApiKey options).
Proof.
  intros Hu previous current. subst current.
  rewrite configure_osmosisConfig. split.
  - by apply merge_config_flag.
  - apply merge_config_top_level.
Qed.

Lemma configure_merges_enabledAPIs_witness :
  Index.enabledAPIs Sample.disable_anthropic <> Index.Undefined
  /\ let g1 := fst (Index.configure Sample.platform Sample.enable_two
                      Index.initial) in
     let g2 := fst (Index.configure Sample.platform Sample.disable_anthropic
                      g1) in
     flag_value (Index.osmosisConfig g2) "openai" = Some true
     /\ flag_value (Index.osmosisConfig g2) "anthropic" = Some false.
Proof.
  split; [discriminate |]. cbv zeta. split.
  - rewrite (proj1 (configure_merges_enabledAPIs Sample.platform
                      Sample.disable_anthropic _ "openai"
                      ltac:(discriminate))).
    reflexivity.
  - rewrite (proj1 (configure_merges_enabledAPIs Sample.platform
                      Sample.disable_anthropic _ "anthropic"
                      ltac:(discriminate))).
    reflexivity.
Defined.

(** The example of the specification, from any configuration: after
    [configure({enabledAPIs: {openai: true, anthropic: true}})] and
    [configure({enabledAPIs: {anthropic: false}})], [openai] is enabled,
    [anthropic] is disabled, and the LangChain flags are those from before
    the two calls. *)
Lemma configure_partial_merge_example P g :
  let g1 := fst (Index.configure P Sample.enable_two g) in
  let g2 := fst (Index.configure P Sample.disable_anthropic g1) in
  flag_value (Index.osmosisConfig g2) "openai" = Some true
  /\ flag_value (Index.osmosisConfig g2) "anthropic" = Some false
  /\ flag_value (Index.osmosisConfig g2) "langchainOpenai"
     = flag_value (Index.osmosisConfig g) "langchainOpenai"
  /\ flag_value (Index.osmosisConfig g2) "langchainAnthropic"
     = flag_value (Index.osmosisConfig g) "langchainAnthropic".
Proof.
  cbv zeta. rewrite !configure_osmosisConfig.
  rewrite !merge_config_flag by discriminate.
  repeat split; reflexivity.
Qed.

(** C8 at a failing input, the call of the test "should use reasonable
    defaults": on the default configuration,
    [configure({enabled: undefined, logDestination: undefined,
    enabledAPIs: undefined})] names no library, and yet no flag keeps its
    prior value.  The spread overwrites the top-level key [enabledAPIs]
    with [undefined], and the key-by-key merge is skipped for a falsy
    [options.enabledAPIs]: the flag of [openai], [true] before the call,
    is [undefined] after it, as is every other flag, and [enabled] and
    [logDestination] are [undefined] as well, where the test expects the
    defaults. *)
Theorem configure_undefined_enabledAPIs_drops_flags :
  let after :=
    Index.osmosisConfig
      (fst (Index.configure Sample.platform Sample.all_undefined
              Index.initial)) in
  mentions Sample.all_undefined "openai" = false
  /\ flag_value (Index.osmosisConfig Index.initial) "openai" = Some true
  /\ flag_value after "openai" = None
  /\ Index.api_enabled after "openai" = false
  /\ Forall (fun name =>
               flag_value (Index.osmosisConfig Index.initial) name
               = Some true
               /\ flag_value after name = None)
       ["openai"; "anthropic"; "langchainOpenai"; "langchainAnthropic"]
  /\ Index.enabled after = Index.Undefined
  /\ Index.logDestination after = Index.Undefined
  /\ Index.enabledAPIs after = Index.Undefined.
Proof.
  cbv zeta. do 4 (split; [reflexivity |]).
  split; [| by repeat split].
  repeat constructor.
Qed.

(* ===================================================================== *)
(** * The interception core: helper lemmas *)
(* ===================================================================== *)

Lemma bind_Normal {A B} (m : M A) (k : A -> M B) a :
  snd m = Normal a ->
  bind m k = (fst m ++ fst (k a), snd (k a)).
Proof. destruct m as [evs r]; simpl; intros ->. by destruct (k a). Qed.

Lemma bind_Throw {A B} (m : M A) (k : A -> M B) e :
  snd m = Throw e -> bind m k = (fst m, Throw e).
Proof. destruct m as [evs r]; simpl; by intros ->. Qed.

Lemma try_catch_Throw {A} (m : M A) (h : Thrown -> M A) e :
  snd m = Throw e ->
  try_catch m h = (fst m ++ fst (h e), snd (h e)).
Proof. destruct m as [evs r]; simpl; intros ->. by destruct (h e). Qed.

Lemma try_catch_Normal {A} (m : M A) (h : Thrown -> M A) a :
  snd m = Normal a -> try_catch m h = m.
Proof. destruct m as [evs r]; simpl; by intros ->. Qed.

Lemma error_envelopes_app (a b : list Event) :
  error_envelopes (a ++ b) = error_envelopes a ++ error_envelopes b.
Proof. unfold error_envelopes. by rewrite envelopes_app, List.filter_app. Qed.

Lemma error_envelopes_none (evs : list Event) :
  envelopes evs = [] -> error_envelopes evs = [].
Proof. unfold error_envelopes. by intros ->. Qed.

(** [sendToOsmosis] returns. *)
Lemma sendToOsmosis_returns P st query response status :
  exists v,
    snd (OsmosisCloud.sendToOsmosis P st query response status) = Normal v.
Proof.
  destruct (OsmosisCloud.ready st) eqn:Hr.
  - pose proof (sendToOsmosis_ready P st query response status Hr) as E.
    cbv zeta in E. rewrite E. by eexists.
  - rewrite (sendToOsmosis_closed _ _ _ _ _ Hr). by eexists.
Qed.

(** Every envelope it posts carries the status it was given. *)
Lemma sendToOsmosis_status P st query response status :
  Forall (fun d => envelope_status d = JNum status)
    (envelopes (fst (OsmosisCloud.sendToOsmosis P st query response status))).
Proof.
  destruct (OsmosisCloud.ready st) eqn:Hr.
  - pose proof (sendToOsmosis_ready P st query response status Hr) as E.
    cbv zeta in E. rewrite E. simpl.
    destruct (JSON_stringify P _); simpl; [|constructor].
    rewrite envelopes_after_fetch. by repeat constructor.
  - rewrite (sendToOsmosis_closed _ _ _ _ _ Hr). simpl.
    destruct (_ && _); constructor.
Qed.

(** With the gate open and a platform that serialises, one envelope. *)
Lemma sendToOsmosis_one_envelope P st query response status :
  OsmosisCloud.ready st = true ->
  serialises P ->
  envelopes (fst (OsmosisCloud.sendToOsmosis P st query response status))
    = [OsmosisCloud.envelope P st (default "" (OsmosisCloud.osmosisApiKey st))
         query (OsmosisCloud.request_id P query) response status]
  /\ snd (OsmosisCloud.sendToOsmosis P st query response status)
     = Normal (OsmosisCloud.request_id P query).
Proof.
  intros Hr Hs.
  pose proof (sendToOsmosis_ready P st query response status Hr) as E.
  cbv zeta in E. rewrite E. simpl.
  destruct (Hs (OsmosisCloud.envelope P st
                  (default "" (OsmosisCloud.osmosisApiKey st)) query
                  (OsmosisCloud.request_id P query) response status))
    as [json ->].
  simpl. by rewrite envelopes_after_fetch.
Qed.

Lemma send_returns P g query response status :
  snd (Index.send P g query response status) = Normal tt.
Proof.
  unfold Index.send.
  destruct (sendToOsmosis_returns P (Index.cloudState g) query response status)
    as [v Hv].
  by rewrite (bind_Normal _ _ _ Hv).
Qed.

Lemma send_events P g query response status :
  fst (Index.send P g query response status)
  = fst (OsmosisCloud.sendToOsmosis P (Index.cloudState g) query response status).
Proof.
  unfold Index.send.
  destruct (sendToOsmosis_returns P (Index.cloudState g) query response status)
    as [v Hv].
  rewrite (bind_Normal _ _ _ Hv). simpl. apply app_nil_r.
Qed.

Lemma log_body_safe P body :
  snd (Index.log_body P body) = Normal tt
  /\ envelopes (fst (Index.log_body P body)) = [].
Proof.
  unfold Index.log_body, when.
  destruct (truthy body); [|done].
  destruct body; simpl; try done;
    match goal with
    | |- context [JSON_stringify_2 P ?v] =>
        destruct (JSON_stringify_2 P v); simpl; done
    end.
Qed.

Lemma log_query_safe P query :
  snd (Index.log_query P query) = Normal tt
  /\ envelopes (fst (Index.log_query P query)) = [].
Proof.
  unfold Index.log_query, when.
  destruct (_ && _); [|done].
  destruct (JSON_stringify_2 P query); simpl; done.
Qed.

(** [logRequest] returns, and what it posts is posted with status 200. *)
Lemma logRequest_safe P g apiName timestamp path method body query :
  snd (Index.logRequest P g apiName timestamp path method body query)
    = Normal tt
  /\ error_envelopes
       (fst (Index.logRequest P g apiName timestamp path method body query))
     = [].
Proof.
  unfold Index.logRequest.
  destruct (Index.config_enabled g); [|done]. simpl negb. cbv iota.
  set (printed := when (Index.console_active g) _).
  assert (snd printed = Normal tt /\ envelopes (fst printed) = [])
    as [Hp1 Hp2].
  { subst printed. unfold when. destruct (Index.console_active g); [|done].
    destruct (log_body_safe P body) as [Hb1 Hb2].
    destruct (log_query_safe P query) as [Hq1 Hq2].
    destruct (Index.log_body P body) as [eb rb].
    destruct (Index.log_query P query) as [eq rq].
    simpl in *. subst rb rq. simpl.
    by rewrite !envelopes_app, Hb2, Hq2. }
  rewrite (bind_Normal _ _ _ Hp1). simpl.
  rewrite error_envelopes_app, (error_envelopes_none _ Hp2). simpl.
  unfold when. destruct (_ && _); [|done].
  set (q := [("api", _); _; _; _; _; _]).
  destruct (sendToOsmosis_returns P (Index.cloudState g) q (JObj []) 200)
    as [v Hv].
  pose proof (sendToOsmosis_status P (Index.cloudState g) q (JObj []) 200)
    as Hst.
  rewrite (bind_Normal _ _ _ Hv). simpl. split; [done |].
  rewrite app_nil_r. unfold error_envelopes.
  induction Hst as [|d l Hd _ IH]; [done |]. simpl. by rewrite Hd.
Qed.

Lemma cloud_only g :
  Index.destination_is g Index.cloud = true ->
  Index.console_active g = false /\ Index.cloud_active g = true.
Proof.
  unfold Index.console_active, Index.cloud_active, Index.destination_is.
  by destruct (Index.read (Index.logDestination (Index.osmosisConfig g)))
    as [[]|].
Qed.

(** The request-phase statement [if (console || both) logRequest(...)]. *)
Lemma guarded_logRequest_safe (b : bool) P g apiName timestamp path method
    body query :
  let m := when b (Index.logRequest P g apiName timestamp path method body
                     query) in
  snd m = Normal tt
  /\ error_envelopes (fst m) = []
  /\ (b = false -> fst m = []).
Proof.
  destruct b; simpl.
  - destruct (logRequest_safe P g apiName timestamp path method body query)
      as [H1 H2]. by repeat split.
  - by repeat split.
Qed.

(** The [catch] block of the wrappers that report: one envelope with status
    500, then the error again. *)
Lemma report_and_rethrow P g query response e :
  OsmosisCloud.ready (Index.cloudState g) = true ->
  serialises P ->
  let h := bind (Index.send P g query response 500)
                (fun _ => @throw JsVal e) in
  snd h = Throw e
  /\ envelopes (fst h)
     = [OsmosisCloud.envelope P (Index.cloudState g)
          (default "" (OsmosisCloud.osmosisApiKey (Index.cloudState g)))
          query (OsmosisCloud.request_id P query) response 500].
Proof.
  intros Hr Hs h. subst h.
  rewrite (bind_Normal _ _ _ (send_returns P g query response 500)). simpl.
  rewrite app_nil_r, send_events.
  split; [done |].
  apply (sendToOsmosis_one_envelope P _ query response 500 Hr Hs).
Qed.

Lemma answer_Throw {A} (f : A -> Index.Answer) (m : M A) e :
  snd m = Throw e -> Index.answer f m = (fst m, Throw e).
Proof. intros H. unfold Index.answer. by apply bind_Throw. Qed.

(** [chat.completions.create] when the original method rejects. *)
Lemma openai_create_failure P_req P_resp g createArgs e :
  Index.cloud_active g = true ->
  OsmosisCloud.ready (Index.cloudState g) = true ->
  serialises P_resp ->
  let m := Index.openai_create P_req P_resp g createArgs (Throw e) in
  let params := js_or (nth 0 createArgs JUndefined) (JObj []) in
  let query := Index.v2_query P_resp params in
  let d := OsmosisCloud.envelope P_resp (Index.cloudState g)
             (default "" (OsmosisCloud.osmosisApiKey (Index.cloudState g)))
             query (OsmosisCloud.request_id P_resp query)
             (JObj [ ("error", JStr (error_message e));
                     ("timestamp", JStr (Date_toISOString P_resp 1)) ])
             500 in
  snd m = Throw e
  /\ error_envelopes (fst m) = [d]
  /\ (Index.console_active g = false -> envelopes (fst m) = [d]).
Proof.
  intros Hc Hr Hs m params query d. subst m. unfold Index.openai_create.
  fold params. rewrite Hc.
  destruct (guarded_logRequest_safe (Index.console_active g) P_req g
              "OpenAI v2" (Date_toISOString P_req 0)
              (JStr "/v1/chat/completions") (JStr "POST") params JNull)
    as (H1 & H2 & H3).
  rewrite (bind_Normal _ _ _ H1).
  destruct (report_and_rethrow P_resp g query
              (JObj [ ("error", JStr (error_message e));
                      ("timestamp", JStr (Date_toISOString P_resp 1)) ])
              e Hr Hs) as [R1 R2].
  fold query. simpl when.
  rewrite (try_catch_Throw _ _ e) by reflexivity.
  cbn [fst snd lift bind app].
  rewrite R1. split; [reflexivity |]. split.
  - rewrite error_envelopes_app, H2, app_nil_l.
    unfold error_envelopes. rewrite R2. reflexivity.
  - intros Hf. rewrite (H3 Hf), app_nil_l. exact R2.
Qed.

(** A LangChain [_generate] when the original method rejects. *)
Lemma langchain_generate_failure apiName path kwargs P_req P_resp g this
    messages e :
  Index.cloud_active g = true ->
  OsmosisCloud.ready (Index.cloudState g) = true ->
  serialises P_resp ->
  let m := Index.langchain_generate apiName path kwargs P_req P_resp g this
             messages (Throw e) in
  let body := Index.requestData this kwargs messages in
  let query := Index.langchain_query P_resp apiName path body in
  let d := OsmosisCloud.envelope P_resp (Index.cloudState g)
             (default "" (OsmosisCloud.osmosisApiKey (Index.cloudState g)))
             query (OsmosisCloud.request_id P_resp query)
             (JObj [ ("error", JStr (error_message e));
                     ("timestamp", JStr (Date_toISOString P_resp 1)) ])
             500 in
  snd m = Throw e
  /\ error_envelopes (fst m) = [d]
  /\ (Index.console_active g = false -> envelopes (fst m) = [d]).
Proof.
  intros Hc Hr Hs m body query d. subst m. unfold Index.langchain_generate.
  fold body. rewrite Hc.
  destruct (report_and_rethrow P_resp g query
              (JObj [ ("error", JStr (error_message e));
                      ("timestamp", JStr (Date_toISOString P_resp 1)) ])
              e Hr Hs) as [R1 R2].
  fold query.
  set (printed := when (Index.console_active g) _).
  assert (snd printed = Normal tt /\ error_envelopes (fst printed) = []
          /\ (Index.console_active g = false -> fst printed = []))
    as (H1 & H2 & H3).
  { subst printed. unfold when. destruct (Index.console_active g); [|done].
    destruct (logRequest_safe P_req g apiName (Date_toISOString P_req 0)
                (JStr path) (JStr "POST") body JNull) as [L1 L2].
    rewrite (try_catch_Normal _ _ tt L1). by repeat split. }
  rewrite (bind_Normal _ _ _ H1).
  rewrite (try_catch_Throw _ _ e) by reflexivity.
  cbn [fst snd lift bind app].
  rewrite R1. split; [reflexivity |]. split.
  - rewrite error_envelopes_app, H2, app_nil_l.
    unfold error_envelopes. rewrite R2. reflexivity.
  - intros Hf. rewrite (H3 Hf), app_nil_l. exact R2.
Qed.

Lemma when_send_returns (b : bool) P g query response status :
  snd (when b (Index.send P g query response status)) = Normal tt.
Proof. destruct b; [apply send_returns | reflexivity]. Qed.

Lemma when_logRequest_returns (b : bool) P g apiName timestamp path method
    body query :
  snd (when b (Index.logRequest P g apiName timestamp path method body query))
  = Normal tt.
Proof.
  apply (guarded_logRequest_safe b P g apiName timestamp path method body query).
Qed.

Lemma request_wrapper_rethrows P_req P_resp g apiName guard head options
    original e :
  original = Throw e \/ original = Normal (Throw e) ->
  snd (bind (Index.request_phase P_req g apiName guard options)
         (fun _ =>
            bind (lift original)
              (fun responsePromise =>
                 bind (when (Index.cloud_active g)
                         (Index.response_phase P_resp g head options
                            responsePromise))
                      (fun _ => lift responsePromise))))
  = Throw e.
Proof.
  intros H.
  rewrite (bind_Normal _ _ tt) by reflexivity. cbn [snd].
  destruct H as [-> | ->]; [reflexivity |].
  rewrite (bind_Normal _ _ (@Throw JsVal e)) by reflexivity.
  cbn [snd].
  rewrite (bind_Normal _ _ tt); [reflexivity |].
  by destruct (Index.cloud_active g).
Qed.

Lemma openai_create_rethrows P_req P_resp g createArgs e :
  snd (Index.openai_create P_req P_resp g createArgs (Throw e)) = Throw e.
Proof.
  unfold Index.openai_create.
  rewrite (bind_Normal _ _ tt) by apply when_logRequest_returns. cbn [snd].
  rewrite (try_catch_Throw _ _ e) by reflexivity. cbn [snd].
  rewrite (bind_Normal _ _ tt) by apply when_send_returns. reflexivity.
Qed.

Lemma langchain_generate_rethrows apiName path kwargs P_req P_resp g this
    messages e :
  snd (Index.langchain_generate apiName path kwargs P_req P_resp g this
         messages (Throw e)) = Throw e.
Proof.
  unfold Index.langchain_generate.
  set (printed := when (Index.console_active g) _).
  assert (snd printed = Normal tt) as H1.
  { subst printed. unfold when. destruct (Index.console_active g); [|done].
    destruct (logRequest_safe P_req g apiName (Date_toISOString P_req 0)
                (JStr path) (JStr "POST")
                (Index.requestData this kwargs messages) JNull) as [L1 _].
    by rewrite (try_catch_Normal _ _ tt L1). }
  rewrite (bind_Normal _ _ _ H1). cbn [snd].
  destruct (Index.cloud_active g); [|reflexivity].
  rewrite (try_catch_Throw _ _ e) by reflexivity. cbn [snd].
  rewrite (bind_Normal _ _ tt) by apply send_returns. reflexivity.
Qed.

Lemma openai_create_stream_rethrows P g streamArgs e :
  snd (Index.openai_create_stream P g streamArgs (Throw e)) = Throw e.
Proof.
  unfold Index.openai_create_stream.
  rewrite (bind_Normal _ _ tt) by apply when_logRequest_returns. cbn [snd].
  set (start := if Index.cloud_active g then _ else _).
  assert (exists id, snd start = Normal id) as [id Hid].
  { subst start. destruct (Index.cloud_active g); [|by eexists].
    match goal with
    | |- context [OsmosisCloud.sendToOsmosis ?P ?st ?q ?r ?s] =>
        destruct (sendToOsmosis_returns P st q r s) as [v Hv];
        rewrite (bind_Normal _ _ _ Hv)
    end.
    by eexists. }
  rewrite (bind_Normal _ _ _ Hid). reflexivity.
Qed.

(** Whatever the family and the configuration, the error of the original
    method reaches the caller as it is. *)
Lemma intercepted_rethrows P_req P_resp g c e :
  Index.original_failure c = Some e ->
  snd (Index.intercepted P_req P_resp g c) = Throw e.
Proof.
  intros H.
  destruct c as [options original|options original|createArgs original
                |streamArgs original limit|this messages original
                |this messages original]; simpl in H.
  - assert (original = Throw e \/ original = Normal (Throw e)) as Ho
      by (destruct original as [[?|?]|?]; inversion H; auto).
    simpl. rewrite (answer_Throw _ _ e); [reflexivity |].
    by apply request_wrapper_rethrows.
  - assert (original = Throw e \/ original = Normal (Throw e)) as Ho
      by (destruct original as [[?|?]|?]; inversion H; auto).
    simpl. rewrite (answer_Throw _ _ e); [reflexivity |].
    by apply request_wrapper_rethrows.
  - destruct original as [?|e']; inversion H; subst.
    simpl. rewrite (answer_Throw _ _ e); [reflexivity |].
    apply openai_create_rethrows.
  - destruct original as [?|e']; inversion H; subst.
    simpl. by rewrite (bind_Throw _ _ e) by apply openai_create_stream_rethrows.
  - destruct original as [?|e']; inversion H; subst.
    simpl. rewrite (answer_Throw _ _ e); [reflexivity |].
    apply langchain_generate_rethrows.
  - destruct original as [?|e']; inversion H; subst.
    simpl. rewrite (answer_Throw _ _ e); [reflexivity |].
    apply langchain_generate_rethrows.
Qed.

(* ===================================================================== *)
(** * The interception core *)
(* ===================================================================== *)

(** C1, as the code has it.  When the original method fails with [e], every
    wrapper hands [e] to its caller unchanged.  The wrappers of
    [chat.completions.create] and of the two LangChain [_generate] methods,
    when [logDestination] is [cloud] or [both], the cloud module is enabled,
    has a key and is initialised, and envelopes serialise, post exactly one
    envelope with status 500: its [query.body] is the request and its
    [response.error] the message of [e].  With [logDestination] [cloud] it
    is the only envelope of the call. *)
Theorem failure_is_reported_and_rethrown P_req P_resp g c e :
  Index.original_failure c = Some e ->
  snd (Index.intercepted P_req P_resp g c) = Throw e
  /\ (reports_failures c = true ->
      Index.cloud_active g = true ->
      OsmosisCloud.ready (Index.cloudState g) = true ->
      serialises P_resp ->
      exists d,
        error_envelopes (fst (Index.intercepted P_req P_resp g c)) = [d]
        /\ envelope_status d = JNum 500
        /\ prop (prop d "query") "body" = logged_body c
        /\ prop (prop d "response") "error" = JStr (error_message e)
        /\ (Index.destination_is g Index.cloud = true ->
            envelopes (fst (Index.intercepted P_req P_resp g c)) = [d])).
Proof.
  intros H. split; [by apply intercepted_rethrows |].
  intros Hrep Hc Hr Hs.
  destruct c as [options original|options original|createArgs original
                |streamArgs original limit|this messages original
                |this messages original]; try discriminate Hrep;
    simpl in H; destruct original as [?|e']; inversion H; subst; simpl.
  - destruct (openai_create_failure P_req P_resp g createArgs e Hc Hr Hs)
      as (F1 & F2 & F3).
    rewrite (answer_Throw _ _ e F1). cbn [fst].
    eexists. split; [exact F2 |]. repeat split.
    intros Hd. apply F3. by apply cloud_only.
  - destruct (langchain_generate_failure "LangChain OpenAI"
                "/v1/chat/completions" "modelKwargs" P_req P_resp g this
                messages e Hc Hr Hs) as (F1 & F2 & F3).
    unfold Index.langchain_openai_generate.
    rewrite (answer_Throw _ _ e F1). cbn [fst].
    eexists. split; [exact F2 |]. repeat split.
    intros Hd. apply F3. by apply cloud_only.
  - destruct (langchain_generate_failure "LangChain Anthropic"
                "/v1/messages" "invocationKwargs" P_req P_resp g this
                messages e Hc Hr Hs) as (F1 & F2 & F3).
    unfold Index.langchain_anthropic_generate.
    rewrite (answer_Throw _ _ e F1). cbn [fst].
    eexists. split; [exact F2 |]. repeat split.
    intros Hd. apply F3. by apply cloud_only.
Qed.

Lemma sample_platform_serialises : serialises Sample.platform.
Proof. intros v. by eexists. Qed.

Lemma failure_is_reported_and_rethrown_witness :
  Index.original_failure Sample.failing_generate = Some Sample.api_error
  /\ reports_failures Sample.failing_generate = true
  /\ Index.cloud_active (Sample.global true Index.both) = true
  /\ OsmosisCloud.ready (Index.cloudState (Sample.global true Index.both))
     = true
  /\ snd (Index.intercepted Sample.platform Sample.platform
            (Sample.global true Index.both) Sample.failing_generate)
     = Throw Sample.api_error
  /\ exists d,
       error_envelopes
         (fst (Index.intercepted Sample.platform Sample.platform
                 (Sample.global true Index.both) Sample.failing_generate))
       = [d]
       /\ prop (prop d "response") "error" = JStr "API error".
Proof.
  do 4 (split; [reflexivity |]).
  destruct (failure_is_reported_and_rethrown Sample.platform Sample.platform
              (Sample.global true Index.both) Sample.failing_generate
              Sample.api_error eq_refl) as [H1 H2].
  split; [exact H1 |].
  destruct (H2 eq_refl eq_refl eq_refl sample_platform_serialises)
    as (d & Hd & _ & _ & He & _).
  exists d. split; [exact Hd | exact He].
Defined.

(** C1, as stated, fails: [logDestination] is [cloud], the cloud module has
    not been given a key, the original [_generate] rejects; no envelope is
    posted. *)
Lemma failure_not_reported_without_key :
  Index.cloud_active (Sample.global_without_key Index.cloud) = true
  /\ Index.original_failure Sample.failing_generate = Some Sample.api_error
  /\ Index.intercepted Sample.platform Sample.platform
       (Sample.global_without_key Index.cloud) Sample.failing_generate
     = ([], Throw Sample.api_error).
Proof. repeat split; reflexivity. Qed.

(** The wrappers of the two [request] methods have no branch for a failure:
    when the original method throws or its promise rejects, no envelope
    with status 500 is posted, and the response phase posts nothing. *)
Lemma request_failure_is_not_reported P_req P_resp g options original e :
  original = Throw e \/ original = Normal (Throw e) ->
  error_envelopes
    (fst (Index.openai_request P_req P_resp g options original)) = []
  /\ error_envelopes
       (fst (Index.anthropic_request P_req P_resp g options original)) = [].
Proof.
  intros Ho.
  assert (forall apiName guard,
            error_envelopes
              (fst (Index.request_phase P_req g apiName guard options)) = [])
    as Hreq.
  { intros apiName guard. unfold Index.request_phase, detached. cbn [fst].
    destruct options as [ro|err].
    - rewrite (bind_Normal _ _ ro) by reflexivity. cbn [fst lift app].
      destruct (guarded_logRequest_safe guard P_req g apiName
                  (Date_toISOString P_req 0) (obj_get ro "path")
                  (obj_get ro "method") (obj_get ro "body")
                  (obj_get ro "query")) as (L1 & L2 & _).
      rewrite (try_catch_Normal _ _ tt); [exact L2 |].
      cbn [snd]. exact L1.
    - cbn. by destruct (message_text err). }
  assert (forall head,
            fst (bind (lift original)
                   (fun responsePromise =>
                      bind (when (Index.cloud_active g)
                              (Index.response_phase P_resp g head options
                                 responsePromise))
                           (fun _ => lift responsePromise))) = [])
    as Hresp.
  { intros head. destruct Ho as [-> | ->]; [reflexivity |].
    rewrite (bind_Normal _ _ (@Throw JsVal e)) by reflexivity.
    cbn [fst lift app].
    destruct (Index.cloud_active g); [|reflexivity].
    by destruct options. }
  unfold Index.openai_request, Index.anthropic_request.
  rewrite !(bind_Normal (Index.request_phase _ _ _ _ _) _ tt) by reflexivity.
  cbn [fst]. rewrite !error_envelopes_app, !Hreq, !Hresp. done.
Qed.

(** With [enabled: false], [logRequest] does nothing. *)
Lemma logRequest_disabled P g apiName timestamp path method body query :
  Index.config_enabled g = false ->
  Index.logRequest P g apiName timestamp path method body query
  = ([], Normal tt).
Proof. intros H. unfold Index.logRequest. by rewrite H. Qed.

(** C2 at a failing input: [enabled] is [false], [logDestination] is
    [cloud], the cloud module is initialised; a [request] through the
    OpenAI client succeeds, and the wrapper posts the envelope of the
    request and its response. *)
Theorem disabled_configuration_still_posts :
  Index.config_enabled (Sample.global false Index.cloud) = false
  /\ exists d,
       envelopes
         (fst (Index.intercepted Sample.platform Sample.platform
                 (Sample.global false Index.cloud) Sample.successful_request))
       = [d]
       /\ prop (prop d "query") "body" = obj_get Sample.options "body"
       /\ prop (prop d "response") "data" = Sample.response.
Proof. split; [reflexivity |]. eexists. repeat split; reflexivity. Qed.

(** The same for an arbitrary successful [request]: nothing in the response
    phase reads [enabled]. *)
Lemma response_phase_ignores_enabled P_req P_resp g options response :
  Index.config_enabled g = false ->
  Index.destination_is g Index.cloud = true ->
  OsmosisCloud.ready (Index.cloudState g) = true ->
  serialises P_resp ->
  length (envelopes
            (fst (Index.openai_request P_req P_resp g (Normal options)
                    (Normal (Normal response))))) = 1%nat.
Proof.
  intros He Hd Hr Hs. destruct (cloud_only g Hd) as [Hc1 Hc2].
  unfold Index.openai_request. rewrite Hc1, Hc2.
  rewrite (bind_Normal _ _ tt) by reflexivity.
  rewrite (bind_Normal _ _ (Normal response)) by reflexivity.
  rewrite (bind_Normal _ _ tt) by reflexivity.
  cbn [fst snd lift when app]. rewrite app_nil_r.
  unfold Index.response_phase, detached. cbn [fst].
  rewrite (bind_Normal _ _ options) by reflexivity.
  rewrite (bind_Normal _ _ response) by reflexivity.
  cbn [fst snd lift app].
  rewrite (try_catch_Normal _ _ tt) by apply send_returns.
  rewrite send_events. cbn [fst]. rewrite envelopes_app.
  change (fst (Index.request_phase P_req g "OpenAI" false (Normal options)))
    with (@nil Event).
  match goal with
  | |- context [OsmosisCloud.sendToOsmosis ?P ?st ?q ?r ?s] =>
      destruct (sendToOsmosis_one_envelope P st q r s Hr Hs) as [E _]
  end.
  by rewrite E.
Qed.

(** C3 at a failing input: logging is enabled and [logDestination] is
    [both]; a [request] through the Anthropic client prints nothing, where
    the same [request] through the OpenAI client prints its record. *)
Theorem anthropic_request_not_printed_in_both_mode :
  Index.config_enabled (Sample.global true Index.both) = true
  /\ Index.console_active (Sample.global true Index.both) = true
  /\ console_lines
       (fst (Index.intercepted Sample.platform Sample.platform
               (Sample.global true Index.both) Sample.anthropic_request))
     = []
  /\ console_lines
       (fst (Index.intercepted Sample.platform Sample.platform
               (Sample.global true Index.both) Sample.successful_request))
     = [ [JStr "[OSMOSIS-AI][2023-11-14T22:13:20.000Z] OpenAI Request:"];
         [JStr "  Path: /chat/completions"];
         [JStr "  Method: post"];
         [JStr "  Body: {}"] ].
Proof. repeat split; reflexivity. Qed.

Lemma concat_empty_cons (x : string) (xs : list string) :
  String.concat "" (x :: xs) = x +:+ String.concat "" xs.
Proof.
  destruct xs as [|y ys]; [by rewrite string_app_nil_r | reflexivity].
Qed.

Lemma String_eqb_empty (s : string) :
  String.eqb s "" = (String.length s =? 0)%nat.
Proof. by destruct s. Qed.

(** The text accumulated by the loop is the concatenation of the deltas. *)
Lemma accumulated_concat (cs : list Index.Chunk) :
  Index.accumulated cs = String.concat "" (map Index.chunk_content cs).
Proof.
  unfold Index.accumulated.
  assert (forall acc,
            fold_left
              (fun streamContent c =>
                 let content := Index.chunk_content c in
                 if negb (String.eqb content "") then streamContent +:+ content
                 else streamContent) cs acc
            = acc +:+ String.concat "" (map Index.chunk_content cs)) as H.
  { induction cs as [|c r IH]; intros acc.
    - simpl. by rewrite string_app_nil_r.
    - cbn [fold_left map]. rewrite IH, concat_empty_cons.
      destruct (String.eqb_spec (Index.chunk_content c) "") as [->|_];
        cbn [negb].
      + reflexivity.
      + by rewrite string_app_assoc. }
  by rewrite H.
Qed.

(** The [finally] block: nothing for an empty text, one envelope carrying
    the id of the start envelope otherwise. *)
Lemma stream_finally_envelopes P g w text :
  OsmosisCloud.ready (Index.cloudState g) = true ->
  serialises P ->
  truthy (Index.initialLogId w) = true ->
  snd (Index.stream_finally P g w text) = Normal tt
  /\ (text = "" -> fst (Index.stream_finally P g w text) = [])
  /\ (text <> "" ->
      exists completed,
        envelopes (fst (Index.stream_finally P g w text)) = [completed]
        /\ envelope_request_id completed = Index.initialLogId w
        /\ prop (prop (prop completed "response") "data") "status"
           = JStr "completed"
        /\ prop (prop (prop completed "response") "data") "content"
           = JStr text).
Proof.
  intros Hr Hs Hid. unfold Index.stream_finally.
  destruct text as [|c r].
  - repeat split; try reflexivity. by intros [].
  - change (0 <? String.length (String c r))%nat with true. cbn [when].
    set (text := String c r).
    rewrite (bind_Normal _ _ tt) by reflexivity.
    cbn [fst snd console_log emit app].
    split; [apply send_returns |]. split; [discriminate |]. intros _.
    rewrite send_events.
    match goal with
    | |- context [OsmosisCloud.sendToOsmosis ?P ?st ?q ?r ?s] =>
        destruct (sendToOsmosis_one_envelope P st q r s Hr Hs) as [E _];
        set (query := q) in *
    end.
    eexists. split.
    + change (envelopes (ConsoleLog ?a :: ?l)) with (envelopes l). exact E.
    + split; [|split; reflexivity].
      rewrite envelope_request_id_envelope.
      unfold OsmosisCloud.request_id, js_or.
      change (obj_get query "requestId") with (Index.initialLogId w).
      by rewrite Hid.
Qed.

(** Reading a wrapped stream runs the [finally] block on what was read. *)
Lemma consume_wrapped P g w limit :
  limit <> Some 0%nat ->
  snd (Index.stream_finally P g w
         (Index.accumulated (received limit (Index.originalStream w))))
    = Normal tt ->
  fst (Index.consume P g (Index.Wrapped w) limit)
  = fst (Index.stream_finally P g w
           (Index.accumulated (received limit (Index.originalStream w)))).
Proof.
  intros Hl Hf. unfold Index.consume, received in *.
  destruct limit as [[|n]|]; [done | |].
  - destruct (S n <=? length (Index.items (Index.originalStream w)))%nat
      eqn:Hn.
    + rewrite (bind_Normal _ _ tt Hf). cbn [fst ret]. apply app_nil_r.
    + apply Nat.leb_gt in Hn.
      rewrite take_ge in Hf |- * by lia.
      rewrite (bind_Normal _ _ tt Hf).
      destruct (Index.failure (Index.originalStream w));
        cbn [fst ret throw]; apply app_nil_r.
  - rewrite (bind_Normal _ _ tt Hf).
    destruct (Index.failure (Index.originalStream w));
      cbn [fst ret throw]; apply app_nil_r.
Qed.

Lemma answer_events {A} (f : A -> Index.Answer) (m : M A) :
  fst (Index.answer f m) = fst m.
Proof.
  unfold Index.answer. destruct m as [evs [a|e]]; simpl; [|done].
  apply app_nil_r.
Qed.

(** The envelope of [logRequest] when the remote sink is active and ready:
    none while [enabled] is not [true], otherwise one that repeats the
    request, with status 200 and an empty response. *)
Lemma logRequest_envelopes P g apiName timestamp path method body query :
  Index.cloud_active g = true ->
  OsmosisCloud.ready (Index.cloudState g) = true ->
  serialises P ->
  (Index.config_enabled g = false ->
   envelopes
     (fst (Index.logRequest P g apiName timestamp path method body query))
   = [])
  /\ (Index.config_enabled g = true ->
      exists d,
        envelopes
          (fst (Index.logRequest P g apiName timestamp path method body
                  query))
        = [d]
        /\ envelope_status d = JNum 200
        /\ prop d "response" = JObj []
        /\ prop (prop d "query") "api" = JStr apiName
        /\ prop (prop d "query") "body" = body).
Proof.
  intros Hc Hr Hs. split; intros He.
  { by rewrite logRequest_disabled. }
  assert (OsmosisCloud.isCloudLoggingEnabled (Index.cloudState g) = true)
    as Hi.
  { apply ready_true in Hr as (H1 & _ & H3).
    unfold OsmosisCloud.isCloudLoggingEnabled. by rewrite H1, H3. }
  unfold Index.logRequest. rewrite He, Hc, Hi. cbn [negb andb].
  set (printed := when (Index.console_active g) _).
  assert (snd printed = Normal tt /\ envelopes (fst printed) = [])
    as [Hp1 Hp2].
  { subst printed. unfold when. destruct (Index.console_active g); [|done].
    destruct (log_body_safe P body) as [Hb1 Hb2].
    destruct (log_query_safe P query) as [Hq1 Hq2].
    destruct (Index.log_body P body) as [eb rb].
    destruct (Index.log_query P query) as [eq rq].
    simpl in *. subst rb rq. simpl.
    by rewrite !envelopes_app, Hb2, Hq2. }
  rewrite (bind_Normal _ _ tt Hp1). cbn [fst when].
  rewrite envelopes_app, Hp2, app_nil_l.
  match goal with
  | |- context [OsmosisCloud.sendToOsmosis ?P ?st ?q ?r ?s] =>
      destruct (sendToOsmosis_one_envelope P st q r s Hr Hs) as [E1 E2];
      rewrite (bind_Normal _ _ _ E2)
  end.
  cbn [fst ret]. rewrite app_nil_r, E1.
  eexists. split; [reflexivity |]. by repeat split.
Qed.

(** [create.stream] with [logDestination: "cloud"] or ["both"]: after what
    the request-phase [logRequest] does, the start envelope is posted, and
    its generated id is captured by the wrapping iterable. *)
Lemma openai_create_stream_active P g streamArgs s :
  Index.cloud_active g = true ->
  OsmosisCloud.ready (Index.cloudState g) = true ->
  serialises P ->
  exists evs started w,
    Index.openai_create_stream P g streamArgs (Normal s)
      = (evs, Normal (Index.Wrapped w))
    /\ envelopes evs
       = envelopes
           (fst (when (Index.console_active g)
                   (Index.logRequest P g "OpenAI v2 Stream"
                      (Date_toISOString P 0) (JStr "/v1/chat/completions")
                      (JStr "POST")
                      (Index.stream_body
                         (js_or (nth 0 streamArgs JUndefined) (JObj [])))
                      JNull)))
         ++ [started]
    /\ envelope_request_id started
       = JStr (OsmosisCloud.generated_request_id P)
    /\ prop (prop (prop started "response") "data") "status" = JStr "started"
    /\ Index.originalStream w = s
    /\ Index.initialLogId w = JStr (OsmosisCloud.generated_request_id P).
Proof.
  intros Hc Hr Hs.
  unfold Index.openai_create_stream. rewrite Hc. cbn [negb].
  match goal with
  | |- context [when (Index.console_active g) ?m] =>
      set (logged := when (Index.console_active g) m)
  end.
  assert (snd logged = Normal tt) as Hl
    by apply (guarded_logRequest_safe (Index.console_active g)).
  rewrite (bind_Normal _ _ tt Hl).
  match goal with
  | |- context [OsmosisCloud.sendToOsmosis ?P ?st ?q ?r ?s] =>
      destruct (sendToOsmosis_one_envelope P st q r s Hr Hs) as [E1 E2];
      assert (OsmosisCloud.request_id P q
              = JStr (OsmosisCloud.generated_request_id P)) as Hid
        by reflexivity;
      rewrite Hid in E1, E2;
      destruct (OsmosisCloud.sendToOsmosis P st q r s) as [evS rS]
  end.
  cbn [fst snd] in E1, E2. subst rS.
  cbn [bind ret emit lift fst snd app].
  eexists _, _, _. split; [reflexivity |].
  split; [|split; [|split; [|split]]].
  - rewrite !envelopes_app, E1. reflexivity.
  - apply envelope_request_id_envelope.
  - reflexivity.
  - reflexivity.
  - reflexivity.
Qed.

(** C4, as the code has it.  With [logDestination: "cloud"] or ["both"],
    the cloud module enabled, keyed and initialised, and envelopes that
    serialise, a call of [create.stream] whose stream the caller reads (to
    its end, to its failure, or until the caller leaves its loop) posts the
    start envelope, with a generated id and [status: "started"], and then:
    nothing more when the deltas read make an empty text; otherwise one
    completion envelope with the id of the start envelope, [status:
    "completed"] and, as [content], the concatenation of the deltas read.
    These are all the envelopes of the call, but for one: with
    [logDestination: "both"] and [enabled] true, the request-phase
    [logRequest] posts its envelope of the request, with an empty response,
    before them. *)
Theorem stream_posts_start_and_completion P_start P_end g streamArgs s limit :
  Index.cloud_active g = true ->
  OsmosisCloud.ready (Index.cloudState g) = true ->
  serialises P_start ->
  serialises P_end ->
  limit <> Some 0%nat ->
  let evs :=
    fst (Index.intercepted P_start P_end g
           (Index.OpenAICreateStream streamArgs (Normal s) limit)) in
  let text := String.concat "" (map Index.chunk_content (received limit s)) in
  exists requests started completions,
    envelopes evs = requests ++ started :: completions
    /\ (Index.console_active g && Index.config_enabled g = false ->
        requests = [])
    /\ (Index.console_active g && Index.config_enabled g = true ->
        exists request,
          requests = [request]
          /\ envelope_status request = JNum 200
          /\ prop request "response" = JObj []
          /\ prop (prop request "query") "api" = JStr "OpenAI v2 Stream")
    /\ envelope_request_id started
       = JStr (OsmosisCloud.generated_request_id P_start)
    /\ prop (prop (prop started "response") "data") "status" = JStr "started"
    /\ (text = "" -> completions = [])
    /\ (text <> "" ->
        exists completed,
          completions = [completed]
          /\ envelope_request_id completed = envelope_request_id started
          /\ prop (prop (prop completed "response") "data") "status"
             = JStr "completed"
          /\ prop (prop (prop completed "response") "data") "content"
             = JStr text).
Proof.
  intros Hc Hr Hs1 Hs2 Hl evs text. subst evs.
  destruct (openai_create_stream_active P_start g streamArgs s Hc Hr Hs1)
    as (evs0 & started & w & Hcall & Henv & Hid & Hst & Hw & Hlog).
  cbn [Index.intercepted]. rewrite Hcall.
  rewrite (bind_Normal _ _ (Index.Wrapped w)) by reflexivity.
  cbn [fst]. rewrite answer_events.
  assert (truthy (Index.initialLogId w) = true) as Htr
    by (rewrite Hlog; reflexivity).
  destruct (stream_finally_envelopes P_end g w
              (Index.accumulated (received limit (Index.originalStream w)))
              Hr Hs2 Htr) as (F1 & F2 & F3).
  rewrite (consume_wrapped P_end g w limit Hl F1).
  rewrite envelopes_app, Henv.
  rewrite Hw, accumulated_concat in F2, F3 |- *. fold text in F2, F3 |- *.
  destruct (logRequest_envelopes P_start g "OpenAI v2 Stream"
              (Date_toISOString P_start 0) (JStr "/v1/chat/completions")
              (JStr "POST")
              (Index.stream_body
                 (js_or (nth 0 streamArgs JUndefined) (JObj [])))
              JNull Hc Hr Hs1) as [L1 L2].
  eexists _, started, _. split; [by rewrite <- app_assoc |].
  split; [| split; [| split; [exact Hid | split; [exact Hst | split]]]].
  - destruct (Index.console_active g); [| done].
    cbn [andb when]. exact L1.
  - destruct (Index.console_active g); [| done].
    cbn [andb when]. intros He.
    destruct (L2 He) as (d & D1 & D2 & D3 & D4 & _).
    by exists d.
  - intros Ht. by rewrite (F2 Ht).
  - intros Ht. destruct (F3 Ht) as (completed & C1 & C2 & C3 & C4).
    exists completed. rewrite Hid, C2, Hlog. by repeat split.
Qed.

Lemma stream_posts_start_and_completion_witness :
  Index.cloud_active (Sample.global true Index.both) = true
  /\ OsmosisCloud.ready (Index.cloudState (Sample.global true Index.both))
     = true
  /\ exists request started completed,
       envelopes
         (fst (Index.intercepted Sample.platform Sample.platform
                 (Sample.global true Index.both) Sample.hello_world_stream))
       = [request; started; completed]
       /\ prop request "response" = JObj []
       /\ envelope_request_id completed = envelope_request_id started
       /\ prop (prop (prop completed "response") "data") "content"
          = JStr "Hello world".
Proof.
  do 2 (split; [reflexivity |]).
  destruct (stream_posts_start_and_completion Sample.platform Sample.platform
              (Sample.global true Index.both) Sample.create_args
              Sample.hello_world None eq_refl eq_refl
              sample_platform_serialises sample_platform_serialises
              ltac:(discriminate))
    as (requests & started & completions & H1 & _ & H3 & _ & _ & _ & H7).
  destruct (H3 eq_refl) as (request & -> & _ & R3 & _).
  destruct (H7 ltac:(discriminate)) as (completed & -> & C2 & _ & C4).
  exists request, started, completed.
  split; [exact H1 |]. split; [exact R3 |]. split; [exact C2 | exact C4].
Defined.

(** C4, as stated, fails: with [logDestination: "both"] and logging enabled
    the request-phase [logRequest] posts an envelope of its own, with an
    empty response, before the start and the completion envelopes; the
    stream of "Hello" and " world" makes three envelopes. *)
Lemma stream_in_both_mode_posts_three :
  Index.cloud_active (Sample.global true Index.both) = true
  /\ OsmosisCloud.ready (Index.cloudState (Sample.global true Index.both))
     = true
  /\ length
       (envelopes
          (fst (Index.intercepted Sample.platform Sample.platform
                  (Sample.global true Index.both) Sample.hello_world_stream)))
     = 3%nat
  /\ map (fun d => prop d "response")
       (take 1
          (envelopes
             (fst (Index.intercepted Sample.platform Sample.platform
                     (Sample.global true Index.both)
                     Sample.hello_world_stream))))
     = [JObj []].
Proof. repeat split; reflexivity. Qed.

Lemma bind_head {A B} (m : M A) (k : A -> M B) ev :
  (exists rest, fst m = ev :: rest) ->
  exists rest, fst (bind m k) = ev :: rest.
Proof.
  destruct m as [evs [a|e]]; simpl; intros [rest ->]; [|by eexists].
  destruct (k a). by eexists.
Qed.

Lemma try_catch_head {A} (m : M A) (h : Thrown -> M A) ev :
  (exists rest, fst m = ev :: rest) ->
  exists rest, fst (try_catch m h) = ev :: rest.
Proof.
  destruct m as [evs [a|e]]; simpl; intros [rest ->]; [by eexists |].
  destruct (h e). by eexists.
Qed.

(** With logging enabled and the console active, [logRequest] starts with
    the header of the record. *)
Lemma logRequest_head P g apiName timestamp path method body query :
  Index.config_enabled g = true ->
  Index.console_active g = true ->
  exists rest,
    fst (Index.logRequest P g apiName timestamp path method body query)
    = ConsoleLog [JStr ("[OSMOSIS-AI][" +:+ timestamp +:+ "] " +:+ apiName
                          +:+ " Request:")] :: rest.
Proof.
  intros He Hc. unfold Index.logRequest. rewrite He, Hc. cbn [negb when].
  apply bind_head, bind_head. by eexists.
Qed.

(** The first chain of a [request] wrapper, when its guard holds and the
    options resolve. *)
Lemma request_phase_head P g apiName ro :
  Index.config_enabled g = true ->
  Index.console_active g = true ->
  exists rest,
    fst (Index.request_phase P g apiName true (Normal ro))
    = ConsoleLog [JStr ("[OSMOSIS-AI][" +:+ Date_toISOString P 0 +:+ "] "
                          +:+ apiName +:+ " Request:")] :: rest.
Proof.
  intros He Hc. unfold Index.request_phase, detached. cbn [fst when].
  apply try_catch_head.
  rewrite (bind_Normal _ _ ro) by reflexivity. cbn [fst snd lift app].
  by apply logRequest_head.
Qed.

(** What C3 asks for holds wherever the guard of the wrapper lets the
    request through: for every family but the Anthropic [request] that is
    [console] or [both]; for the Anthropic [request], [console] only.  The
    record is the first effect of the call, whatever the original method
    does afterwards. *)
Lemma request_is_printed P_req P_resp g c :
  Index.config_enabled g = true ->
  request_guard g c = true ->
  arguments_resolve c = true ->
  exists rest,
    fst (Index.intercepted P_req P_resp g c)
    = ConsoleLog [JStr ("[OSMOSIS-AI][" +:+ Date_toISOString P_req 0 +:+ "] "
                          +:+ api_label c +:+ " Request:")] :: rest.
Proof.
  intros He Hg Ha.
  assert (Index.console_active g = true) as Hc.
  { destruct c; simpl in Hg; try exact Hg.
    unfold Index.console_active. by rewrite Hg. }
  destruct c as [options original|options original|createArgs original
                |streamArgs original limit|this messages original
                |this messages original]; cbn [Index.intercepted api_label];
    try rewrite answer_events.
  - destruct options as [ro|]; [|discriminate Ha].
    unfold Index.openai_request. rewrite Hc.
    by apply bind_head, request_phase_head.
  - destruct options as [ro|]; [|discriminate Ha]. simpl in Hg.
    unfold Index.anthropic_request. rewrite Hg.
    by apply bind_head, request_phase_head.
  - unfold Index.openai_create. rewrite Hc. cbn [when].
    by apply bind_head, logRequest_head.
  - apply bind_head.
    unfold Index.openai_create_stream. rewrite Hc. cbn [when].
    by apply bind_head, logRequest_head.
  - unfold Index.langchain_openai_generate, Index.langchain_generate.
    rewrite Hc. cbn [when].
    by apply bind_head, try_catch_head, logRequest_head.
  - unfold Index.langchain_anthropic_generate, Index.langchain_generate.
    rewrite Hc. cbn [when].
    by apply bind_head, try_catch_head, logRequest_head.
Qed.

(** How the empty id of C7 arises: [create.stream] is called while
    [OsmosisCloud.init] is still suspended, so that the start envelope is
    refused and [initialLogId] stays [""]; the stream is read after [init]
    has finished; the completion envelope is posted under a generated id. *)
Lemma stream_started_before_init_completes :
  let started := Sample.global_suspended Index.cloud in
  let finished := fst (Index.settle_cloud_init started) in
  exists evs w,
    Index.openai_create_stream Sample.platform started Sample.create_args
      (Normal Sample.hello_world) = (evs, Normal (Index.Wrapped w))
    /\ envelopes evs = []
    /\ Index.initialLogId w = JStr ""
    /\ map envelope_request_id
         (envelopes
            (fst (Index.consume Sample.platform finished (Index.Wrapped w)
                    None)))
       = [JStr "req_1700000000000_i"].
Proof. cbv zeta. eexists _, _. repeat split; reflexivity. Qed.

(* ===================================================================== *)
(** * More on the transport sink *)
(* ===================================================================== *)

Lemma strip_newlines_clean (s : string) :
  all_chars (fun c => negb (is_newline c)) (strip_newlines s) = true.
Proof.
  induction s as [|c r IH]; [reflexivity |].
  simpl. unfold is_newline in *.
  destruct (Ascii.eqb c "010") eqn:E; [exact IH |].
  simpl. unfold is_newline. by rewrite E.
Qed.

Lemma fetch_calls_after_fetch r : fetch_calls (after_fetch r) = [].
Proof. destruct r as [e|e|code]; simpl; try done. by destruct (code =? 200). Qed.

(** X1.  Whatever [sendToOsmosis] hands to [fetch] goes to
    [<OSMOSIS_API_URL>/ingest] with the headers [Content-Type:
    application/json] and [x-api-key: <the stored key>], and its body is one
    line: a text without any newline, followed by a single newline. *)
Theorem posted_body_is_one_line P st query response status :
  Forall (fun call =>
            fst (fst call) = OSMOSIS_API_URL +:+ "/ingest"
            /\ snd (fst call)
               = [("Content-Type", "application/json");
                  ("x-api-key", default "" (OsmosisCloud.osmosisApiKey st))]
            /\ exists line,
                 snd call = line +:+ newline
                 /\ all_chars (fun c => negb (is_newline c)) line = true)
    (fetch_calls
       (fst (OsmosisCloud.sendToOsmosis P st query response status))).
Proof.
  destruct (OsmosisCloud.ready st) eqn:Hr.
  - pose proof (sendToOsmosis_ready P st query response status Hr) as E.
    cbv zeta in E. rewrite E. cbn [fst].
    destruct (JSON_stringify P _) as [json|e]; simpl; [|constructor].
    rewrite fetch_calls_after_fetch. constructor; [|constructor].
    cbn [fst snd]. repeat split.
    exists (strip_newlines json). split; [reflexivity |].
    apply strip_newlines_clean.
  - rewrite (sendToOsmosis_closed _ _ _ _ _ Hr). cbn [fst].
    destruct (_ && _); constructor.
Qed.

Lemma obj_get_set_other (o : Obj) (k k' : string) (v : JsVal) :
  k' <> k -> obj_get (obj_set o k v) k' = obj_get o k'.
Proof.
  intros Hne. induction o as [|[k0 v0] r IH]; simpl.
  - destruct (String.eqb_spec k k'); [congruence | reflexivity].
  - destruct (String.eqb_spec k0 k) as [->|Hk]; simpl.
    + destruct (String.eqb_spec k k'); [congruence | reflexivity].
    + destruct (String.eqb_spec k0 k'); [reflexivity | exact IH].
Qed.

(** X2.  Every envelope [sendToOsmosis] posts carries the caller's query
    untouched but for [requestId] (each other key reads as in the query),
    the response and the status as given, and as [date] the clock in whole
    seconds. *)
Theorem envelope_keeps_query_fields P st query response status :
  Forall (fun d =>
            (forall k, k <> "requestId" ->
                       prop (prop d "query") k = obj_get query k)
            /\ prop d "response" = response
            /\ prop d "status" = JNum status
            /\ prop d "date" = JNum (Date_now P 1 / 1000))
    (envelopes (fst (OsmosisCloud.sendToOsmosis P st query response status))).
Proof.
  destruct (OsmosisCloud.ready st) eqn:Hr.
  - pose proof (sendToOsmosis_ready P st query response status Hr) as E.
    cbv zeta in E. rewrite E. cbn [fst].
    destruct (JSON_stringify P _) as [json|e]; simpl; [|constructor].
    rewrite envelopes_after_fetch. constructor; [|constructor].
    repeat split. intros k Hk.
    unfold OsmosisCloud.envelope. simpl. by apply obj_get_set_other.
  - rewrite (sendToOsmosis_closed _ _ _ _ _ Hr). cbn [fst].
    destruct (_ && _); constructor.
Qed.

Lemma step_while_disabled op st :
  OsmosisCloud.enabled st = false ->
  leaves_disabled op = true ->
  let '(st', evs, rs) := step op st in
  OsmosisCloud.enabled st' = false
  /\ envelopes evs = []
  /\ Forall (fun r => r = Normal (JStr "")) rs.
Proof.
  intros He Hop. destruct op as [apiKey| | | |P query response status];
    simpl; try discriminate Hop.
  - unfold OsmosisCloud.init_begin.
    destruct (String.eqb apiKey ""); simpl; repeat split; done.
  - repeat split; done.
  - repeat split; done.
  - assert (OsmosisCloud.ready st = false) as Hr
      by (unfold OsmosisCloud.ready; by rewrite He).
    rewrite (sendToOsmosis_closed _ _ _ _ _ Hr), He. simpl.
    repeat split; try done. by constructor.
Qed.

(** X3.  After [disableOsmosis()], and until [enableOsmosis()] is called,
    the module stays disabled whatever else is done with it ([init] with
    any key included): every [sendToOsmosis] returns the empty string,
    [fetch] is never called, and [isCloudLoggingEnabled()] is [false]. *)
Theorem disabled_module_never_sends st ops :
  forallb leaves_disabled ops = true ->
  let '(st', evs, results) := run_ops ops (OsmosisCloud.disableOsmosis st) in
  OsmosisCloud.isCloudLoggingEnabled st' = false
  /\ envelopes evs = []
  /\ Forall (fun r => r = Normal (JStr "")) results.
Proof.
  intros Hops.
  assert (forall ops st0,
            OsmosisCloud.enabled st0 = false ->
            forallb leaves_disabled ops = true ->
            let '(st', evs, rs) := run_ops ops st0 in
            OsmosisCloud.enabled st' = false
            /\ envelopes evs = []
            /\ Forall (fun r => r = Normal (JStr "")) rs) as H.
  { clear. induction ops as [|op rest IH]; intros st He Hops; simpl.
    - by repeat split.
    - simpl in Hops. apply andb_true_iff in Hops as [Hop Hrest].
      pose proof (step_while_disabled op st He Hop) as Hs.
      destruct (step op st) as [[st1 evs1] rs1].
      destruct Hs as (He1 & Hv1 & Hr1).
      specialize (IH st1 He1 Hrest).
      destruct (run_ops rest st1) as [[st2 evs2] rs2].
      destruct IH as (He2 & Hv2 & Hr2).
      repeat split; try done.
      + by rewrite envelopes_app, Hv1, Hv2.
      + by apply Forall_app. }
  specialize (H ops (OsmosisCloud.disableOsmosis st) eq_refl Hops).
  destruct (run_ops ops _) as [[st' evs] results].
  destruct H as (He & Hv & Hr). repeat split; try done.
  unfold OsmosisCloud.isCloudLoggingEnabled. rewrite He. apply andb_false_r.
Qed.

Lemma disabled_module_never_sends_witness :
  forallb leaves_disabled
    [OpInit "test-api-key"; OpInitResume;
     OpSend Sample.platform Sample.query Sample.response 200] = true
  /\ Forall (fun r => r = Normal (JStr ""))
       (snd (run_ops
               [OpInit "test-api-key"; OpInitResume;
                OpSend Sample.platform Sample.query Sample.response 200]
               (OsmosisCloud.disableOsmosis OsmosisCloud.fresh))).
Proof.
  split; [reflexivity |].
  pose proof (disabled_module_never_sends OsmosisCloud.fresh
                [OpInit "test-api-key"; OpInitResume;
                 OpSend Sample.platform Sample.query Sample.response 200]
                eq_refl) as H.
  vm_compute in H |- *. exact (proj2 (proj2 H)).
Defined.

Lemma step_keeps_hasher op st :
  (OsmosisCloud.initialized st = true -> OsmosisCloud.xxhashInstance st = true) ->
  OsmosisCloud.initialized (fst (fst (step op st))) = true ->
  OsmosisCloud.xxhashInstance (fst (fst (step op st))) = true.
Proof.
  intros Hinv. destruct op as [apiKey| | | |P query response status]; simpl.
  - unfold OsmosisCloud.init_begin.
    destruct (String.eqb apiKey ""); simpl; exact Hinv.
  - done.
  - exact Hinv.
  - exact Hinv.
  - destruct (OsmosisCloud.sendToOsmosis P st query response status).
    exact Hinv.
Qed.

Lemma run_ops_keeps_hasher ops : forall st,
  (OsmosisCloud.initialized st = true -> OsmosisCloud.xxhashInstance st = true) ->
  OsmosisCloud.initialized (fst (fst (run_ops ops st))) = true ->
  OsmosisCloud.xxhashInstance (fst (fst (run_ops ops st))) = true.
Proof.
  induction ops as [|op rest IH]; intros st Hinv; simpl; [exact Hinv |].
  pose proof (step_keeps_hasher op st Hinv) as Hs.
  destruct (step op st) as [[st1 evs1] rs1]. simpl in Hs.
  specialize (IH st1 Hs).
  destruct (run_ops rest st1) as [[st2 evs2] rs2]. exact IH.
Qed.

(** X4.  Through [init], [enableOsmosis], [disableOsmosis] and
    [sendToOsmosis], a module that is initialised has its hasher: the
    SHA-256 branch of [getOwnerHash] is never taken by [sendToOsmosis], and
    the [owner] of every envelope it posts is [h32ToString] of the stored
    key. *)
Theorem owner_is_the_xxhash_of_the_key ops P query response status :
  let st := fst (fst (run_ops ops OsmosisCloud.fresh)) in
  (OsmosisCloud.initialized st = true -> OsmosisCloud.xxhashInstance st = true)
  /\ Forall (fun d =>
               prop d "owner"
               = JStr (h32ToString P
                         (default "" (OsmosisCloud.osmosisApiKey st))))
       (envelopes
          (fst (OsmosisCloud.sendToOsmosis P st query response status))).
Proof.
  intros st.
  assert (OsmosisCloud.initialized st = true
          -> OsmosisCloud.xxhashInstance st = true) as Hinv
    by (apply run_ops_keeps_hasher; discriminate).
  split; [exact Hinv |].
  destruct (OsmosisCloud.ready st) eqn:Hr.
  - pose proof (sendToOsmosis_ready P st query response status Hr) as E.
    cbv zeta in E. rewrite E. cbn [fst].
    destruct (JSON_stringify P _) as [json|e]; simpl; [|constructor].
    rewrite envelopes_after_fetch. constructor; [|constructor].
    apply ready_true in Hr as (_ & _ & Hi).
    unfold OsmosisCloud.envelope, OsmosisCloud.getOwnerHash. simpl.
    by rewrite (Hinv Hi).
  - rewrite (sendToOsmosis_closed _ _ _ _ _ Hr). cbn [fst].
    destruct (_ && _); constructor.
Qed.

(** X5.  [await init(key)] with a non-empty key stores the key, marks the
    module initialised and announces it; it leaves the module flag alone.
    With the flag on, a following [sendToOsmosis] of an envelope that
    serialises posts exactly that envelope, under [x-api-key: key], and
    returns its correlation id. *)
Theorem init_opens_the_gate key st P query response status json :
  key <> "" ->
  let st' := fst (OsmosisCloud.init key st) in
  let data := OsmosisCloud.envelope P st' key query
                (OsmosisCloud.request_id P query) response status in
  snd (OsmosisCloud.init key st)
    = [ConsoleLog [JStr "[OSMOSIS-AI] Cloud logging initialized"]]
  /\ OsmosisCloud.osmosisApiKey st' = Some key
  /\ OsmosisCloud.initialized st' = true
  /\ OsmosisCloud.enabled st' = OsmosisCloud.enabled st
  /\ (OsmosisCloud.enabled st = true ->
      JSON_stringify P data = Normal json ->
      fst (OsmosisCloud.sendToOsmosis P st' query response status)
        = FetchCall (OSMOSIS_API_URL +:+ "/ingest")
            [("Content-Type", "application/json"); ("x-api-key", key)]
            (strip_newlines json +:+ newline) data
          :: after_fetch (fetch P (OSMOSIS_API_URL +:+ "/ingest")
                            (strip_newlines json +:+ newline))
      /\ snd (OsmosisCloud.sendToOsmosis P st' query response status)
         = Normal (OsmosisCloud.request_id P query)).
Proof.
  intros Hk st' data. subst st' data.
  unfold OsmosisCloud.init, OsmosisCloud.init_begin.
  destruct (String.eqb_spec key "") as [->|_]; [done |].
  cbn [OsmosisCloud.init_resume fst snd app OsmosisCloud.enabled
       OsmosisCloud.osmosisApiKey OsmosisCloud.initialized
       OsmosisCloud.xxhashInstance].
  do 4 (split; [reflexivity |]).
  intros He Hj.
  match goal with
  | |- context [OsmosisCloud.sendToOsmosis P ?s _ _ _] =>
      assert (OsmosisCloud.ready s = true) as Hr
  end.
  { unfold OsmosisCloud.ready, OsmosisCloud.key_configured. cbn.
    rewrite He. by destruct (String.eqb_spec key ""). }
  match goal with
  | |- context [OsmosisCloud.sendToOsmosis P ?s _ _ _] =>
      pose proof (sendToOsmosis_ready P s query response status Hr) as E
  end.
  cbv zeta in E. rewrite E.
  cbn [OsmosisCloud.osmosisApiKey from_option id].
  rewrite Hj. by split.
Qed.

Lemma init_opens_the_gate_witness :
  "test-api-key" <> ""
  /\ OsmosisCloud.enabled OsmosisCloud.fresh = true
  /\ snd (OsmosisCloud.sendToOsmosis Sample.platform_long
            (fst (OsmosisCloud.init "test-api-key" OsmosisCloud.fresh))
            Sample.query Sample.response 200)
     = Normal (JStr "req_1700000000000_4fzyo").
Proof.
  split; [discriminate |]. split; [reflexivity |].
  destruct (init_opens_the_gate "test-api-key" OsmosisCloud.fresh
              Sample.platform_long Sample.query Sample.response 200 "{}"
              ltac:(discriminate)) as (_ & _ & _ & _ & H).
  destruct (H eq_refl eq_refl) as [_ Hs]. rewrite Hs. reflexivity.
Defined.

(* ===================================================================== *)
(** * More on the configuration layer *)
(* ===================================================================== *)

(** The cloud module after [configure]. *)
Lemma configure_cloud_state P options g :
  let st := Index.cloudState g in
  let g' := fst (Index.configure P options g) in
  let st' := Index.cloudState g' in
  let starts_init :=
    match Index.read (Index.cloudApiKey options) with
    | Some key => negb (String.eqb key "")
    | None => false
    end in
  OsmosisCloud.enabled st'
    = match Index.read (Index.logDestination options) with
      | Some Index.console => false
      | Some _ => true
      | None => OsmosisCloud.enabled st
      end
  /\ OsmosisCloud.osmosisApiKey st'
     = (if starts_init then Index.read (Index.cloudApiKey options)
        else OsmosisCloud.osmosisApiKey st)
  /\ OsmosisCloud.initialized st' = OsmosisCloud.initialized st
  /\ OsmosisCloud.xxhashInstance st' = OsmosisCloud.xxhashInstance st
  /\ Index.pendingInits g'
     = (if starts_init then S (Index.pendingInits g) else Index.pendingInits g).
Proof.
  unfold Index.configure, Index.start_cloud_init, Index.with_cloud,
    OsmosisCloud.init_begin.
  destruct (Index.read (Index.cloudApiKey options)) as [key|];
    [destruct (String.eqb key "") |];
    destruct (Index.read (Index.logDestination options)) as [[]|];
    simpl; repeat split; reflexivity.
Qed.

(** X6.  What [configure] does to the cloud module, for every partial: the
    module flag follows [logDestination] (off for [console], on for [cloud]
    and [both], untouched without one); a non-empty [cloudApiKey] becomes
    the stored key and starts one [init], an empty or missing one leaves
    the stored key alone; [initialized] is never changed by the call
    itself. *)
Theorem configure_and_the_cloud_module P options g :
  let st := Index.cloudState g in
  let g' := fst (Index.configure P options g) in
  let st' := Index.cloudState g' in
  let starts_init :=
    match Index.read (Index.cloudApiKey options) with
    | Some key => negb (String.eqb key "")
    | None => false
    end in
  OsmosisCloud.enabled st'
    = match Index.read (Index.logDestination options) with
      | Some Index.console => false
      | Some _ => true
      | None => OsmosisCloud.enabled st
      end
  /\ OsmosisCloud.osmosisApiKey st'
     = (if starts_init then Index.read (Index.cloudApiKey options)
        else OsmosisCloud.osmosisApiKey st)
  /\ OsmosisCloud.initialized st' = OsmosisCloud.initialized st
  /\ OsmosisCloud.xxhashInstance st' = OsmosisCloud.xxhashInstance st
  /\ Index.pendingInits g'
     = (if starts_init then S (Index.pendingInits g) else Index.pendingInits g).
Proof. exact (configure_cloud_state P options g). Qed.

(** X7.  [configure] with a key does not wait for [init]: on a module that
    is not initialised yet, right after [configure({cloudApiKey: key,
    logDestination: "cloud" | "both"})] every [sendToOsmosis] is refused
    with the warning "Cloud logging not initialized"; once the suspended
    [init] has finished, the gate is open under that key. *)
Theorem configure_with_key_sends_after_init P options g key d P' query
    response status :
  Index.read (Index.cloudApiKey options) = Some key ->
  key <> "" ->
  Index.read (Index.logDestination options) = Some d ->
  d <> Index.console ->
  OsmosisCloud.initialized (Index.cloudState g) = false ->
  let g1 := fst (Index.configure P options g) in
  let g2 := fst (Index.settle_cloud_init g1) in
  OsmosisCloud.sendToOsmosis P' (Index.cloudState g1) query response status
    = ([ConsoleWarn
          [JStr "[OSMOSIS-AI] Cloud logging not initialized. Call init(apiKey) first."]],
       Normal (JStr ""))
  /\ OsmosisCloud.ready (Index.cloudState g2) = true
  /\ OsmosisCloud.osmosisApiKey (Index.cloudState g2) = Some key.
Proof.
  intros Hkey Hne Hd Hc Hi g1 g2.
  destruct (configure_cloud_state P options g)
    as (He & Hk & Hi' & _ & Hp).
  fold g1 in He, Hk, Hi', Hp. rewrite Hkey in Hk, Hp. rewrite Hd in He.
  assert (String.eqb key "" = false) as Hkf
    by (by destruct (String.eqb_spec key "")).
  rewrite Hkf in Hk, Hp. cbn [negb] in Hk, Hp.
  assert (OsmosisCloud.enabled (Index.cloudState g1) = true) as He'
    by (rewrite He; by destruct d).
  rewrite Hi in Hi'.
  assert (OsmosisCloud.key_configured (Index.cloudState g1) = true) as Hkc
    by (unfold OsmosisCloud.key_configured; by rewrite Hk, Hkf).
  split.
  - rewrite sendToOsmosis_closed
      by (unfold OsmosisCloud.ready; by rewrite He', Hkc, Hi').
    by rewrite He', Hkc.
  - subst g2. unfold Index.settle_cloud_init. rewrite Hp.
    cbn [OsmosisCloud.init_resume fst Index.cloudState].
    unfold OsmosisCloud.ready, OsmosisCloud.key_configured.
    cbn [OsmosisCloud.enabled OsmosisCloud.osmosisApiKey
         OsmosisCloud.initialized].
    by rewrite He', Hk, Hkf.
Qed.

Lemma configure_with_key_sends_after_init_witness :
  let options := Index.osmosisConfig (Sample.global true Index.cloud) in
  Index.read (Index.cloudApiKey options) = Some "test-api-key"
  /\ Index.read (Index.logDestination options) = Some Index.cloud
  /\ OsmosisCloud.initialized (Index.cloudState Index.initial) = false
  /\ OsmosisCloud.ready
       (Index.cloudState
          (fst (Index.settle_cloud_init
                  (fst (Index.configure Sample.platform options
                          Index.initial))))) = true.
Proof.
  cbv zeta. do 3 (split; [reflexivity |]).
  exact (proj1 (proj2
    (configure_with_key_sends_after_init Sample.platform
       (Index.osmosisConfig (Sample.global true Index.cloud)) Index.initial
       "test-api-key" Index.cloud Sample.platform Sample.query
       Sample.response 200 eq_refl ltac:(discriminate) eq_refl
       ltac:(discriminate) eq_refl))).
Defined.

Lemma overwrite_twice {A} (a b : Index.Field A) :
  Index.overwrite (Index.overwrite a b) b = Index.overwrite a b.
Proof. by destruct b. Qed.

Lemma merge_config_idempotent previous options :
  Index.merge_config (Index.merge_config previous options) options
  = Index.merge_config previous options.
Proof.
  unfold Index.merge_config.
  destruct options as [e d f k [| |m]]; destruct previous as [e0 d0 f0 k0 a0];
    unfold Index.spread_options, Index.set_enabledAPIs; simpl;
    rewrite ?overwrite_twice; try reflexivity.
  f_equal. f_equal. unfold Index.spread_flags. simpl.
  by rewrite (assoc_L (∪)), (idemp_L (∪)).
Qed.

(** X8.  [configure] merges idempotently and has [{}] as a neutral partial:
    the same partial applied twice leaves the configuration (and the
    module flag it sets) as after once, and [configure({})] changes neither
    the configuration nor the cloud module. *)
Theorem configure_is_idempotent P P' options g :
  let once := fst (Index.configure P options g) in
  let twice := fst (Index.configure P' options once) in
  Index.osmosisConfig twice = Index.osmosisConfig once
  /\ OsmosisCloud.enabled (Index.cloudState twice)
     = OsmosisCloud.enabled (Index.cloudState once)
  /\ Index.osmosisConfig (fst (Index.configure P no_options g))
     = Index.osmosisConfig g
  /\ Index.cloudState (fst (Index.configure P no_options g))
     = Index.cloudState g.
Proof.
  cbv zeta. rewrite !configure_osmosisConfig. split; [|split; [|split]].
  - apply merge_config_idempotent.
  - destruct (configure_cloud_state P' options
                (fst (Index.configure P options g))) as (H2 & _).
    destruct (configure_cloud_state P options g) as (H1 & _).
    cbv zeta in H1, H2. rewrite H2, H1.
    by destruct (Index.read (Index.logDestination options)) as [[]|].
  - by destruct (Index.osmosisConfig g).
  - unfold Index.configure. simpl. by destruct (Index.cloudState g).
Qed.

(** X9.  [initCloud(apiKey)] turns the module flag on and stores the key
    (starting [init]); in the configuration it only rewrites a
    [logDestination] of [console] into [both].  So console logging stays as
    it was, and cloud logging is active afterwards exactly when a
    destination was set. *)
Theorem initCloud_upgrades_console_to_both apiKey g :
  let g' := fst (Index.initCloud apiKey g) in
  OsmosisCloud.enabled (Index.cloudState g') = true
  /\ OsmosisCloud.osmosisApiKey (Index.cloudState g') = Some apiKey
  /\ OsmosisCloud.initialized (Index.cloudState g')
     = OsmosisCloud.initialized (Index.cloudState g)
  /\ Index.read (Index.logDestination (Index.osmosisConfig g'))
     = match Index.read (Index.logDestination (Index.osmosisConfig g)) with
       | Some Index.console => Some Index.both
       | other => other
       end
  /\ Index.enabled (Index.osmosisConfig g')
     = Index.enabled (Index.osmosisConfig g)
  /\ Index.cloudApiKey (Index.osmosisConfig g')
     = Index.cloudApiKey (Index.osmosisConfig g)
  /\ Index.enabledAPIs (Index.osmosisConfig g')
     = Index.enabledAPIs (Index.osmosisConfig g)
  /\ Index.console_active g' = Index.console_active g
  /\ Index.cloud_active g'
     = match Index.read (Index.logDestination (Index.osmosisConfig g)) with
       | Some _ => true
       | None => false
       end.
Proof.
  unfold Index.initCloud, Index.start_cloud_init, Index.with_cloud,
    OsmosisCloud.init_begin, Index.console_active, Index.cloud_active,
    Index.destination_is.
  destruct (String.eqb apiKey ""); simpl;
    destruct (Index.read (Index.logDestination (Index.osmosisConfig g)))
      as [[]|] eqn:E; simpl; rewrite ?E; repeat split; reflexivity.
Qed.

(* ===================================================================== *)
(** * More on the interception core *)
(* ===================================================================== *)

Lemma snd_answer {A} (f : A -> Index.Answer) (m : M A) :
  snd (Index.answer f m) = map_completion f (snd m).
Proof. unfold Index.answer. by destruct m as [evs [a|e]]. Qed.

Lemma snd_bind_Normal {A B} (m : M A) (k : A -> M B) a :
  snd m = Normal a -> snd (bind m k) = snd (k a).
Proof. intros H. by rewrite (bind_Normal _ _ _ H). Qed.

(** A [request] wrapper settles as its original does. *)
Lemma request_wrapper_result P_req P_resp g apiName guard head options
    original :
  snd (bind (Index.request_phase P_req g apiName guard options)
         (fun _ =>
            bind (lift original)
              (fun responsePromise =>
                 bind (when (Index.cloud_active g)
                         (Index.response_phase P_resp g head options
                            responsePromise))
                      (fun _ => lift responsePromise))))
  = match original with
    | Normal settled => settled
    | Throw e => Throw e
    end.
Proof.
  rewrite (snd_bind_Normal _ _ tt) by reflexivity.
  destruct original as [settled|e]; [|reflexivity].
  rewrite (snd_bind_Normal _ _ settled) by reflexivity.
  rewrite (snd_bind_Normal _ _ tt); [reflexivity |].
  by destruct (Index.cloud_active g).
Qed.

Lemma openai_create_result P_req P_resp g createArgs original :
  snd (Index.openai_create P_req P_resp g createArgs original) = original.
Proof.
  destruct original as [v|e]; [|apply openai_create_rethrows].
  unfold Index.openai_create.
  rewrite (snd_bind_Normal _ _ tt) by apply when_logRequest_returns.
  set (body := bind (lift (Normal v)) _).
  assert (snd body = Normal v) as Hb.
  { subst body. rewrite (snd_bind_Normal _ _ v) by reflexivity.
    rewrite (snd_bind_Normal _ _ tt) by apply when_send_returns.
    reflexivity. }
  by rewrite (try_catch_Normal _ _ v Hb).
Qed.

Lemma langchain_generate_result apiName path kwargs P_req P_resp g this
    messages original :
  snd (Index.langchain_generate apiName path kwargs P_req P_resp g this
         messages original) = original.
Proof.
  destruct original as [v|e]; [|apply langchain_generate_rethrows].
  unfold Index.langchain_generate.
  set (printed := when (Index.console_active g) _).
  assert (snd printed = Normal tt) as H1.
  { subst printed. unfold when. destruct (Index.console_active g); [|done].
    destruct (logRequest_safe P_req g apiName (Date_toISOString P_req 0)
                (JStr path) (JStr "POST")
                (Index.requestData this kwargs messages) JNull) as [L1 _].
    by rewrite (try_catch_Normal _ _ tt L1). }
  rewrite (snd_bind_Normal _ _ tt H1).
  destruct (Index.cloud_active g); [|reflexivity].
  set (body := bind (lift (Normal v)) _).
  assert (snd body = Normal v) as Hb.
  { subst body. rewrite (snd_bind_Normal _ _ v) by reflexivity.
    rewrite (snd_bind_Normal _ _ tt) by apply send_returns.
    reflexivity. }
  by rewrite (try_catch_Normal _ _ v Hb).
Qed.

Lemma stream_finally_returns P g w text :
  snd (Index.stream_finally P g w text) = Normal tt.
Proof.
  unfold Index.stream_finally, when.
  destruct (0 <? String.length text)%nat; [|reflexivity].
  rewrite (snd_bind_Normal _ _ tt) by reflexivity. apply send_returns.
Qed.

(** Reading through the wrapper gives what reading the stream gives. *)
Lemma consume_result P g it limit s :
  match it with
  | Index.Original s' => s' = s
  | Index.Wrapped w => Index.originalStream w = s
  end ->
  snd (Index.consume P g it limit) = delivered limit s.
Proof.
  intros Hs. unfold Index.consume, delivered.
  destruct it as [s'|w]; subst s.
  - destruct limit as [[|n]|]; [reflexivity | |].
    + destruct (S n <=? _)%nat; [reflexivity |].
      by destruct (Index.failure s').
    + by destruct (Index.failure s').
  - destruct limit as [[|n]|]; [reflexivity | |].
    + destruct (S n <=? _)%nat.
      * by rewrite (snd_bind_Normal _ _ tt) by apply stream_finally_returns.
      * rewrite (snd_bind_Normal _ _ tt) by apply stream_finally_returns.
        by destruct (Index.failure (Index.originalStream w)).
    + rewrite (snd_bind_Normal _ _ tt) by apply stream_finally_returns.
      by destruct (Index.failure (Index.originalStream w)).
Qed.

(** What [create.stream] resolves to iterates over the original stream. *)
Lemma openai_create_stream_result P g streamArgs s :
  exists it,
    snd (Index.openai_create_stream P g streamArgs (Normal s)) = Normal it
    /\ match it with
       | Index.Original s' => s' = s
       | Index.Wrapped w => Index.originalStream w = s
       end.
Proof.
  unfold Index.openai_create_stream.
  rewrite (snd_bind_Normal _ _ tt) by apply when_logRequest_returns.
  set (start := if Index.cloud_active g then _ else _).
  assert (exists id, snd start = Normal id) as [id Hid].
  { subst start. destruct (Index.cloud_active g); [|by eexists].
    match goal with
    | |- context [OsmosisCloud.sendToOsmosis ?P ?st ?q ?r ?s] =>
        destruct (sendToOsmosis_returns P st q r s) as [v Hv];
        rewrite (snd_bind_Normal _ _ _ Hv)
    end.
    by eexists. }
  rewrite (snd_bind_Normal _ _ _ Hid).
  rewrite (snd_bind_Normal _ _ s) by reflexivity.
  destruct (Index.cloud_active g); cbn [negb]; by eexists.
Qed.

(** X10.  The wrappers are transparent for the caller.  Whatever the
    family, the configuration, the state of the cloud module and the
    behaviour of the platform (serialisation and network failures
    included), an intercepted call settles exactly as the original method
    would: with the same value, with the same error, and for a stream with
    the same chunks in the same order, up to the same failure. *)
Theorem wrappers_are_transparent P_req P_resp g c :
  snd (Index.intercepted P_req P_resp g c) = unwrapped c.
Proof.
  destruct c as [options original|options original|createArgs original
                |streamArgs original limit|this messages original
                |this messages original]; cbn [Index.intercepted unwrapped].
  - rewrite snd_answer. unfold Index.openai_request.
    rewrite request_wrapper_result. by destruct original as [[?|?]|?].
  - rewrite snd_answer. unfold Index.anthropic_request.
    rewrite request_wrapper_result. by destruct original as [[?|?]|?].
  - by rewrite snd_answer, openai_create_result.
  - destruct original as [s|e].
    + destruct (openai_create_stream_result P_req g streamArgs s)
        as (it & Hit & Hs).
      rewrite (snd_bind_Normal _ _ it Hit), snd_answer.
      by rewrite (consume_result P_resp g it limit s Hs).
    + by rewrite (bind_Throw _ _ e)
        by apply openai_create_stream_rethrows.
  - rewrite snd_answer. unfold Index.langchain_openai_generate.
    by rewrite langchain_generate_result.
  - rewrite snd_answer. unfold Index.langchain_anthropic_generate.
    by rewrite langchain_generate_result.
Qed.

Lemma quiet_bind {A B} (m : M A) (k : A -> M B) :
  envelopes (fst m) = [] ->
  (forall a, envelopes (fst (k a)) = []) ->
  envelopes (fst (bind m k)) = [].
Proof.
  intros Hm Hk. destruct m as [evs [a|e]]; simpl in *; [|exact Hm].
  specialize (Hk a). destruct (k a) as [evs' r]. simpl in *.
  by rewrite envelopes_app, Hm, Hk.
Qed.

Lemma quiet_try_catch {A} (m : M A) (h : Thrown -> M A) :
  envelopes (fst m) = [] ->
  (forall e, envelopes (fst (h e)) = []) ->
  envelopes (fst (try_catch m h)) = [].
Proof.
  intros Hm Hh. destruct m as [evs [a|e]]; simpl in *; [exact Hm |].
  specialize (Hh e). destruct (h e) as [evs' r]. simpl in *.
  by rewrite envelopes_app, Hm, Hh.
Qed.

Lemma quiet_when (b : bool) (m : M unit) :
  (b = true -> envelopes (fst m) = []) -> envelopes (fst (when b m)) = [].
Proof. destruct b; simpl; auto. Qed.

(** The handler that prints [err.message] posts nothing. *)
Lemma quiet_message_handler (e : Thrown) (line : string -> string) :
  envelopes
    (fst (bind (lift (message_text e)) (fun text => console_log (line text))))
  = [].
Proof. by destruct (message_text e). Qed.

Lemma sendToOsmosis_quiet P st query response status :
  OsmosisCloud.ready st = false ->
  envelopes (fst (OsmosisCloud.sendToOsmosis P st query response status)) = [].
Proof.
  intros Hr. rewrite (sendToOsmosis_closed _ _ _ _ _ Hr). simpl.
  by destruct (_ && _).
Qed.

Lemma send_quiet P g query response status :
  OsmosisCloud.ready (Index.cloudState g) = false ->
  envelopes (fst (Index.send P g query response status)) = [].
Proof. intros Hr. rewrite send_events. by apply sendToOsmosis_quiet. Qed.

Lemma guarded_send_quiet (b : bool) P g query response status :
  Index.cloud_active g = false
  \/ OsmosisCloud.ready (Index.cloudState g) = false ->
  envelopes
    (fst (when (b && Index.cloud_active g)
            (Index.send P g query response status))) = [].
Proof.
  intros [Hc|Hr].
  - by rewrite Hc, andb_false_r.
  - apply quiet_when. intros _. by apply send_quiet.
Qed.

Lemma logRequest_quiet P g apiName timestamp path method body query :
  Index.cloud_active g = false
  \/ OsmosisCloud.ready (Index.cloudState g) = false ->
  envelopes
    (fst (Index.logRequest P g apiName timestamp path method body query))
  = [].
Proof.
  intros H. unfold Index.logRequest.
  destruct (Index.config_enabled g); [|reflexivity]. cbn [negb].
  apply quiet_bind.
  - apply quiet_when. intros _.
    repeat (apply quiet_bind; [reflexivity | intros _]).
    apply quiet_bind; [apply log_body_safe | intros _].
    apply log_query_safe.
  - intros _. apply quiet_when. intros Hg.
    apply andb_true_iff in Hg as [Hc _].
    destruct H as [H|H]; [congruence |].
    apply quiet_bind; [by apply sendToOsmosis_quiet | reflexivity].
Qed.

Lemma request_wrapper_quiet P_req P_resp g apiName guard head options
    original :
  Index.cloud_active g = false
  \/ OsmosisCloud.ready (Index.cloudState g) = false ->
  envelopes
    (fst (bind (Index.request_phase P_req g apiName guard options)
            (fun _ =>
               bind (lift original)
                 (fun responsePromise =>
                    bind (when (Index.cloud_active g)
                            (Index.response_phase P_resp g head options
                               responsePromise))
                         (fun _ => lift responsePromise))))) = [].
Proof.
  intros H. apply quiet_bind.
  - unfold Index.request_phase, detached. cbn [fst].
    apply quiet_try_catch; [| intros e; apply quiet_message_handler].
    apply quiet_bind; [reflexivity | intros ro].
    apply quiet_when. intros _. by apply logRequest_quiet.
  - intros _. apply quiet_bind; [reflexivity | intros settled].
    apply quiet_bind; [|reflexivity].
    apply quiet_when. intros Hc.
    destruct H as [H|H]; [congruence |].
    unfold Index.response_phase, detached. cbn [fst].
    apply quiet_try_catch; [|reflexivity].
    apply quiet_bind; [reflexivity | intros ro].
    apply quiet_bind; [reflexivity | intros v].
    by apply send_quiet.
Qed.

Lemma when_cloud_send_quiet P g query response status :
  Index.cloud_active g = false
  \/ OsmosisCloud.ready (Index.cloudState g) = false ->
  envelopes
    (fst (when (Index.cloud_active g)
            (Index.send P g query response status))) = [].
Proof.
  intros H. apply quiet_when. intros Hc.
  destruct H as [H|H]; [congruence | by apply send_quiet].
Qed.

Lemma stream_finally_quiet P g w text :
  OsmosisCloud.ready (Index.cloudState g) = false ->
  envelopes (fst (Index.stream_finally P g w text)) = [].
Proof.
  intros Hr. unfold Index.stream_finally. apply quiet_when. intros _.
  apply quiet_bind; [reflexivity | intros _]. by apply send_quiet.
Qed.

Lemma consume_quiet P g it limit :
  match it with
  | Index.Original _ => True
  | Index.Wrapped _ => OsmosisCloud.ready (Index.cloudState g) = false
  end ->
  envelopes (fst (Index.consume P g it limit)) = [].
Proof.
  intros H. unfold Index.consume.
  destruct it as [s|w].
  - destruct limit as [[|n]|]; [reflexivity | |].
    + destruct (S n <=? _)%nat; [reflexivity |].
      by destruct (Index.failure s).
    + by destruct (Index.failure s).
  - pose proof (fun text => stream_finally_quiet P g w text H) as Hq.
    destruct limit as [[|n]|]; [reflexivity | |].
    + destruct (S n <=? _)%nat.
      * apply quiet_bind; [apply Hq | reflexivity].
      * apply quiet_bind; [apply Hq | intros _].
        by destruct (Index.failure (Index.originalStream w)).
    + apply quiet_bind; [apply Hq | intros _].
      by destruct (Index.failure (Index.originalStream w)).
Qed.

Lemma openai_create_stream_quiet P g streamArgs original :
  Index.cloud_active g = false
  \/ OsmosisCloud.ready (Index.cloudState g) = false ->
  envelopes (fst (Index.openai_create_stream P g streamArgs original)) = [].
Proof.
  intros H. unfold Index.openai_create_stream. apply quiet_bind.
  - apply quiet_when. intros _. by apply logRequest_quiet.
  - intros _. apply quiet_bind.
    + destruct (Index.cloud_active g) eqn:Hc; [|reflexivity].
      destruct H as [H|H]; [congruence |].
      apply quiet_bind; [by apply sendToOsmosis_quiet | intros id].
      apply quiet_bind; reflexivity.
    + intros id. apply quiet_bind; [reflexivity | intros s].
      by destruct (Index.cloud_active g).
Qed.

(** Without the cloud as a destination, [create.stream] resolves to the
    original stream itself. *)
Lemma openai_create_stream_passes_original P g streamArgs s :
  Index.cloud_active g = false ->
  snd (Index.openai_create_stream P g streamArgs (Normal s))
  = Normal (Index.Original s).
Proof.
  intros Hc. unfold Index.openai_create_stream. rewrite Hc.
  rewrite (snd_bind_Normal _ _ tt) by apply when_logRequest_returns.
  reflexivity.
Qed.

(** X11.  No wrapper reaches the network unless [logDestination] is
    [cloud] or [both] and the cloud module is enabled, has a key and is
    initialised: otherwise an intercepted call, of any family and with any
    outcome, calls [fetch] not once. *)
Theorem no_network_without_cloud P_req P_resp g c :
  Index.cloud_active g = false
  \/ OsmosisCloud.ready (Index.cloudState g) = false ->
  envelopes (fst (Index.intercepted P_req P_resp g c)) = [].
Proof.
  intros H.
  destruct c as [options original|options original|createArgs original
                |streamArgs original limit|this messages original
                |this messages original]; cbn [Index.intercepted];
    try rewrite answer_events.
  - by apply request_wrapper_quiet.
  - by apply request_wrapper_quiet.
  - unfold Index.openai_create. apply quiet_bind.
    + apply quiet_when. intros _. by apply logRequest_quiet.
    + intros _. apply quiet_try_catch.
      * apply quiet_bind; [reflexivity | intros v].
        apply quiet_bind; [|reflexivity]. by apply guarded_send_quiet.
      * intros e. apply quiet_bind; [|reflexivity].
        by apply when_cloud_send_quiet.
  - pose proof (openai_create_stream_quiet P_req g streamArgs original H)
      as Hq.
    destruct original as [s|e].
    + destruct (openai_create_stream_result P_req g streamArgs s)
        as (it & Hit & Hs).
      rewrite (bind_Normal _ _ it Hit). cbn [fst].
      rewrite envelopes_app, Hq, answer_events. cbn [app].
      apply consume_quiet. destruct it as [s'|w]; [done |].
      destruct H as [H|H]; [|exact H].
      rewrite (openai_create_stream_passes_original _ _ _ _ H) in Hit.
      discriminate Hit.
    + by rewrite (bind_Throw _ _ e)
        by apply openai_create_stream_rethrows.
  - unfold Index.langchain_openai_generate, Index.langchain_generate.
    apply quiet_bind.
    + apply quiet_when. intros _.
      apply quiet_try_catch;
        [by apply logRequest_quiet | intros e; apply quiet_message_handler].
    + intros _. destruct (Index.cloud_active g) eqn:Hc; [|reflexivity].
      destruct H as [H|H]; [congruence |].
      apply quiet_try_catch.
      * apply quiet_bind; [reflexivity | intros v].
        apply quiet_bind; [by apply send_quiet | reflexivity].
      * intros e.
        apply quiet_bind; [by apply send_quiet | reflexivity].
  - unfold Index.langchain_anthropic_generate, Index.langchain_generate.
    apply quiet_bind.
    + apply quiet_when. intros _.
      apply quiet_try_catch;
        [by apply logRequest_quiet | intros e; apply quiet_message_handler].
    + intros _. destruct (Index.cloud_active g) eqn:Hc; [|reflexivity].
      destruct H as [H|H]; [congruence |].
      apply quiet_try_catch.
      * apply quiet_bind; [reflexivity | intros v].
        apply quiet_bind; [by apply send_quiet | reflexivity].
      * intros e.
        apply quiet_bind; [by apply send_quiet | reflexivity].
Qed.

Lemma no_network_without_cloud_witness :
  OsmosisCloud.ready (Index.cloudState (Sample.global_without_key Index.both))
  = false
  /\ envelopes
       (fst (Index.intercepted Sample.platform Sample.platform
               (Sample.global_without_key Index.both)
               Sample.hello_world_stream)) = [].
Proof.
  split; [reflexivity |].
  apply (no_network_without_cloud Sample.platform Sample.platform
           (Sample.global_without_key Index.both) Sample.hello_world_stream).
  right. reflexivity.
Defined.

Lemma cloud_excludes_console g :
  Index.destination_is g Index.cloud = true ->
  Index.destination_is g Index.console = false.
Proof.
  unfold Index.destination_is.
  by destruct (Index.read (Index.logDestination (Index.osmosisConfig g)))
    as [[]|].
Qed.

Lemma console_only g :
  Index.destination_is g Index.console = true ->
  Index.console_active g = true /\ Index.cloud_active g = false.
Proof.
  unfold Index.console_active, Index.cloud_active, Index.destination_is.
  by destruct (Index.read (Index.logDestination (Index.osmosisConfig g)))
    as [[]|].
Qed.

(** A [request] wrapper whose request phase is not guarded in, when the
    options resolve and the original method succeeds. *)
Lemma request_wrapper_success P_req P_resp g apiName head o v :
  Index.cloud_active g = true ->
  OsmosisCloud.ready (Index.cloudState g) = true ->
  serialises P_resp ->
  let query :=
    head ++ [ ("path", obj_get o "path"); ("method", obj_get o "method");
              ("body", obj_get o "body"); ("query", obj_get o "query");
              ("timestamp", JStr (Date_toISOString P_resp 0)) ] in
  envelopes
    (fst (bind (Index.request_phase P_req g apiName false (Normal o))
            (fun _ =>
               bind (lift (Normal (Normal v)))
                 (fun responsePromise =>
                    bind (when (Index.cloud_active g)
                            (Index.response_phase P_resp g head (Normal o)
                               responsePromise))
                         (fun _ => lift responsePromise)))))
  = [OsmosisCloud.envelope P_resp (Index.cloudState g)
       (default "" (OsmosisCloud.osmosisApiKey (Index.cloudState g)))
       query (OsmosisCloud.request_id P_resp query)
       (JObj [ ("data", v);
               ("timestamp", JStr (Date_toISOString P_resp 1)) ])
       200].
Proof.
  intros Hc Hr Hs query. rewrite Hc.
  rewrite (bind_Normal _ _ tt) by reflexivity.
  rewrite (bind_Normal _ _ (Normal v)) by reflexivity.
  rewrite (bind_Normal _ _ tt) by reflexivity.
  cbn [fst snd lift when app]. rewrite app_nil_r.
  unfold Index.response_phase, detached. cbn [fst].
  rewrite (bind_Normal _ _ o) by reflexivity.
  rewrite (bind_Normal _ _ v) by reflexivity.
  cbn [fst snd lift app].
  rewrite (try_catch_Normal _ _ tt) by apply send_returns.
  rewrite send_events. cbn [fst]. rewrite envelopes_app.
  change (fst (Index.request_phase P_req g apiName false (Normal o)))
    with (@nil Event).
  fold query.
  apply (sendToOsmosis_one_envelope P_resp _ query _ 200 Hr Hs).
Qed.

(** X12.  With [logDestination: "cloud"], the cloud module enabled, keyed
    and initialised, and envelopes that serialise: a call that is not a
    stream and whose original method succeeds posts exactly one envelope,
    with status 200, the response under [response.data] and the request
    body under [query.body] (for a [request], once its options have
    resolved; for [chat.completions.create], unless [params.stream] is
    set). *)
Theorem success_posts_one_envelope P_req P_resp g c v :
  fulfilled_with c = Some v ->
  asks_for_stream c = false ->
  Index.destination_is g Index.cloud = true ->
  OsmosisCloud.ready (Index.cloudState g) = true ->
  serialises P_resp ->
  exists d,
    envelopes (fst (Index.intercepted P_req P_resp g c)) = [d]
    /\ envelope_status d = JNum 200
    /\ prop (prop d "response") "data" = v
    /\ prop (prop d "query") "body" = logged_body c.
Proof.
  intros Hf Hst Hd Hr Hs. destruct (cloud_only g Hd) as [Hc1 Hc2].
  pose proof (cloud_excludes_console g Hd) as Hc3.
  destruct c as [options original|options original|createArgs original
                |streamArgs original limit|this messages original
                |this messages original]; cbn [Index.intercepted];
    try rewrite answer_events; simpl in Hf.
  - destruct options as [o|]; [|discriminate].
    destruct original as [[v'|]|]; try discriminate. injection Hf as ->.
    unfold Index.openai_request. rewrite Hc1.
    rewrite (request_wrapper_success P_req P_resp g "OpenAI" _ o v Hc2 Hr Hs).
    eexists. split; [reflexivity |]. by repeat split.
  - destruct options as [o|]; [|discriminate].
    destruct original as [[v'|]|]; try discriminate. injection Hf as ->.
    unfold Index.anthropic_request. rewrite Hc3.
    rewrite (request_wrapper_success P_req P_resp g "Anthropic" _ o v Hc2 Hr
               Hs).
    eexists. split; [reflexivity |]. by repeat split.
  - destruct original as [v'|]; [|discriminate]. injection Hf as ->.
    simpl in Hst. unfold Index.openai_create. rewrite Hc1, Hc2, Hst.
    cbn [when negb andb].
    rewrite (bind_Normal _ _ tt) by reflexivity. cbn [fst ret app].
    set (body := bind (lift (Normal v)) _).
    assert (snd body = Normal v) as Hb.
    { subst body. rewrite (snd_bind_Normal _ _ v) by reflexivity.
      rewrite (snd_bind_Normal _ _ tt) by apply send_returns. reflexivity. }
    rewrite (try_catch_Normal _ _ v Hb). subst body.
    rewrite (bind_Normal _ _ v) by reflexivity. cbn [fst lift app].
    rewrite (bind_Normal _ _ tt) by apply send_returns.
    cbn [fst ret]. rewrite app_nil_r, send_events.
    match goal with
    | |- context [OsmosisCloud.sendToOsmosis ?P ?st ?q ?r ?s] =>
        destruct (sendToOsmosis_one_envelope P st q r s Hr Hs) as [E _]
    end.
    rewrite E. eexists. split; [reflexivity |]. by repeat split.
  - discriminate.
  - destruct original as [v'|]; [|discriminate]. injection Hf as ->.
    unfold Index.langchain_openai_generate, Index.langchain_generate.
    rewrite Hc1, Hc2. cbn [when].
    rewrite (bind_Normal _ _ tt) by reflexivity. cbn [fst ret app].
    set (body := bind (lift (Normal v)) _).
    assert (snd body = Normal v) as Hb.
    { subst body. rewrite (snd_bind_Normal _ _ v) by reflexivity.
      rewrite (snd_bind_Normal _ _ tt) by apply send_returns. reflexivity. }
    rewrite (try_catch_Normal _ _ v Hb). subst body.
    rewrite (bind_Normal _ _ v) by reflexivity. cbn [fst lift app].
    rewrite (bind_Normal _ _ tt) by apply send_returns.
    cbn [fst ret]. rewrite app_nil_r, send_events.
    match goal with
    | |- context [OsmosisCloud.sendToOsmosis ?P ?st ?q ?r ?s] =>
        destruct (sendToOsmosis_one_envelope P st q r s Hr Hs) as [E _]
    end.
    rewrite E. eexists. split; [reflexivity |]. by repeat split.
  - destruct original as [v'|]; [|discriminate]. injection Hf as ->.
    unfold Index.langchain_anthropic_generate, Index.langchain_generate.
    rewrite Hc1, Hc2. cbn [when].
    rewrite (bind_Normal _ _ tt) by reflexivity. cbn [fst ret app].
    set (body := bind (lift (Normal v)) _).
    assert (snd body = Normal v) as Hb.
    { subst body. rewrite (snd_bind_Normal _ _ v) by reflexivity.
      rewrite (snd_bind_Normal _ _ tt) by apply send_returns. reflexivity. }
    rewrite (try_catch_Normal _ _ v Hb). subst body.
    rewrite (bind_Normal _ _ v) by reflexivity. cbn [fst lift app].
    rewrite (bind_Normal _ _ tt) by apply send_returns.
    cbn [fst ret]. rewrite app_nil_r, send_events.
    match goal with
    | |- context [OsmosisCloud.sendToOsmosis ?P ?st ?q ?r ?s] =>
        destruct (sendToOsmosis_one_envelope P st q r s Hr Hs) as [E _]
    end.
    rewrite E. eexists. split; [reflexivity |]. by repeat split.
Qed.

Lemma success_posts_one_envelope_witness :
  fulfilled_with Sample.anthropic_request = Some Sample.response
  /\ asks_for_stream Sample.anthropic_request = false
  /\ Index.destination_is (Sample.global true Index.cloud) Index.cloud = true
  /\ OsmosisCloud.ready (Index.cloudState (Sample.global true Index.cloud))
     = true
  /\ exists d,
       envelopes
         (fst (Index.intercepted Sample.platform Sample.platform
                 (Sample.global true Index.cloud) Sample.anthropic_request))
       = [d]
       /\ prop (prop d "response") "data" = Sample.response.
Proof.
  do 4 (split; [reflexivity |]).
  destruct (success_posts_one_envelope Sample.platform Sample.platform
              (Sample.global true Index.cloud) Sample.anthropic_request
              Sample.response eq_refl eq_refl eq_refl eq_refl
              sample_platform_serialises) as (d & H1 & _ & H3 & _).
  exists d. by split.
Defined.

(** X13.  [chat.completions.create] with a truthy [params.stream] that
    succeeds reports nothing about the response: the effects of the call
    are those of its request-phase [logRequest] alone, so that with
    [logDestination: "cloud"] the call leaves no trace at all, neither on
    the console nor at the remote sink. *)
Theorem create_with_stream_flag_is_not_reported P_req P_resp g createArgs v :
  asks_for_stream (Index.OpenAICreate createArgs (Normal v)) = true ->
  fst (Index.intercepted P_req P_resp g
         (Index.OpenAICreate createArgs (Normal v)))
  = fst (when (Index.console_active g)
           (Index.logRequest P_req g "OpenAI v2" (Date_toISOString P_req 0)
              (JStr "/v1/chat/completions") (JStr "POST")
              (js_or (nth 0 createArgs JUndefined) (JObj [])) JNull))
  /\ (Index.destination_is g Index.cloud = true ->
      fst (Index.intercepted P_req P_resp g
             (Index.OpenAICreate createArgs (Normal v))) = []).
Proof.
  intros Hst. simpl in Hst. cbn [Index.intercepted].
  rewrite answer_events. unfold Index.openai_create. rewrite Hst.
  cbn [negb andb when].
  rewrite (bind_Normal _ _ tt) by apply when_logRequest_returns.
  cbn [fst]. split.
  - apply app_nil_r.
  - intros Hd. destruct (cloud_only g Hd) as [-> _]. reflexivity.
Qed.

Lemma create_with_stream_flag_is_not_reported_witness :
  asks_for_stream
    (Index.OpenAICreate [JObj [("model", JStr "gpt-4"); ("stream", JBool true)]]
       (Normal Sample.response)) = true
  /\ fst (Index.intercepted Sample.platform Sample.platform
            (Sample.global true Index.cloud)
            (Index.OpenAICreate
               [JObj [("model", JStr "gpt-4"); ("stream", JBool true)]]
               (Normal Sample.response))) = [].
Proof.
  split; [reflexivity |].
  apply (create_with_stream_flag_is_not_reported Sample.platform
           Sample.platform (Sample.global true Index.cloud)
           [JObj [("model", JStr "gpt-4"); ("stream", JBool true)]]
           Sample.response eq_refl).
  reflexivity.
Defined.

(** X14.  With [enabled] not [true] and [logDestination: "console"], an
    intercepted call whose arguments resolve has no effect whatsoever:
    nothing is printed, nothing is posted. *)
Theorem disabled_console_mode_is_silent P_req P_resp g c :
  Index.config_enabled g = false ->
  Index.destination_is g Index.console = true ->
  arguments_resolve c = true ->
  fst (Index.intercepted P_req P_resp g c) = [].
Proof.
  intros He Hd Ha. destruct (console_only g Hd) as [Hc1 Hc2].
  destruct c as [options original|options original|createArgs original
                |streamArgs original limit|this messages original
                |this messages original]; cbn [Index.intercepted];
    try rewrite answer_events.
  - destruct options as [o|]; [|discriminate]. unfold Index.openai_request.
    rewrite Hc1, Hc2. unfold Index.request_phase, detached. cbn [when].
    rewrite (bind_Normal (lift (Normal o)) _ o) by reflexivity.
    rewrite logRequest_disabled by exact He.
    by destruct original as [[?|?]|?].
  - destruct options as [o|]; [|discriminate]. unfold Index.anthropic_request.
    rewrite Hd, Hc2. unfold Index.request_phase, detached. cbn [when].
    rewrite (bind_Normal (lift (Normal o)) _ o) by reflexivity.
    rewrite logRequest_disabled by exact He.
    by destruct original as [[?|?]|?].
  - unfold Index.openai_create. rewrite Hc1, Hc2, andb_false_r.
    cbn [when]. rewrite logRequest_disabled by exact He.
    by destruct original.
  - assert (Index.openai_create_stream P_req g streamArgs original
            = ([], map_completion Index.Original original)) as ->.
    { unfold Index.openai_create_stream. rewrite Hc1, Hc2. cbn [when negb].
      rewrite logRequest_disabled by exact He. by destruct original. }
    destruct original as [s|e]; [|reflexivity].
    rewrite (bind_Normal _ _ (Index.Original s)) by reflexivity.
    cbn [fst app]. rewrite answer_events.
    unfold Index.consume.
    destruct limit as [[|n]|]; [reflexivity | |].
    + destruct (S n <=? _)%nat; [reflexivity |].
      by destruct (Index.failure s).
    + by destruct (Index.failure s).
  - unfold Index.langchain_openai_generate, Index.langchain_generate.
    rewrite Hc1, Hc2. cbn [when]. rewrite logRequest_disabled by exact He.
    by destruct original.
  - unfold Index.langchain_anthropic_generate, Index.langchain_generate.
    rewrite Hc1, Hc2. cbn [when]. rewrite logRequest_disabled by exact He.
    by destruct original.
Qed.

Lemma disabled_console_mode_is_silent_witness :
  Index.config_enabled (Sample.global false Index.console) = false
  /\ Index.destination_is (Sample.global false Index.console) Index.console
     = true
  /\ arguments_resolve Sample.failing_generate = true
  /\ fst (Index.intercepted Sample.platform Sample.platform
            (Sample.global false Index.console) Sample.failing_generate)
     = [].
Proof.
  do 3 (split; [reflexivity |]).
  exact (disabled_console_mode_is_silent Sample.platform Sample.platform
           (Sample.global false Index.console) Sample.failing_generate
           eq_refl eq_refl eq_refl).
Defined.

(** X15.  An installed wrapper never reads [enabledAPIs]: replacing the
    per-library flags, in any way, changes nothing in what an intercepted
    call prints, posts or returns.  (The flags only decide, in
    [loadLibraries] and the [patch...] functions, what gets installed.) *)
Theorem wrappers_ignore_enabledAPIs P_req P_resp g flags c :
  Index.intercepted P_req P_resp (with_enabledAPIs g flags) c
  = Index.intercepted P_req P_resp g c.
Proof. destruct c; reflexivity. Qed.

Lemma obj_get_head_other (k0 k : string) (v0 : JsVal) (r : Obj) :
  k0 <> k -> obj_get ((k0, v0) :: r) k = obj_get r k.
Proof. intros H. simpl. by destruct (String.eqb_spec k0 k). Qed.

(** Reading a key of [{...a, ...b}]: from [b] when [b] has the key, from
    [a] otherwise. *)
Lemma obj_get_spread (b : Obj) : forall (a : Obj) (k : string),
  NoDup (keys b) ->
  obj_get (obj_spread a b) k
  = if bool_decide (k ∈ keys b) then obj_get b k else obj_get a k.
Proof.
  unfold obj_spread.
  induction b as [|[k0 v0] r IH]; intros a k Hnd.
  - reflexivity.
  - cbn [fold_left fst snd]. apply NoDup_cons in Hnd as [Hk0 Hr].
    rewrite (IH _ k Hr). cbn [keys map fst] in *.
    destruct (decide (k = k0)) as [->|Hne].
    + rewrite (bool_decide_eq_false_2 _ Hk0).
      rewrite bool_decide_eq_true_2 by apply list_elem_of_here.
      rewrite obj_get_set. simpl. by rewrite String.eqb_refl.
    + rewrite obj_get_set_other by done.
      rewrite obj_get_head_other by congruence.
      destruct (decide (k ∈ map fst r)) as [Hin|Hin].
      * rewrite !bool_decide_eq_true_2; [done | | done].
        by apply list_elem_of_further.
      * rewrite !bool_decide_eq_false_2; [done | | done].
        intros [?|?]%elem_of_cons; done.
Qed.

(** X16.  In the request body a LangChain wrapper logs, the entries of
    [this.modelKwargs] (for ChatAnthropic: [this.invocationKwargs]) come
    last and win: a key they define reads as they define it, [model],
    [messages], [temperature] and [max_tokens] included; every other key
    reads as taken from the model and the messages. *)
Theorem requestData_kwargs_override this kwargs messages extra k :
  obj_get this kwargs = JObj extra ->
  NoDup (keys extra) ->
  prop (Index.requestData this kwargs messages) k
  = if bool_decide (k ∈ keys extra) then obj_get extra k
    else obj_get
           [ ("model", obj_get this "modelName");
             ("messages", JArr (map Index.message_entry messages));
             ("temperature", obj_get this "temperature");
             ("max_tokens", obj_get this "maxTokens") ] k.
Proof.
  intros Hkw Hnd. unfold Index.requestData, prop. cbn [own_entries].
  rewrite Hkw. cbn [own_entries]. by apply obj_get_spread.
Qed.

Lemma requestData_kwargs_override_witness :
  let this := [ ("modelName", JStr "gpt-4"); ("temperature", JNum 0);
                ("modelKwargs",
                 JObj [ ("temperature", JNum 1); ("top_p", JNum 1) ]) ] in
  NoDup (keys [ ("temperature", JNum 1); ("top_p", JNum 1) ])
  /\ prop (Index.requestData this "modelKwargs" Sample.messages) "temperature"
     = JNum 1
  /\ prop (Index.requestData this "modelKwargs" Sample.messages) "model"
     = JStr "gpt-4".
Proof.
  cbv zeta.
  assert (NoDup (keys [ ("temperature", JNum 1); ("top_p", JNum 1) ])) as Hnd.
  { apply NoDup_cons_2.
    - intros [H|H]%elem_of_cons; [discriminate H |].
      by apply elem_of_nil in H.
    - apply NoDup_singleton. }
  split; [exact Hnd |]. split.
  - rewrite (requestData_kwargs_override
               [ ("modelName", JStr "gpt-4"); ("temperature", JNum 0);
                  ("modelKwargs",
                   JObj [ ("temperature", JNum 1); ("top_p", JNum 1) ]) ]
               "modelKwargs" Sample.messages
               [ ("temperature", JNum 1); ("top_p", JNum 1) ]
               "temperature" eq_refl Hnd).
    reflexivity.
  - rewrite (requestData_kwargs_override
               [ ("modelName", JStr "gpt-4"); ("temperature", JNum 0);
                  ("modelKwargs",
                   JObj [ ("temperature", JNum 1); ("top_p", JNum 1) ]) ]
               "modelKwargs" Sample.messages
               [ ("temperature", JNum 1); ("top_p", JNum 1) ]
               "model" eq_refl Hnd).
    reflexivity.
Defined.

Lemma console_lines_app (a b : list Event) :
  console_lines (a ++ b) = console_lines a ++ console_lines b.
Proof. apply omap_app. Qed.

Lemma log_body_lines P body :
  fst (Index.log_body P body)
  = map ConsoleLog (body_line P body).
Proof.
  unfold Index.log_body, body_line, when.
  destruct (truthy body); [|reflexivity].
  destruct body; simpl; try reflexivity;
    match goal with
    | |- context [JSON_stringify_2 P ?v] =>
        destruct (JSON_stringify_2 P v); reflexivity
    end.
Qed.

Lemma log_query_lines P query :
  fst (Index.log_query P query)
  = map ConsoleLog (query_line P query).
Proof.
  unfold Index.log_query, query_line, when.
  destruct (_ && _); [|reflexivity].
  destruct (JSON_stringify_2 P query); reflexivity.
Qed.

(** X17.  The console record.  With logging enabled and [logDestination:
    "console"], [logRequest] prints the header [[OSMOSIS-AI][<timestamp>]
    <api> Request:], the [Path:] and the [Method:] lines, then one [Body:]
    line when the body is truthy (a string as it is, anything else
    pretty-printed, or the placeholder when [JSON.stringify] throws) and
    one [Query:] line when the query is truthy and has keys; it does
    nothing else and never throws. *)
Theorem logRequest_prints_the_record P g apiName timestamp path method body
    query :
  Index.config_enabled g = true ->
  Index.destination_is g Index.console = true ->
  Index.logRequest P g apiName timestamp path method body query
  = (map ConsoleLog
       ([ [JStr ("[OSMOSIS-AI][" +:+ timestamp +:+ "] " +:+ apiName
                   +:+ " Request:")];
          [JStr ("  Path: " +:+ js_String path)];
          [JStr ("  Method: " +:+ js_String method)] ]
        ++ body_line P body ++ query_line P query),
     Normal tt).
Proof.
  intros He Hd. destruct (console_only g Hd) as [Hc1 Hc2].
  unfold Index.logRequest. rewrite He, Hc1, Hc2. cbn [negb andb when].
  destruct (log_body_safe P body) as [Hb _].
  destruct (log_query_safe P query) as [Hq _].
  pose proof (log_body_lines P body) as Lb.
  pose proof (log_query_lines P query) as Lq.
  destruct (Index.log_body P body) as [eb rb].
  destruct (Index.log_query P query) as [eq rq].
  cbn [fst snd] in *. subst rb rq eb eq.
  cbn [bind console_log emit ret fst snd app map].
  by rewrite app_nil_r, map_app.
Qed.

Lemma logRequest_prints_the_record_witness :
  Index.config_enabled (Sample.global true Index.console) = true
  /\ Index.destination_is (Sample.global true Index.console) Index.console
     = true
  /\ console_lines
       (fst (Index.logRequest Sample.platform
               (Sample.global true Index.console) "OpenAI"
               "2023-03-26T12:34:56.789Z" (JStr "/v1/chat/completions")
               (JStr "POST") (JStr "raw body") JNull))
     = [ [JStr "[OSMOSIS-AI][2023-03-26T12:34:56.789Z] OpenAI Request:"];
         [JStr "  Path: /v1/chat/completions"];
         [JStr "  Method: POST"];
         [JStr "  Body: raw body"] ].
Proof.
  do 2 (split; [reflexivity |]).
  rewrite (logRequest_prints_the_record Sample.platform
             (Sample.global true Index.console) "OpenAI"
             "2023-03-26T12:34:56.789Z" (JStr "/v1/chat/completions")
             (JStr "POST") (JStr "raw body") JNull eq_refl eq_refl).
  reflexivity.
Defined.

(** X18.  With logging enabled, [logDestination: "both"], the cloud module
    enabled, keyed and initialised, and envelopes that serialise, every
    [logRequest] posts one envelope of its own, with status 200 and an
    empty response, that repeats the request (api, path, method, body,
    query, timestamp): in [both] mode the remote sink gets the request
    once more than in [cloud] mode. *)
Theorem logRequest_posts_the_request_in_both_mode P g apiName timestamp path
    method body query :
  Index.config_enabled g = true ->
  Index.destination_is g Index.both = true ->
  OsmosisCloud.ready (Index.cloudState g) = true ->
  serialises P ->
  exists d,
    envelopes
      (fst (Index.logRequest P g apiName timestamp path method body query))
    = [d]
    /\ envelope_status d = JNum 200
    /\ prop d "response" = JObj []
    /\ prop (prop d "query") "api" = JStr apiName
    /\ prop (prop d "query") "path" = path
    /\ prop (prop d "query") "method" = method
    /\ prop (prop d "query") "body" = body
    /\ prop (prop d "query") "query" = query
    /\ prop (prop d "query") "timestamp" = JStr timestamp.
Proof.
  intros He Hd Hr Hs.
  assert (Index.console_active g = true /\ Index.cloud_active g = true)
    as [Hc1 Hc2].
  { unfold Index.console_active, Index.cloud_active. rewrite Hd.
    by rewrite !orb_true_r. }
  assert (OsmosisCloud.isCloudLoggingEnabled (Index.cloudState g) = true)
    as Hi.
  { apply ready_true in Hr as (H1 & _ & H3).
    unfold OsmosisCloud.isCloudLoggingEnabled. by rewrite H1, H3. }
  unfold Index.logRequest. rewrite He, Hc1, Hc2, Hi. cbn [negb andb when].
  set (printed := bind (console_log _) _).
  assert (snd printed = Normal tt /\ envelopes (fst printed) = [])
    as [Hp1 Hp2].
  { subst printed.
    destruct (log_body_safe P body) as [Hb1 Hb2].
    destruct (log_query_safe P query) as [Hq1 Hq2].
    destruct (Index.log_body P body) as [eb rb].
    destruct (Index.log_query P query) as [eq rq].
    simpl in *. subst rb rq. simpl.
    by rewrite !envelopes_app, Hb2, Hq2. }
  rewrite (bind_Normal _ _ tt Hp1). cbn [fst].
  rewrite envelopes_app, Hp2, app_nil_l.
  match goal with
  | |- context [OsmosisCloud.sendToOsmosis ?P ?st ?q ?r ?s] =>
      destruct (sendToOsmosis_one_envelope P st q r s Hr Hs) as [E1 E2];
      rewrite (bind_Normal _ _ _ E2)
  end.
  cbn [fst ret]. rewrite app_nil_r, E1.
  eexists. split; [reflexivity |]. by repeat split.
Qed.

Lemma logRequest_posts_the_request_in_both_mode_witness :
  Index.config_enabled (Sample.global true Index.both) = true
  /\ Index.destination_is (Sample.global true Index.both) Index.both = true
  /\ OsmosisCloud.ready (Index.cloudState (Sample.global true Index.both))
     = true
  /\ exists d,
       envelopes
         (fst (Index.logRequest Sample.platform
                 (Sample.global true Index.both) "OpenAI v2"
                 "2023-03-26T12:34:56.789Z" (JStr "/v1/chat/completions")
                 (JStr "POST") (JStr "raw body") JNull)) = [d]
       /\ prop d "response" = JObj [].
Proof.
  do 3 (split; [reflexivity |]).
  destruct (logRequest_posts_the_request_in_both_mode Sample.platform
              (Sample.global true Index.both) "OpenAI v2"
              "2023-03-26T12:34:56.789Z" (JStr "/v1/chat/completions")
              (JStr "POST") (JStr "raw body") JNull eq_refl eq_refl eq_refl
              sample_platform_serialises) as (d & H1 & _ & H3 & _).
  exists d. by split.
Defined.

(* ===================================================================== *)
(** * Loading and patching *)
(* ===================================================================== *)

Lemma Library_eqb_eq a b : Loader.Library_eqb a b = true <-> a = b.
Proof. destruct a, b; simpl; split; intros H; congruence. Qed.

Lemma update_same l b f : Loader.update l b f l = b.
Proof. unfold Loader.update. by destruct l. Qed.

Lemma update_other l l' b f : l' <> l -> Loader.update l b f l' = f l'.
Proof.
  intros H. unfold Loader.update.
  destruct (Loader.Library_eqb l' l) eqn:E; [|reflexivity].
  by apply Library_eqb_eq in E.
Qed.

Lemma patch_other cfg w l l' st :
  l' <> l ->
  Loader.bindings (fst (Loader.patch cfg w l st)) l' = Loader.bindings st l'.
Proof.
  intros Hne.
  destruct l; cbn [Loader.patch fst];
    unfold Loader.patchOpenAI, Loader.patchAnthropic,
      Loader.patchLangchainOpenAI, Loader.patchLangchainAnthropic,
      Loader.patch_method;
    repeat match goal with
           | |- context [if ?b then _ else _] => destruct b
           | |- context [match Loader.dummy_client_error w with _ => _ end] =>
               destruct (Loader.dummy_client_error w)
           end;
    cbn [fst Loader.bindings]; rewrite ?update_other by done; done.
Qed.

Lemma settle_other cfg w l l' st :
  l' <> l ->
  Loader.bindings (fst (Loader.settle cfg w l st)) l'
  = Loader.bindings st l'.
Proof.
  intros Hne. unfold Loader.settle.
  destruct (Loader.import_error w l); [reflexivity |].
  match goal with
  | |- context [Loader.patch cfg w l ?s] =>
      pose proof (patch_other cfg w l l' s Hne) as H;
      destruct (Loader.patch cfg w l s) as [st2 evs]
  end.
  cbn [fst] in *. rewrite H. cbn [Loader.bindings]. by apply update_other.
Qed.

(** What a settled import leaves for its own library. *)
Lemma settle_self cfg w l st :
  let b := Loader.bindings st l in
  let b' := Loader.bindings (fst (Loader.settle cfg w l st)) l in
  let imported := bool_decide (Loader.import_error w l = None) in
  let patched := imported && Index.api_enabled cfg (Loader.key l) in
  Loader.available b' = imported || Loader.available b
  /\ Loader.method b' = (if patched then Loader.Wrapper else Loader.method b)
  /\ Loader.original b'
     = (if patched
        then match Loader.original b with
             | None => Some (Loader.method b)
             | Some saved => Some saved
             end
        else Loader.original b)
  /\ (imported = false -> b' = b)
  /\ (imported = true ->
      Loader.class b' = Some Loader.LibraryClass
      \/ (l = Loader.openai
          /\ Loader.isOpenAIV2Patched st = false
          /\ Loader.class b'
             = Some (Loader.WrappingConstructor Loader.LibraryClass))).
Proof.
  unfold Loader.settle. cbn zeta.
  destruct (Loader.import_error w l) eqn:Hi; [by repeat split |].
  cbn [bool_decide andb orb].
  destruct (Index.api_enabled cfg (Loader.key l)) eqn:He.
  - destruct l; cbn -[Index.api_enabled] in He |- *;
      unfold Loader.patchOpenAI, Loader.patchAnthropic,
        Loader.patchLangchainOpenAI, Loader.patchLangchainAnthropic,
        Loader.patch_method;
      cbn -[Index.api_enabled]; rewrite He; cbn -[Index.api_enabled];
      try (repeat split; try done; by left).
    destruct (Loader.isOpenAIV2Patched st) eqn:Hf; cbn -[Index.api_enabled].
    + repeat split; try done. by left.
    + destruct (Loader.prototype_has_chat_completions w);
        [destruct (Loader.dummy_client_error w) |];
        cbn -[Index.api_enabled]; repeat split; try done;
        (by left) || (by right).
  - destruct l; cbn -[Index.api_enabled] in He |- *;
      unfold Loader.patchOpenAI, Loader.patchAnthropic,
        Loader.patchLangchainOpenAI, Loader.patchLangchainAnthropic,
        Loader.patch_method;
      cbn -[Index.api_enabled]; rewrite He; cbn -[Index.api_enabled];
      repeat split; try done; by left.
Qed.

Lemma settle_flag cfg w l st :
  Loader.isOpenAIV2Patched (fst (Loader.settle cfg w l st))
  = Loader.isOpenAIV2Patched st
    || (Loader.Library_eqb l Loader.openai
        && bool_decide (Loader.import_error w l = None)
        && Index.api_enabled cfg (Loader.key Loader.openai)
        && Loader.prototype_has_chat_completions w
        && bool_decide (Loader.dummy_client_error w = None)).
Proof.
  unfold Loader.settle.
  destruct (Loader.import_error w l) eqn:Hi.
  { cbn [fst bool_decide andb]. by rewrite andb_false_r, orb_false_r. }
  destruct l; cbn -[Index.api_enabled];
    unfold Loader.patchOpenAI, Loader.patchAnthropic,
      Loader.patchLangchainOpenAI, Loader.patchLangchainAnthropic,
      Loader.patch_method;
    cbn -[Index.api_enabled];
    destruct (Index.api_enabled cfg "openai") eqn:He;
    cbn -[Index.api_enabled];
    rewrite ?orb_false_r;
    try (by repeat match goal with
                   | |- context [if ?b then _ else _] => destruct b
                   end).
  destruct (Loader.isOpenAIV2Patched st) eqn:Hf; cbn -[Index.api_enabled];
    [done |].
  destruct (Loader.prototype_has_chat_completions w); [| done].
  by destruct (Loader.dummy_client_error w).
Qed.

Lemma settle_well_patched cfg w l st :
  well_patched st -> well_patched (fst (Loader.settle cfg w l st)).
Proof.
  intros Hst l'.
  assert (l' = l \/ l' <> l) as [-> | Hne] by (destruct l', l; auto).
  - destruct (Hst l) as (Ho & Hm & Hc).
    destruct (settle_self cfg w l st) as (_ & Hm' & Ho' & Hsame & Hclass).
    cbn zeta in *.
    destruct (bool_decide (Loader.import_error w l = None)) eqn:Hi.
    + cbn [andb] in *.
      split; [| split].
      * rewrite Ho'.
        destruct (Index.api_enabled cfg (Loader.key l)); [| done].
        destruct (Loader.original (Loader.bindings st l)) as [[] |] eqn:E;
          try done.
        destruct (Loader.method (Loader.bindings st l)) eqn:Em; [done |].
        specialize (Hm eq_refl). congruence.
      * rewrite Hm', Ho'.
        destruct (Index.api_enabled cfg (Loader.key l)); [| done].
        intros _.
        destruct (Loader.original (Loader.bindings st l)) as [[] |] eqn:E;
          try done.
        destruct (Loader.method (Loader.bindings st l)) eqn:Em; [done |].
        specialize (Hm eq_refl). congruence.
      * intros c Hc'.
        destruct (Hclass eq_refl) as [E | (_ & _ & E)];
          rewrite E in Hc'; injection Hc' as <-; cbn; lia.
    + rewrite (Hsame eq_refl). done.
  - rewrite settle_other by done. apply Hst.
Qed.

Lemma initial_well_patched : well_patched Loader.initial.
Proof. intros l. by repeat split. Qed.

Lemma settles_well_patched bs :
  forall st, well_patched st -> well_patched (Loader.settles bs st).
Proof.
  induction bs as [| [[cfg w] l] rest IH]; intros st Hst; [done |].
  cbn [Loader.settles]. apply IH. by apply settle_well_patched.
Qed.

Lemma load_one_well_patched cfg w l st :
  well_patched st -> well_patched (fst (Loader.load_one cfg w l st)).
Proof.
  intros Hst. unfold Loader.load_one.
  destruct (Index.api_enabled cfg (Loader.key l)); [| done].
  by apply settle_well_patched.
Qed.

(** The state a run leaves is that of its four blocks, one after the
    other. *)
Lemma loadLibraries_state cfg w st :
  fst (Loader.loadLibraries cfg w st)
  = fst (Loader.load_one cfg w Loader.langchainAnthropic
      (fst (Loader.load_one cfg w Loader.langchainOpenai
        (fst (Loader.load_one cfg w Loader.anthropic
          (fst (Loader.load_one cfg w Loader.openai st))))))).
Proof.
  unfold Loader.loadLibraries. cbn [fold_left fst snd].
  destruct (Loader.load_one cfg w Loader.openai st) as [s1 e1].
  cbn [fst snd].
  destruct (Loader.load_one cfg w Loader.anthropic s1) as [s2 e2].
  cbn [fst snd].
  destruct (Loader.load_one cfg w Loader.langchainOpenai s2) as [s3 e3].
  cbn [fst snd].
  by destruct (Loader.load_one cfg w Loader.langchainAnthropic s3).
Qed.

Lemma loadLibraries_well_patched cfg w st :
  well_patched st -> well_patched (fst (Loader.loadLibraries cfg w st)).
Proof.
  intros Hst. rewrite loadLibraries_state.
  by do 4 apply load_one_well_patched.
Qed.

Lemma runs_well_patched rs :
  forall st, well_patched st -> well_patched (Loader.runs rs st).
Proof.
  induction rs as [| [cfg w] rest IH]; intros st Hst; [done |].
  cbn [Loader.runs]. apply IH. by apply loadLibraries_well_patched.
Qed.

Lemma load_one_other cfg w l l' st :
  l' <> l ->
  Loader.bindings (fst (Loader.load_one cfg w l st)) l'
  = Loader.bindings st l'.
Proof.
  intros Hne. unfold Loader.load_one.
  destruct (Index.api_enabled cfg (Loader.key l)); [| done].
  by apply settle_other.
Qed.

(** Of a run, only the block of a library touches what index.ts holds
    about it. *)
Lemma loadLibraries_binding cfg w st l :
  Loader.bindings (fst (Loader.loadLibraries cfg w st)) l
  = Loader.bindings (fst (Loader.load_one cfg w l st)) l.
Proof.
  rewrite loadLibraries_state.
  assert (forall l0 s s',
            Loader.bindings s l0 = Loader.bindings s' l0 ->
            Loader.isOpenAIV2Patched s = Loader.isOpenAIV2Patched s'
            \/ l0 <> Loader.openai ->
            Loader.bindings (fst (Loader.load_one cfg w l0 s)) l0
            = Loader.bindings (fst (Loader.load_one cfg w l0 s')) l0)
    as Hown.
  { intros l0 s s' Hb Hf. unfold Loader.load_one.
    destruct (Index.api_enabled cfg (Loader.key l0)) eqn:He; [| done].
    unfold Loader.settle.
    destruct (Loader.import_error w l0); [done |].
    destruct l0; cbn -[Index.api_enabled] in He |- *;
      unfold Loader.patchOpenAI, Loader.patchAnthropic,
        Loader.patchLangchainOpenAI, Loader.patchLangchainAnthropic,
        Loader.patch_method;
      cbn -[Index.api_enabled]; rewrite He; cbn -[Index.api_enabled];
      rewrite ?Hb; try done.
    destruct Hf as [-> | Hf]; [| done].
    destruct (negb (Loader.isOpenAIV2Patched s')
              && Loader.prototype_has_chat_completions w); [| done].
    destruct (Loader.dummy_client_error w); cbn; by rewrite ?Hb. }
  destruct l.
  - by rewrite !load_one_other by done.
  - rewrite !load_one_other by done.
    apply Hown; [by rewrite load_one_other | by right].
  - rewrite load_one_other by done.
    apply Hown; [by rewrite !load_one_other by done | by right].
  - apply Hown; [by rewrite !load_one_other by done | by right].
Qed.

Lemma settle_class cfg w l st :
  Loader.import_error w l = None ->
  Loader.class (Loader.bindings (fst (Loader.settle cfg w l st)) l)
  = Some (if Loader.Library_eqb l Loader.openai
             && Index.api_enabled cfg (Loader.key Loader.openai)
             && negb (Loader.isOpenAIV2Patched st)
             && Loader.prototype_has_chat_completions w
             && bool_decide (Loader.dummy_client_error w = None)
          then Loader.WrappingConstructor Loader.LibraryClass
          else Loader.LibraryClass).
Proof.
  intros Hi. unfold Loader.settle. rewrite Hi.
  destruct l; cbn -[Index.api_enabled];
    unfold Loader.patchOpenAI, Loader.patchAnthropic,
      Loader.patchLangchainOpenAI, Loader.patchLangchainAnthropic,
      Loader.patch_method;
    cbn -[Index.api_enabled];
    try (by repeat match goal with
                   | |- context [if ?b then _ else _] => destruct b
                   end).
  destruct (Index.api_enabled cfg "openai"); cbn -[Index.api_enabled];
    [| done].
  destruct (Loader.isOpenAIV2Patched st); cbn -[Index.api_enabled]; [done |].
  destruct (Loader.prototype_has_chat_completions w); [| done].
  by destruct (Loader.dummy_client_error w).
Qed.

Lemma settles_app bs bs' st :
  Loader.settles (bs ++ bs') st = Loader.settles bs' (Loader.settles bs st).
Proof.
  revert st. induction bs as [| [[cfg w] l] rest IH]; intros st; [done |].
  cbn [Loader.settles app]. apply IH.
Qed.

Lemma settles_flag bs :
  forall st,
    Loader.isOpenAIV2Patched st = true ->
    Loader.isOpenAIV2Patched (Loader.settles bs st) = true.
Proof.
  induction bs as [| [[cfg w] l] rest IH]; intros st Hst; [done |].
  cbn [Loader.settles]. apply IH. by rewrite settle_flag, Hst.
Qed.

(** What a settled import leaves for its library, in the words of
    [imports] and [patches]. *)
Lemma settle_binding cfg w l0 l st :
  let b := Loader.bindings st l in
  let b' := Loader.bindings (fst (Loader.settle cfg w l0 st)) l in
  Loader.available b' = imports l (cfg, w, l0) || Loader.available b
  /\ Loader.method b'
     = (if patches l (cfg, w, l0) then Loader.Wrapper else Loader.method b)
  /\ Loader.original b'
     = (if patches l (cfg, w, l0)
        then match Loader.original b with
             | None => Some (Loader.method b)
             | Some saved => Some saved
             end
        else Loader.original b)
  /\ (imports l (cfg, w, l0) = false -> b' = b)
  /\ (imports l (cfg, w, l0) = true -> Loader.class b' <> None).
Proof.
  cbn zeta. unfold patches, imports. cbn [fst snd].
  destruct (Loader.Library_eqb l0 l) eqn:E.
  - apply Library_eqb_eq in E as ->. cbn [andb].
    destruct (settle_self cfg w l st) as (Ha & Hm & Ho & Hs & Hc).
    cbn zeta in *.
    destruct (Loader.import_error w l) eqn:Hi; cbn [bool_decide andb] in *.
    + rewrite (Hs eq_refl). by repeat split.
    + do 3 (split; [done |]). split; [done |]. intros _.
      destruct (Hc eq_refl) as [-> | (_ & _ & ->)]; done.
  - cbn [andb orb].
    assert (l <> l0) as Hne.
    { intros ->. assert (Loader.Library_eqb l0 l0 = true) as H
        by by apply Library_eqb_eq.
      congruence. }
    rewrite settle_other by done. by repeat split.
Qed.

(** What a series of settled imports leaves for a library. *)
Lemma settles_binding bs :
  forall st l,
    let b := Loader.bindings st l in
    let b' := Loader.bindings (Loader.settles bs st) l in
    Loader.available b' = existsb (imports l) bs || Loader.available b
    /\ Loader.method b'
       = (if existsb (patches l) bs then Loader.Wrapper
          else Loader.method b)
    /\ Loader.original b'
       = (if existsb (patches l) bs
          then match Loader.original b with
               | None => Some (Loader.method b)
               | Some saved => Some saved
               end
          else Loader.original b)
    /\ (existsb (imports l) bs = true -> Loader.class b' <> None).
Proof.
  induction bs as [| [[cfg w] l0] rest IH]; intros st l;
    [by repeat split |].
  cbn [Loader.settles existsb]. cbn zeta.
  destruct (IH (fst (Loader.settle cfg w l0 st)) l) as (Ha & Hm & Ho & Hc).
  destruct (settle_binding cfg w l0 l st) as (Ha1 & Hm1 & Ho1 & Hs1 & Hc1).
  cbn zeta in *.
  split; [| split; [| split]].
  - rewrite Ha, Ha1.
    by destruct (imports l (cfg, w, l0)), (existsb (imports l) rest).
  - rewrite Hm, Hm1.
    by destruct (patches l (cfg, w, l0)), (existsb (patches l) rest).
  - rewrite Ho, Ho1, Hm1.
    destruct (patches l (cfg, w, l0)), (existsb (patches l) rest);
      cbn [orb]; try done.
    by destruct (Loader.original (Loader.bindings st l)).
  - destruct (existsb (imports l) rest) eqn:Er.
    + intros _. by apply Hc.
    + rewrite orb_false_r. intros Hi.
      assert (Loader.bindings
                (Loader.settles rest (fst (Loader.settle cfg w l0 st))) l
              = Loader.bindings (fst (Loader.settle cfg w l0 st)) l) as ->.
      { clear -Er. generalize (fst (Loader.settle cfg w l0 st)).
        induction rest as [| [[cfg1 w1] l1] rest IH]; intros s; [done |].
        cbn [existsb Loader.settles] in *.
        apply orb_false_iff in Er as [E1 E2].
        rewrite (IH E2).
        by destruct (settle_binding cfg1 w1 l1 l s) as (_ & _ & _ & -> & _). }
      by apply Hc1.
Qed.

(* ===================================================================== *)
(** * The loader: theorems *)
(* ===================================================================== *)

(** X19.  However often the libraries are loaded, and however the blocks
    of several runs of [loadLibraries] interleave, the replacement in the
    slot of a method calls the method of the library: the saved original
    is never a replacement, nor missing.  The class of a library is
    wrapped in at most one constructor. *)
Theorem replacement_reaches_the_library_method :
  forall (st : Loader.State) (l : Loader.Library) (I O : Type)
         (library wrapper : I -> O) (input : I),
    (exists bs, st = Loader.settles bs Loader.initial)
    \/ (exists rs, st = Loader.runs rs Loader.initial) ->
    Loader.dispatch st l library wrapper input
    = Loader.Runs (match Loader.method (Loader.bindings st l) with
                   | Loader.LibraryMethod => library input
                   | Loader.Wrapper => wrapper input
                   end)
    /\ Loader.original (Loader.bindings st l) <> Some Loader.Wrapper
    /\ forall c, Loader.class (Loader.bindings st l) = Some c ->
                 (Loader.wrappings c <= 1)%nat.
Proof.
  intros st l I O library wrapper input Hreach.
  assert (well_patched st) as Hst.
  { destruct Hreach as [[bs ->] | [rs ->]].
    - apply settles_well_patched, initial_well_patched.
    - apply runs_well_patched, initial_well_patched. }
  destruct (Hst l) as (Ho & Hm & Hc).
  split; [| by split].
  unfold Loader.dispatch.
  destruct (Loader.method (Loader.bindings st l)); [done |].
  by rewrite (Hm eq_refl).
Qed.

Lemma replacement_reaches_the_library_method_witness :
  let st := Loader.runs [(Index.defaultConfig, Worlds.complete);
                         (Index.defaultConfig, Worlds.without_anthropic)]
              Loader.initial in
  Loader.method (Loader.bindings st Loader.openai) = Loader.Wrapper
  /\ Loader.dispatch st Loader.openai (fun n : nat => n) S 0%nat
     = Loader.Runs 1%nat
  /\ Loader.original (Loader.bindings st Loader.openai)
     <> Some Loader.Wrapper.
Proof.
  cbn zeta. split; [by vm_compute |].
  destruct (replacement_reaches_the_library_method
              (Loader.runs [(Index.defaultConfig, Worlds.complete);
                            (Index.defaultConfig, Worlds.without_anthropic)]
                 Loader.initial)
              Loader.openai nat nat (fun n : nat => n) S 0%nat)
    as (Hd & Ho & _).
  - right. by eexists.
  - split; [| exact Ho]. rewrite Hd. by vm_compute.
Defined.

(** X20.  Whatever imports have settled since the module was loaded, in
    whatever order and under whatever configurations: a library is
    available exactly when one of its imports has succeeded, and the slot
    of its method holds the replacement, with the method of the library
    saved as its original, exactly when the API was enabled in
    [osmosisConfig] at the moment one of those imports settled.  Nothing
    takes the replacement out again; a library whose API was disabled
    while its import was awaited is available and not patched. *)
Theorem patched_exactly_when_loaded :
  forall (bs : list (Index.OsmosisAIOptions * Loader.World * Loader.Library))
         (l : Loader.Library),
    let b := Loader.bindings (Loader.settles bs Loader.initial) l in
    Loader.available b = existsb (imports l) bs
    /\ Loader.method b
       = (if existsb (patches l) bs then Loader.Wrapper
          else Loader.LibraryMethod)
    /\ Loader.original b
       = (if existsb (patches l) bs then Some Loader.LibraryMethod else None).
Proof.
  intros bs l. cbn zeta.
  destruct (settles_binding bs Loader.initial l) as (Ha & Hm & Ho & _).
  cbn zeta in *.
  cbn [Loader.initial Loader.bindings Loader.available Loader.method
       Loader.original] in Ha, Hm, Ho.
  by rewrite orb_false_r in Ha.
Qed.

(** The state of examples/langchain-both.ts: the run started at import
    awaits the OpenAI library under the default configuration, [configure]
    disables the API, then the import settles.  The library is available,
    and its method is not replaced. *)
Lemma available_and_not_patched :
  let st := Loader.settles
              [(Worlds.langchain_only, Worlds.complete, Loader.openai)]
              Loader.initial in
  Loader.available (Loader.bindings st Loader.openai) = true
  /\ Loader.method (Loader.bindings st Loader.openai) = Loader.LibraryMethod
  /\ Loader.original (Loader.bindings st Loader.openai) = None
  /\ Loader.exported st Loader.openai = Some Loader.LibraryClass.
Proof. by vm_compute. Qed.

(** X21.  [init()] prints its line first, and resolves to an object that
    has the class of a library exactly when an import of that library has
    succeeded by then, in its own run of [loadLibraries] or in any other,
    whatever the configuration enables now; the class is wrapped in at
    most one constructor. *)
Theorem init_exports_what_has_loaded :
  forall (before during
            : list (Index.OsmosisAIOptions * Loader.World * Loader.Library))
         (l : Loader.Library),
    let result :=
      Loader.init during (Loader.settles before Loader.initial) in
    let exports := snd result in
    (exports l = None <-> existsb (imports l) (before ++ during) = false)
    /\ (forall c, exports l = Some c -> (Loader.wrappings c <= 1)%nat)
    /\ fst (fst result) = Loader.settles (before ++ during) Loader.initial
    /\ head (snd (fst result))
       = Some (ConsoleLog
                 [JStr "[OSMOSIS-AI] Initializing with dynamic imports"]).
Proof.
  intros before during l. cbn zeta. unfold Loader.init.
  cbn [fst snd head]. rewrite <- settles_app.
  destruct (settles_binding (before ++ during) Loader.initial l)
    as (Ha & _ & _ & Hc).
  cbn zeta in *. cbn [Loader.initial Loader.bindings Loader.available] in Ha.
  rewrite orb_false_r in Ha.
  pose proof (settles_well_patched (before ++ during) _
                initial_well_patched l) as (_ & _ & Hw).
  unfold Loader.exported. rewrite Ha.
  split; [| split; [| by split]].
  - destruct (existsb (imports l) (before ++ during)) eqn:Ex; [| done].
    split; [| done]. intros Hn. by destruct (Hc eq_refl).
  - intros c Hex. apply Hw.
    by destruct (existsb (imports l) (before ++ during)).
Qed.

(** X22.  What a run of [loadLibraries] leaves for a library does not
    depend on the other libraries: it is the same in two worlds in which
    the import of this library settles alike (and, for OpenAI, the
    prototype and the dummy client are alike), whichever of the other
    imports fail. *)
Theorem libraries_load_independently :
  forall (cfg : Index.OsmosisAIOptions) (w w' : Loader.World)
         (st : Loader.State) (l : Loader.Library),
    Loader.import_error w l = Loader.import_error w' l ->
    (l = Loader.openai ->
     Loader.prototype_has_chat_completions w
     = Loader.prototype_has_chat_completions w'
     /\ Loader.dummy_client_error w = Loader.dummy_client_error w') ->
    Loader.bindings (fst (Loader.loadLibraries cfg w st)) l
    = Loader.bindings (fst (Loader.loadLibraries cfg w' st)) l
    /\ Loader.bindings (fst (Loader.loadLibraries cfg w st)) l
       = Loader.bindings (fst (Loader.load_one cfg w l st)) l.
Proof.
  intros cfg w w' st l Hi Hopenai.
  rewrite !loadLibraries_binding. split; [| done].
  unfold Loader.load_one.
  destruct (Index.api_enabled cfg (Loader.key l)); [| done].
  unfold Loader.settle. rewrite Hi.
  destruct (Loader.import_error w' l); [done |].
  destruct l; try done.
  destruct (Hopenai eq_refl) as [Hp Hd].
  cbn [Loader.patch]. unfold Loader.patchOpenAI. by rewrite Hp, Hd.
Qed.

Lemma libraries_load_independently_witness :
  Loader.method
    (Loader.bindings
       (fst (Loader.loadLibraries Index.defaultConfig
               Worlds.without_anthropic Loader.initial))
       Loader.langchainOpenai)
  = Loader.Wrapper
  /\ Loader.bindings
       (fst (Loader.loadLibraries Index.defaultConfig Worlds.complete
               Loader.initial))
       Loader.langchainOpenai
     = Loader.bindings
         (fst (Loader.loadLibraries Index.defaultConfig
                 Worlds.without_anthropic Loader.initial))
         Loader.langchainOpenai.
Proof.
  split; [by vm_compute |].
  apply (libraries_load_independently Index.defaultConfig Worlds.complete
           Worlds.without_anthropic Loader.initial Loader.langchainOpenai).
  - reflexivity.
  - intros H. discriminate H.
Defined.

(** X23.  The constructor that [patchOpenAI] puts around the OpenAI class
    lasts until the next import of the library settles.  When an import of
    OpenAI settles with the API enabled, [isOpenAIV2Patched] still unset,
    [chat.completions] on the prototype and a dummy client that can be
    built, [OpenAI] becomes the wrapping constructor.  Whatever settles
    afterwards, the next successful import of OpenAI assigns the class of
    the library to [OpenAI] again, and [isOpenAIV2Patched] keeps
    [patchOpenAI] from wrapping it a second time: from then on [init()]
    and the exports give the class of the library itself, whose clients do
    not have [chat.completions.create] replaced. *)
Theorem reload_drops_the_constructor_wrapper :
  forall (before between
            : list (Index.OsmosisAIOptions * Loader.World * Loader.Library))
         (cfg1 cfg2 : Index.OsmosisAIOptions) (w1 w2 : Loader.World),
    Loader.isOpenAIV2Patched (Loader.settles before Loader.initial) = false ->
    Loader.import_error w1 Loader.openai = None ->
    Index.api_enabled cfg1 (Loader.key Loader.openai) = true ->
    Loader.prototype_has_chat_completions w1 = true ->
    Loader.dummy_client_error w1 = None ->
    Loader.import_error w2 Loader.openai = None ->
    Loader.exported
      (Loader.settles (before ++ [(cfg1, w1, Loader.openai)]) Loader.initial)
      Loader.openai
    = Some (Loader.WrappingConstructor Loader.LibraryClass)
    /\ Loader.exported
         (Loader.settles
            (before ++ [(cfg1, w1, Loader.openai)] ++ between
               ++ [(cfg2, w2, Loader.openai)])
            Loader.initial)
         Loader.openai
       = Some Loader.LibraryClass.
Proof.
  intros before between cfg1 cfg2 w1 w2 Hf Hi1 He Hp Hd Hi2.
  assert (forall cfg w st,
            Loader.import_error w Loader.openai = None ->
            Loader.available
              (Loader.bindings (fst (Loader.settle cfg w Loader.openai st))
                 Loader.openai) = true) as Hav.
  { intros cfg w st Hi.
    destruct (settle_self cfg w Loader.openai st) as (Ha & _).
    cbn zeta in Ha. by rewrite Ha, Hi. }
  unfold Loader.exported. split.
  - rewrite settles_app. cbn [Loader.settles].
    rewrite Hav, settle_class by done.
    cbn [Loader.Library_eqb andb]. by rewrite He, Hf, Hp, Hd.
  - rewrite !app_assoc, settles_app. cbn [Loader.settles].
    rewrite Hav, settle_class by done.
    assert (Loader.isOpenAIV2Patched
              (Loader.settles
                 ((before ++ [(cfg1, w1, Loader.openai)]) ++ between)
                 Loader.initial) = true) as ->.
    { rewrite settles_app. apply settles_flag.
      rewrite settles_app. cbn [Loader.settles].
      rewrite settle_flag, Hf, Hi1, He, Hp, Hd. done. }
    cbn [negb andb]. by rewrite andb_false_r.
Qed.

Lemma reload_drops_the_constructor_wrapper_witness :
  Loader.exported
    (Loader.settles
       ([] ++ [(Index.defaultConfig, Worlds.complete, Loader.openai)])
       Loader.initial)
    Loader.openai
  = Some (Loader.WrappingConstructor Loader.LibraryClass)
  /\ Loader.exported
       (Loader.settles
          ([] ++ [(Index.defaultConfig, Worlds.complete, Loader.openai)]
             ++ [(Index.defaultConfig, Worlds.complete, Loader.anthropic)]
             ++ [(Worlds.langchain_only, Worlds.without_anthropic,
                  Loader.openai)])
          Loader.initial)
       Loader.openai
     = Some Loader.LibraryClass.
Proof.
  apply (reload_drops_the_constructor_wrapper []
           [(Index.defaultConfig, Worlds.complete, Loader.anthropic)]
           Index.defaultConfig Worlds.langchain_only
           Worlds.complete Worlds.without_anthropic);
    by vm_compute.
Defined.
